(** * enen demo: puzzle state machines and frame pipeline

    A shallow embedding of the puzzle infrastructure (include/puzzles.hpp),
    the rolling trial history (include/history.hpp, src/renderer.cpp) and the
    frame buffer and asciinema writer (include/frame.hpp), followed by the
    properties established about them.

    Conventions.
    - [uint32_t] values are integers in [0, 2^32); every operation that can
      leave that range is followed by an explicit [wrap32].
    - [int16_t] fields are written through [int16], the two's complement
      conversion.
    - [int] counters are plain integers; the theorems about them also bound
      them, so no signed overflow takes place on the runs considered.
    - [char] is [Byte.byte]; whether plain [char] is signed is a parameter of
      the functions that compare characters with integers.
    - A [while] loop whose termination depends on the random stream takes a
      fuel argument and returns [None] when the fuel is exhausted. *)

From Stdlib Require Import ZArith List Bool Lia Strings.Byte Strings.String
  DecimalString.
From stdpp Require Import base list.

Import ListNotations.
Local Open Scope Z_scope.

(* ===================================================================== *)
(** * Part I: the program                                                 *)
(* ===================================================================== *)

(** ** Machine integers *)

Definition wrap32 (z : Z) : Z := z mod 2 ^ 32.

Definition int16 (z : Z) : Z := (z + 2 ^ 15) mod 2 ^ 16 - 2 ^ 15.

(** The value of an [int].  Inside the range of [int] it is the
    mathematical result, and a conversion from a wider unsigned type wraps.
    A product that leaves the range is undefined in C++; for it the model
    takes the two's-complement value that the compiled 32-bit arithmetic
    yields. *)
Definition int32 (z : Z) : Z := (z + 2 ^ 31) mod 2 ^ 32 - 2 ^ 31.

Definition INT_MAX : Z := 2 ^ 31 - 1.

(** ** puzzles.hpp: RNG (xorshift32) *)

Module RNG.

Record t : Type := mk { state : Z }.

(** [RNG(uint32_t seed = 12345) : state(seed) {}]; the argument is
    converted to [uint32_t] at the call. *)
Definition ctor (seed : Z) : t := mk (wrap32 seed).

Definition default_seed : Z := 12345.

Definition ctor_default : t := ctor default_seed.

(** [state ^= state << 13; state ^= state >> 17; state ^= state << 5;
     return state;] *)
Definition next (r : t) : Z * t :=
  let s1 := Z.lxor (state r) (wrap32 (Z.shiftl (state r) 13)) in
  let s2 := Z.lxor s1 (Z.shiftr s1 17) in
  let s3 := Z.lxor s2 (wrap32 (Z.shiftl s2 5)) in
  (s3, mk s3).

(** [n] successive calls of [next()] on one instance: the values returned,
    in order, and the instance afterwards. *)
Fixpoint draw (n : nat) (r : t) : list Z * t :=
  match n with
  | O => ([], r)
  | S k =>
      let (v, r1) := next r in
      let (vs, r2) := draw k r1 in
      (v :: vs, r2)
  end.

(** The class invariant of a [uint32_t] member. *)
Definition valid (r : t) : Prop := 0 <= state r < 2 ^ 32.

End RNG.

(** ** puzzles.hpp: MushroomTrial *)

Module MushroomTrial.

Record t : Type := mk {
  sizeA : Z;
  sizeB : Z;
  colorA : Z;
  colorB : Z;
  correctIsA : bool
}.

(** [static MushroomTrial generateAdversarial(RNG& rng)] *)
Definition generateAdversarial (rng : RNG.t) : t * RNG.t :=
  let (v1, rng1) := RNG.next rng in
  let a := int16 (wrap32 (90 + v1 mod 38)) in
  let (v2, rng2) := RNG.next rng1 in
  let b := int16 (wrap32 (32 + v2 mod 38)) in
  let (v3, rng3) := RNG.next rng2 in
  let ca := int16 (wrap32 (10 + v3 mod 30)) in
  let (v4, rng4) := RNG.next rng3 in
  let cb := int16 (wrap32 (90 + v4 mod 38)) in
  (mk a b ca cb true, rng4).

(** [while (std::abs(t.sizeA - t.sizeB) < 20) t.sizeB = 32 + rng.next() % 96;]
    One unit of fuel is spent per iteration of the body. *)
Fixpoint redraw (fuel : nat) (a b : Z) (rng : RNG.t) : option (Z * RNG.t) :=
  if Z.abs (a - b) <? 20 then
    match fuel with
    | O => None
    | S fuel' =>
        let (v, rng') := RNG.next rng in
        redraw fuel' a (int16 (wrap32 (32 + v mod 96))) rng'
    end
  else Some (b, rng).

(** [static MushroomTrial generate(RNG& rng, bool adversarial = false)] *)
Definition generate (fuel : nat) (rng : RNG.t) (adversarial : bool)
  : option (t * RNG.t) :=
  if adversarial then Some (generateAdversarial rng)
  else
    let (v1, rng1) := RNG.next rng in
    let a := int16 (wrap32 (32 + v1 mod 96)) in
    let (v2, rng2) := RNG.next rng1 in
    let b0 := int16 (wrap32 (32 + v2 mod 96)) in
    match redraw fuel a b0 rng2 with
    | None => None
    | Some (b, rng3) =>
        let (v3, rng4) := RNG.next rng3 in
        let ca := int16 (wrap32 (v3 mod 128)) in
        let (v4, rng5) := RNG.next rng4 in
        let cb := int16 (wrap32 (v4 mod 128)) in
        Some (mk a b ca cb (a >? b), rng5)
    end.

(** [static const char* colorName(int16_t color)] *)
Definition colorName (color : Z) : String.string :=
  if color <? 16 then "red"%string
  else if color <? 32 then "orange"%string
  else if color <? 48 then "yellow"%string
  else if color <? 64 then "green"%string
  else if color <? 80 then "cyan"%string
  else if color <? 96 then "blue"%string
  else if color <? 112 then "purple"%string
  else "pink"%string.

End MushroomTrial.

(** ** puzzles.hpp: SequencePuzzle *)

Inductive SequenceState : Type := START | PRESSED_A | SUCCESS | FAIL.

Module SequencePuzzle.

Record t : Type := mk { state : SequenceState }.

(** [SequenceState state = SequenceState::START;] *)
Definition init : t := mk START.

Definition BUTTON_A : Z := 0.
Definition BUTTON_B : Z := 1.

(** [bool pressButton(int button)], 0 = A, 1 = B: the value returned and
    the puzzle afterwards. *)
Definition pressButton (p : t) (button : Z) : bool * t :=
  match state p with
  | START =>
      if button =? 0 then (true, mk PRESSED_A) else (false, mk FAIL)
  | PRESSED_A =>
      if button =? 1 then (true, mk SUCCESS) else (false, mk FAIL)
  | _ => (false, p)
  end.

Definition isSuccess (p : t) : bool :=
  match state p with SUCCESS => true | _ => false end.
Definition isFail (p : t) : bool :=
  match state p with FAIL => true | _ => false end.
Definition inProgress (p : t) : bool :=
  match state p with PRESSED_A => true | _ => false end.

Definition reset (p : t) : t := mk START.

Definition lastActionInput (p : t) : Z :=
  match state p with
  | PRESSED_A => 64
  | START => 0
  | _ => 0
  end.

End SequencePuzzle.

(** ** puzzles.hpp: LearningValidator *)

Module LearningValidator.

Record t : Type := mk {
  failures : Z;
  successes : Z;
  total_trials : Z
}.

(** The default member initialisers. *)
Definition init : t := mk 0 0 0.

Definition recordOutcome (v : t) (success : bool) : t :=
  let total := total_trials v + 1 in
  if success then mk (failures v) (successes v + 1) total
  else mk (failures v + 1) 0 total.

Definition requiredSuccesses (v : t) : Z := 4.

Definition hasLearned (v : t) : bool :=
  (total_trials v >=? 5) && (successes v >=? requiredSuccesses v).

Definition reset (v : t) : t := mk 0 0 0.

Definition isFirstTrial (v : t) : bool := total_trials v =? 0.

(** The validator after a sequence of [recordOutcome] calls, oldest
    outcome first. *)
Definition run (outcomes : list bool) (v : t) : t :=
  fold_left recordOutcome outcomes v.

End LearningValidator.

(** ** puzzles.hpp: GauntletState *)

Module GauntletState.

Record t : Type := mk {
  warmup_completed : Z;
  scored_completed : Z;
  correct : Z
}.

Definition init : t := mk 0 0 0.

Definition WARMUP_TRIALS : Z := 10.
Definition SCORED_TRIALS : Z := 20.

Definition inWarmup (g : t) : bool := warmup_completed g <? WARMUP_TRIALS.

Definition recordOutcome (g : t) (success : bool) : t :=
  if inWarmup g then
    mk (warmup_completed g + 1) (scored_completed g) (correct g)
  else
    mk (warmup_completed g) (scored_completed g + 1)
       (if success then correct g + 1 else correct g).

Definition isComplete (g : t) : bool := scored_completed g >=? SCORED_TRIALS.


Definition currentTrials (g : t) : Z := warmup_completed g + scored_completed g.

Definition reset (g : t) : t := mk 0 0 0.

Definition run (outcomes : list bool) (g : t) : t :=
  fold_left recordOutcome outcomes g.

(** What one trial does to the gauntlet in the drivers
    ([runPuzzle5Trial] in main.cpp and game.cpp return before recording
    when [isComplete()]; the loop of [runPuzzle5] in the auto-run is
    [while (!gauntlet.isComplete())]). *)
Definition runPuzzle5Trial (g : t) (correct_answer : bool) : t :=
  if isComplete g then g else recordOutcome g correct_answer.


End GauntletState.

(** ** history.hpp, renderer.hpp: the rolling histories *)

(** [while (entries_.size() > MAX_ENTRIES) entries_.erase(entries_.begin());]
    Each iteration removes the head, so the loop is structural. *)
Fixpoint erase_front_while_over {A : Type} (max : nat) (l : list A) : list A :=
  if (max <? length l)%nat then
    match l with
    | [] => []
    | _ :: rest => erase_front_while_over max rest
    end
  else l.

Record HistoryEntry : Type := {
  trialNum : Z;
  correct : bool;
  summary : String.string
}.

Module History.

Record t : Type := mk { entries_ : list HistoryEntry }.

Definition init : t := mk [].

Definition MAX_ENTRIES : nat := 4.

Definition add (h : t) (n : Z) (ok : bool) (text : String.string) : t :=
  mk (erase_front_while_over MAX_ENTRIES
        (entries_ h ++ [Build_HistoryEntry n ok text])).

Definition clear (h : t) : t := mk [].

Definition entries (h : t) : list HistoryEntry := entries_ h.

Definition empty (h : t) : bool :=
  match entries_ h with [] => true | _ => false end.

End History.

Record TrialRecord : Type := {
  trial_num : Z;
  trial_correct : bool;
  trial_summary : String.string
}.

Module TrialHistory.

Record t : Type := mk { entries_ : list TrialRecord }.

Definition init : t := mk [].

Definition MAX_ENTRIES : nat := 4.

(** renderer.cpp, [TrialHistory::add]. *)
Definition add (h : t) (n : Z) (ok : bool) (text : String.string) : t :=
  mk (erase_front_while_over MAX_ENTRIES
        (entries_ h ++ [Build_TrialRecord n ok text])).

Definition clear (h : t) : t := mk [].

Definition entries (h : t) : list TrialRecord := entries_ h.

End TrialHistory.

(** A call on a history object, for stating properties of call sequences. *)
Inductive HistoryCall : Type :=
| CallAdd (n : Z) (ok : bool) (text : String.string)
| CallClear.

Definition History_call (h : History.t) (c : HistoryCall) : History.t :=
  match c with
  | CallAdd n ok text => History.add h n ok text
  | CallClear => History.clear h
  end.

Definition TrialHistory_call (h : TrialHistory.t) (c : HistoryCall)
  : TrialHistory.t :=
  match c with
  | CallAdd n ok text => TrialHistory.add h n ok text
  | CallClear => TrialHistory.clear h
  end.

(** ** frame.hpp: terminal constants and ANSI sequences *)

Module terminal.
Definition WIDTH : Z := 80.
Definition HEIGHT : Z := 24.
End terminal.

Module ansi.

Definition ESC : byte := x1b.

(** ["\x1b[2J\x1b[H"] *)
Definition CLEAR : list byte :=
  ESC :: list_byte_of_string "[2J" ++ ESC :: list_byte_of_string "[H".

(** ["\x1b[22m\x1b[38;2;242;178;51m\x1b[48;2;12;12;10m"] *)
Definition AMBER : list byte :=
  ESC :: list_byte_of_string "[22m"
  ++ ESC :: list_byte_of_string "[38;2;242;178;51m"
  ++ ESC :: list_byte_of_string "[48;2;12;12;10m".

(** ["\x1b[2J\x1b[H\x1b[22m\x1b[38;2;242;178;51m\x1b[48;2;12;12;10m"] *)
Definition INIT : list byte := CLEAR ++ AMBER.

End ansi.

(** [strlen] and [%s]: the bytes of a C string stop before the first NUL. *)
Fixpoint c_str (s : list byte) : list byte :=
  match s with
  | [] => []
  | c :: rest => if Byte.eqb c x00 then [] else c :: c_str rest
  end.

(** ** frame.hpp: TextBuffer *)

Module TextBuffer.

(** [char buffer_[terminal::HEIGHT][terminal::WIDTH + 1];] as a list of
    rows.  [shaped] is the shape the array type imposes. *)
Record t : Type := mk { buffer_ : list (list byte) }.

Definition shaped (b : t) : Prop :=
  length (buffer_ b) = Z.to_nat terminal.HEIGHT
  /\ Forall (fun row => length row = Z.to_nat (terminal.WIDTH + 1)) (buffer_ b).

Definition in_array (y x : Z) : bool :=
  (0 <=? y) && (y <? terminal.HEIGHT)
  && (0 <=? x) && (x <? terminal.WIDTH + 1).

(** The value of [buffer_[y][x]]; [None] outside the array. *)
Definition read (b : t) (y x : Z) : option byte :=
  if in_array y x then
    match buffer_ b !! Z.to_nat y with
    | Some row => row !! Z.to_nat x
    | None => None
    end
  else None.

(** The assignment [buffer_[y][x] = c]; [None] is a store outside the
    array, which the language leaves undefined. *)
Definition write (b : t) (y x : Z) (c : byte) : option t :=
  if in_array y x then
    match buffer_ b !! Z.to_nat y with
    | Some row =>
        if (Z.to_nat x <? length row)%nat then
          Some (mk (<[Z.to_nat y := <[Z.to_nat x := c]> row]> (buffer_ b)))
        else None
    | None => None
    end
  else None.

(** [memset(buffer_[y], ' ', WIDTH); buffer_[y][WIDTH] = '\0';] on each row. *)
Definition clear (b : t) : t :=
  mk (replicate (Z.to_nat terminal.HEIGHT)
        (replicate (Z.to_nat terminal.WIDTH) x20 ++ [x00])).

(** [for (int i = 0; i < len && x + i < WIDTH; i++)
       if (x + i >= 0) buffer_[y][x + i] = str[i];]
    with [str] the characters from index [i] on. *)
Fixpoint putString_loop (x y i : Z) (str : list byte) (b : t) : option t :=
  match str with
  | [] => Some b
  | c :: rest =>
      if x + i <? terminal.WIDTH then
        match (if x + i >=? 0 then write b y (x + i) c else Some b) with
        | Some b' => putString_loop x y (i + 1) rest b'
        | None => None
        end
      else Some b
  end.

Definition putString (b : t) (x y : Z) (str : list byte) : option t :=
  if (y <? 0) || (y >=? terminal.HEIGHT) then Some b
  else putString_loop x y 0 (c_str str) b.

Definition putChar (b : t) (x y : Z) (c : byte) : option t :=
  if (x >=? 0) && (x <? terminal.WIDTH) && (y >=? 0) && (y <? terminal.HEIGHT)
  then write b y x c
  else Some b.

(** [for (int i = 0; i < length && x + i < WIDTH; i++)
       if (y >= 0 && y < HEIGHT && x + i >= 0) buffer_[y][x + i] = c;]
    with [n] the number of values of [i] still below [length]. *)
Fixpoint drawHLine_loop (n : nat) (x y i : Z) (c : byte) (b : t) : option t :=
  match n with
  | O => Some b
  | S n' =>
      if x + i <? terminal.WIDTH then
        match (if (y >=? 0) && (y <? terminal.HEIGHT) && (x + i >=? 0)
               then write b y (x + i) c else Some b) with
        | Some b' => drawHLine_loop n' x y (i + 1) c b'
        | None => None
        end
      else Some b
  end.

Definition drawHLine (b : t) (x y length : Z) (c : byte) : option t :=
  drawHLine_loop (Z.to_nat length) x y 0 c b.

(** [line(y)], read as a C string as [buildFrameContent] does. *)
Definition line (b : t) (y : Z) : list byte :=
  if (y >=? 0) && (y <? terminal.HEIGHT) then
    match buffer_ b !! Z.to_nat y with
    | Some row => c_str row
    | None => []
    end
  else [].

End TextBuffer.

(** ** frame.hpp: FrameWriter *)

Module FrameWriter.

(** Only [firstFrame_] is kept; [time_] is a [double] that no function
    below reads. *)
Record t : Type := mk { firstFrame_ : bool }.

Definition init : t := mk true.

Definition buildFrameContent (w : t) (b : TextBuffer.t) : list byte * t :=
  let result := if firstFrame_ w then ansi.INIT else ansi.CLEAR in
  (result ++ flat_map (fun y => TextBuffer.line b (Z.of_nat y) ++ [x0a])
               (seq 0 (Z.to_nat terminal.HEIGHT)),
   mk false).

(** The value of a [char] in a comparison with an [int]. *)
Definition char_value (char_signed : bool) (c : byte) : Z :=
  let u := Z.of_N (Byte.to_N c) in
  if char_signed && (128 <=? u) then u - 256 else u.

Definition hexdigit (d : Z) : byte :=
  nth (Z.to_nat d) (list_byte_of_string "0123456789abcdef") x30.

(** [snprintf(buf, sizeof(buf), "\\u%04x", static_cast<unsigned char>(c))] *)
Definition u_escape (c : byte) : list byte :=
  let u := Z.of_N (Byte.to_N c) in
  [x5c; x75; hexdigit (u / 4096 mod 16); hexdigit (u / 256 mod 16);
   hexdigit (u / 16 mod 16); hexdigit (u mod 16)].

(** The body of the [switch (c)]: what one character appends. *)
Definition escape_char (char_signed : bool) (c : byte) : list byte :=
  match c with
  | x22 => [x5c; x22]
  | x5c => [x5c; x5c]
  | x0a => [x5c; x72; x5c; x6e]
  | x0d => []
  | x09 => [x5c; x74]
  | _ =>
      let v := char_value char_signed c in
      if (v >=? 32) && (v <? 127) then [c]
      else if v <? 32 then u_escape c
      else []
  end.

Definition escapeForJson (char_signed : bool) (content : list byte) : list byte :=
  flat_map (escape_char char_signed) content.

(** [outputFrame]: the text placed between the quotes of the event line,
    and the writer afterwards. *)
Definition outputFrame (char_signed : bool) (w : t) (b : TextBuffer.t)
  : list byte * t :=
  let (content, w') := buildFrameContent w b in
  (escapeForJson char_signed content, w').

End FrameWriter.

(** ** puzzles.hpp: ShapeTrial *)

Module ShapeTrial.

Record t : Type := mk {
  colorA : Z;
  shapeA : Z;
  colorB : Z;
  shapeB : Z;
  correctIsA : bool
}.

(** [static int rank(int16_t color, int16_t shape)] *)
Definition rank (color shape : Z) : Z :=
  let isCircle := shape >? 64 in
  let isBlue := color <? 26 in
  if negb isCircle && isBlue then 2
  else if isCircle then 1
  else 0.

(** [(rng.next() % 2) ? 127 : 0], stored in an [int16_t]. *)
Definition shape_draw (v : Z) : Z :=
  int16 (if negb (v mod 2 =? 0) then 127 else 0).

(** [static ShapeTrial generateAdversarial(RNG& rng)] *)
Definition generateAdversarial (rng : RNG.t) : t * RNG.t :=
  let sA := int16 0 in
  let (v1, rng1) := RNG.next rng in
  let cA := int16 (wrap32 (5 + v1 mod 20)) in
  let sB := int16 127 in
  let (v2, rng2) := RNG.next rng1 in
  let cB := int16 (wrap32 (80 + v2 mod 48)) in
  (mk cA sA cB sB true, rng2).

(** [while (rankA == rankB) { t.colorB = rng.next() % 128;
       t.shapeB = (rng.next() % 2) ? 127 : 0; rankB = rank(t.colorB, t.shapeB); }]
    One unit of fuel is spent per iteration of the body. *)
Fixpoint reroll (fuel : nat) (rankA cB sB rankB : Z) (rng : RNG.t)
  : option (Z * Z * Z * RNG.t) :=
  if rankA =? rankB then
    match fuel with
    | O => None
    | S fuel' =>
        let (v1, rng1) := RNG.next rng in
        let cB' := int16 (wrap32 (v1 mod 128)) in
        let (v2, rng2) := RNG.next rng1 in
        let sB' := shape_draw v2 in
        reroll fuel' rankA cB' sB' (rank cB' sB') rng2
    end
  else Some (cB, sB, rankB, rng).

(** [static ShapeTrial generate(RNG& rng, bool adversarial = false)] *)
Definition generate (fuel : nat) (rng : RNG.t) (adversarial : bool)
  : option (t * RNG.t) :=
  if adversarial then Some (generateAdversarial rng)
  else
    let (v1, rng1) := RNG.next rng in
    let sA := shape_draw v1 in
    let (v2, rng2) := RNG.next rng1 in
    let sB0 := shape_draw v2 in
    let (v3, rng3) := RNG.next rng2 in
    let cA := int16 (wrap32 (v3 mod 128)) in
    let (v4, rng4) := RNG.next rng3 in
    let cB0 := int16 (wrap32 (v4 mod 128)) in
    let rankA := rank cA sA in
    let rankB0 := rank cB0 sB0 in
    match reroll fuel rankA cB0 sB0 rankB0 rng4 with
    | None => None
    | Some (cB, sB, rankB, rng5) =>
        Some (mk cA sA cB sB (rankA >? rankB), rng5)
    end.

Definition shapeName (shape : Z) : String.string :=
  if shape >? 64 then "circle"%string else "square"%string.

Definition colorName (color : Z) : String.string :=
  if color <? 26 then "blue"%string
  else if color <? 52 then "green"%string
  else if color <? 78 then "yellow"%string
  else if color <? 104 then "red"%string
  else "purple"%string.

Definition isBlue (color : Z) : bool := color <? 26.

Definition isCircle (shape : Z) : bool := shape >? 64.

End ShapeTrial.

(** ** puzzles.hpp: XORTrial *)

Module XORTrial.

Record t : Type := mk {
  lightOn : bool;
  choosingRight : bool;
  isSafe : bool
}.

(** [static XORTrial generate(RNG& rng)]; a [bool] member takes [true]
    from a non-zero remainder. *)
Definition generate (rng : RNG.t) : t * RNG.t :=
  let (v1, rng1) := RNG.next rng in
  let light := negb (v1 mod 2 =? 0) in
  let (v2, rng2) := RNG.next rng1 in
  let right := negb (v2 mod 2 =? 0) in
  (mk light right (negb (Bool.eqb light right)), rng2).

Definition lightInput (x : t) : Z := if lightOn x then 127 else 0.
Definition pathInput (x : t) : Z := if choosingRight x then 127 else 0.

End XORTrial.

(** ** puzzles.hpp: CompositionTrial *)

Module CompositionTrial.

Record t : Type := mk {
  lightOn : bool;
  sizeA : Z;
  sizeB : Z;
  correctIsA : bool
}.

(** [while (std::abs(t.sizeA - t.sizeB) < 20) t.sizeB = 32 + rng.next() % 96;] *)
Fixpoint redraw (fuel : nat) (a b : Z) (rng : RNG.t) : option (Z * RNG.t) :=
  if Z.abs (a - b) <? 20 then
    match fuel with
    | O => None
    | S fuel' =>
        let (v, rng') := RNG.next rng in
        redraw fuel' a (int16 (wrap32 (32 + v mod 96))) rng'
    end
  else Some (b, rng).

(** [static CompositionTrial generate(RNG& rng)] *)
Definition generate (fuel : nat) (rng : RNG.t) : option (t * RNG.t) :=
  let (v0, rng0) := RNG.next rng in
  let light := negb (v0 mod 2 =? 0) in
  let (v1, rng1) := RNG.next rng0 in
  let a := int16 (wrap32 (32 + v1 mod 96)) in
  let (v2, rng2) := RNG.next rng1 in
  let b0 := int16 (wrap32 (32 + v2 mod 96)) in
  match redraw fuel a b0 rng2 with
  | None => None
  | Some (b, rng3) =>
      let aIsLarger := a >? b in
      Some (mk light a b (if light then aIsLarger else negb aIsLarger), rng3)
  end.

Definition lightInput (x : t) : Z := if lightOn x then 127 else 0.

End CompositionTrial.

(** ** networks.hpp: input scaling and output reading *)

Definition wrap8 (z : Z) : Z := z mod 2 ^ 8.

(** [std::clamp(v, lo, hi)] *)
Definition clamp (v lo hi : Z) : Z :=
  if v <? lo then lo else if hi <? v then hi else v.

(** [static_cast<uint8_t>(std::clamp(static_cast<int>(val) * 2, 0, 255))] *)
Definition scaleToU8 (val : Z) : Z := wrap8 (clamp (val * 2) 0 255).

Definition interpretBool (out : Z) : bool := out >? 128.

(** ** layout.hpp: drawProgressBar *)

(** The local array [bar] up to and including its terminator:
    ['['], ten cells that are ['#'] below [filled] and ['.'] from there on,
    [']'], NUL.  [value * 10] is an [int] product. *)
Definition progress_bar (value max : Z) : list byte :=
  let filled := if max >? 0 then Z.quot (int32 (value * 10)) max else 0 in
  let filled := if filled >? 10 then 10 else filled in
  x5b :: map (fun i => if Z.of_nat i <? filled then x23 else x2e) (seq 0 10)
      ++ [x5d; x00].

Definition drawProgressBar (b : TextBuffer.t) (x y value max : Z)
  : option TextBuffer.t :=
  TextBuffer.putString b x y (progress_bar value max).

(** ** renderer.cpp: the drawing primitives of Renderer *)

Module Renderer.

Definition TERM_WIDTH : Z := 80.
Definition TERM_HEIGHT : Z := 24.

(** The member [char buffer_[TERM_HEIGHT][TERM_WIDTH + 1]] has the type of
    the array of [TextBuffer]; these functions take and return it. *)
Definition putChar (b : TextBuffer.t) (x y : Z) (c : byte) : option TextBuffer.t :=
  if (y >=? 0) && (y <? TERM_HEIGHT) && (x >=? 0) && (x <? TERM_WIDTH)
  then TextBuffer.write b y x c
  else Some b.

(** [for (int i = 0; i < len; i++) putChar(x + i, y, c);]
    with [n] the number of values of [i] still below [len]. *)
Fixpoint drawHLine_loop (n : nat) (x y i : Z) (c : byte) (b : TextBuffer.t)
  : option TextBuffer.t :=
  match n with
  | O => Some b
  | S n' =>
      match putChar b (x + i) y c with
      | Some b' => drawHLine_loop n' x y (i + 1) c b'
      | None => None
      end
  end.

Definition drawHLine (b : TextBuffer.t) (x y len : Z) (c : byte)
  : option TextBuffer.t :=
  drawHLine_loop (Z.to_nat len) x y 0 c b.

End Renderer.

(** ** history.hpp: drawHistory *)

(** What [%d] prints. *)
Definition decimal (z : Z) : list byte :=
  list_byte_of_string (NilZero.string_of_int (Z.to_int z)).

(** What the format ["  Trial %d: %s %s"] expands to for an entry, before
    any limit of size. *)
Definition history_format (e : HistoryEntry) : list byte :=
  list_byte_of_string "  Trial " ++ decimal (trialNum e)
  ++ list_byte_of_string ": "
  ++ list_byte_of_string (if correct e then "[OK]" else "[X]")
  ++ list_byte_of_string " "
  ++ c_str (list_byte_of_string (summary e)).

(** [char line[60]; snprintf(line, sizeof(line), ...);
     if (strlen(line) > 50) line[50] = '\0';]: the string left in [line]. *)
Definition history_line (e : HistoryEntry) : list byte :=
  let line := take 59 (history_format e) in
  if (50 <? length line)%nat then take 50 line else line.

(** [for (size_t i = 0; i < entries.size()
          && static_cast<int>(startY + 1 + i) < terminal::HEIGHT - 2; i++)]
    with [recent_first] the entries [entries[size - 1 - i]] from [i] on. *)
Fixpoint drawHistory_loop (startY i : Z) (recent_first : list HistoryEntry)
    (b : TextBuffer.t) : option TextBuffer.t :=
  match recent_first with
  | [] => Some b
  | e :: rest =>
      if int32 (startY + 1 + i) <? terminal.HEIGHT - 2 then
        match TextBuffer.putString b 0 (startY + 1 + i) (history_line e) with
        | Some b' => drawHistory_loop startY (i + 1) rest b'
        | None => None
        end
      else Some b
  end.

Definition drawHistory (b : TextBuffer.t) (history : History.t) (startY : Z)
  : option TextBuffer.t :=
  match TextBuffer.putString b 0 startY (list_byte_of_string "HISTORY:") with
  | Some b1 => drawHistory_loop startY 0 (rev (History.entries history)) b1
  | None => None
  end.

(** ** puzzles.hpp: PuzzleType *)

Inductive PuzzleType : Type :=
| GENERALIZATION | FEATURE_SELECTION | XOR_CONTEXT | SEQUENCE | COMPOSITION.

Definition NUM_PUZZLES : Z := 5.

(** [static_cast<int>(puzzle)] *)
Definition puzzle_to_int (p : PuzzleType) : Z :=
  match p with
  | GENERALIZATION => 0
  | FEATURE_SELECTION => 1
  | XOR_CONTEXT => 2
  | SEQUENCE => 3
  | COMPOSITION => 4
  end.

(** [static_cast<PuzzleType>(n)] for the value of an enumerator. *)
Definition puzzle_of_int (n : Z) : PuzzleType :=
  if n =? 0 then GENERALIZATION
  else if n =? 1 then FEATURE_SELECTION
  else if n =? 2 then XOR_CONTEXT
  else if n =? 3 then SEQUENCE
  else COMPOSITION.

(** ** networks.hpp: the wrappers around intgr_nn::IntegerGD

    [intgr_nn] is a library outside the repository.  Its network object is
    a parameter: a type of states, a forward pass that returns the output
    bytes and the state it leaves behind ([net_] is [mutable]), and a
    backward pass.  What networks.hpp computes around them is written out. *)

Record IntegerGD : Type := {
  gd_state : Type;
  gd_forward : gd_state -> list Z -> list Z * gd_state;
  gd_backward : gd_state -> list Z -> list Z -> gd_state
}.

Section Game.

Variable gd : IntegerGD.

(** [auto output = net_->forward(input); ... net_->backward(output, target);] *)
Definition train_sample (g : gd_state gd) (input target : list Z) : gd_state gd :=
  let (output, g1) := gd_forward gd g input in
  gd_backward gd g1 output target.

(** [for (const auto& s : history_) { ... }] *)
Fixpoint train_pass (g : gd_state gd) (samples : list (list Z * list Z))
  : gd_state gd :=
  match samples with
  | [] => g
  | (input, target) :: rest => train_pass (train_sample g input target) rest
  end.

(** [for (int epoch = 0; epoch < EPOCHS_PER_TRIAL; epoch++) { ... }] *)
Fixpoint train_epochs (epochs : nat) (g : gd_state gd)
    (samples : list (list Z * list Z)) : gd_state gd :=
  match epochs with
  | O => g
  | S epochs' => train_epochs epochs' (train_pass g samples) samples
  end.

(** The four wrappers with one output read through [interpretBool]
    ([GeneralizationNet], [FeatureSelectionNet], [XORNet],
    [CompositionNet]) differ in the number of inputs and in
    [EPOCHS_PER_TRIAL]; a sample is the list of its [int16_t] inputs and its
    [bool]. *)
Record BoolNet : Type := mkBoolNet {
  net_ : gd_state gd;
  history_ : list (list Z * bool)
}.

Definition encode_sample (s : list Z * bool) : list Z * list Z :=
  (map scaleToU8 (fst s), [if snd s then 255 else 0]).

(** [chooseA] and [isSafe]. *)
Definition BoolNet_ask (n : BoolNet) (inputs : list Z) : bool * BoolNet :=
  let (output, g) := gd_forward gd (net_ n) (map scaleToU8 inputs) in
  (interpretBool (nth 0 output 0), mkBoolNet g (history_ n)).

(** [learn]. *)
Definition BoolNet_learn (epochs : nat) (n : BoolNet) (inputs : list Z)
    (target : bool) : BoolNet :=
  let h := history_ n ++ [(inputs, target)] in
  mkBoolNet (train_epochs epochs (net_ n) (map encode_sample h)) h.

Definition BoolNet_historySize (n : BoolNet) : nat := length (history_ n).

Definition GeneralizationNet_EPOCHS : nat := 50.
Definition FeatureSelectionNet_EPOCHS : nat := 50.
Definition XORNet_EPOCHS : nat := 200.
Definition CompositionNet_EPOCHS : nat := 100.
Definition SequenceNet_EPOCHS : nat := 50.

(** [SequenceNet]: a sample is [lastAction], [action], [success]. *)
Record SequenceNet : Type := mkSequenceNet {
  seq_net_ : gd_state gd;
  seq_history_ : list (Z * Z * bool)
}.

(** [int chooseAction(int16_t lastAction)] *)
Definition chooseAction (n : SequenceNet) (lastAction : Z) : Z * SequenceNet :=
  let (output, g) := gd_forward gd (seq_net_ n) [scaleToU8 lastAction] in
  let scoreA := nth 0 output 0 in
  let scoreB := nth 1 output 0 in
  (if scoreA >=? scoreB then 0 else 1, mkSequenceNet g (seq_history_ n)).

Definition encode_sequence_sample (s : Z * Z * bool) : list Z * list Z :=
  let '(lastAction, action, success) := s in
  ([scaleToU8 lastAction],
   if success
   then [if action =? 0 then 255 else 0; if action =? 1 then 255 else 0]
   else [if action =? 0 then 0 else 255; if action =? 1 then 0 else 255]).

(** [void learnFromOutcome(int16_t lastAction, int action, bool success)] *)
Definition learnFromOutcome (n : SequenceNet) (lastAction action : Z)
    (success : bool) : SequenceNet :=
  let h := seq_history_ n ++ [(lastAction, action, success)] in
  mkSequenceNet
    (train_epochs SequenceNet_EPOCHS (seq_net_ n) (map encode_sequence_sample h))
    h.

(** ** game.hpp: GameState

    The four [current_...] members, written for the display and read by no
    function below, are left out. *)
Record GameState : Type := mkGameState {
  current_puzzle : PuzzleType;
  puzzle_complete : bool;
  demo_complete : bool;
  validator : LearningValidator.t;
  gauntlet : GauntletState.t;
  gen_net : BoolNet;
  feat_net : BoolNet;
  xor_net : BoolNet;
  seq_net : SequenceNet;
  comp_net : BoolNet;
  seq_puzzle : SequencePuzzle.t;
  rng : RNG.t
}.

(** [void reset()] *)
Definition GameState_reset (s : GameState) : GameState :=
  mkGameState (current_puzzle s) false (demo_complete s)
    (LearningValidator.reset (validator s)) (GauntletState.reset (gauntlet s))
    (gen_net s) (feat_net s) (xor_net s) (seq_net s) (comp_net s)
    (seq_puzzle s) (rng s).

(** [bool nextPuzzle()] *)
Definition GameState_nextPuzzle (s : GameState) : bool * GameState :=
  let next := puzzle_to_int (current_puzzle s) + 1 in
  if next >=? NUM_PUZZLES then
    (false,
     mkGameState (current_puzzle s) (puzzle_complete s) true
       (validator s) (gauntlet s) (gen_net s) (feat_net s) (xor_net s)
       (seq_net s) (comp_net s) (seq_puzzle s) (rng s))
  else
    (true,
     GameState_reset
       (mkGameState (puzzle_of_int next) (puzzle_complete s) (demo_complete s)
          (validator s) (gauntlet s) (gen_net s) (feat_net s) (xor_net s)
          (seq_net s) (comp_net s) (seq_puzzle s) (rng s))).

(** ** game.cpp: Game

    [emit] hands a message to the display callback and changes nothing in
    the state; it is left out.  A trial whose generation loop does not
    finish within the fuel gives [None]. *)

(** What the four validator puzzles do after the decision:
    [s.validator.recordOutcome(correct); if (s.validator.hasLearned())
       { s.puzzle_complete = true; return true; } return false;] *)
Definition record_and_check (s : GameState) (correct : bool) : bool * GameState :=
  let v := LearningValidator.recordOutcome (validator s) correct in
  let learned := LearningValidator.hasLearned v in
  (learned,
   mkGameState (current_puzzle s)
     (if learned then true else puzzle_complete s) (demo_complete s)
     v (gauntlet s) (gen_net s) (feat_net s) (xor_net s) (seq_net s)
     (comp_net s) (seq_puzzle s) (rng s)).

Definition runPuzzle1Trial (fuel : nat) (s : GameState) : option (bool * GameState) :=
  let adversarial := LearningValidator.isFirstTrial (validator s) in
  match MushroomTrial.generate fuel (rng s) adversarial with
  | None => None
  | Some (trial, rng') =>
      let inputs := [MushroomTrial.sizeA trial; MushroomTrial.sizeB trial;
                     MushroomTrial.colorA trial; MushroomTrial.colorB trial] in
      let (choseA, net1) := BoolNet_ask (gen_net s) inputs in
      let correct := Bool.eqb choseA (MushroomTrial.correctIsA trial) in
      let net2 := BoolNet_learn GeneralizationNet_EPOCHS net1 inputs
                    (MushroomTrial.correctIsA trial) in
      Some (record_and_check
              (mkGameState (current_puzzle s) (puzzle_complete s)
                 (demo_complete s) (validator s) (gauntlet s) net2
                 (feat_net s) (xor_net s) (seq_net s) (comp_net s)
                 (seq_puzzle s) rng')
              correct)
  end.

Definition runPuzzle2Trial (fuel : nat) (s : GameState) : option (bool * GameState) :=
  let adversarial := LearningValidator.isFirstTrial (validator s) in
  match ShapeTrial.generate fuel (rng s) adversarial with
  | None => None
  | Some (trial, rng') =>
      let inputs := [ShapeTrial.colorA trial; ShapeTrial.shapeA trial;
                     ShapeTrial.colorB trial; ShapeTrial.shapeB trial] in
      let (choseA, net1) := BoolNet_ask (feat_net s) inputs in
      let correct := Bool.eqb choseA (ShapeTrial.correctIsA trial) in
      let net2 := BoolNet_learn FeatureSelectionNet_EPOCHS net1 inputs
                    (ShapeTrial.correctIsA trial) in
      Some (record_and_check
              (mkGameState (current_puzzle s) (puzzle_complete s)
                 (demo_complete s) (validator s) (gauntlet s) (gen_net s)
                 net2 (xor_net s) (seq_net s) (comp_net s)
                 (seq_puzzle s) rng')
              correct)
  end.

Definition runPuzzle3Trial (s : GameState) : option (bool * GameState) :=
  let (trial, rng') := XORTrial.generate (rng s) in
  let inputs := [XORTrial.lightInput trial; XORTrial.pathInput trial] in
  let (predictedSafe, net1) := BoolNet_ask (xor_net s) inputs in
  let correct := Bool.eqb predictedSafe (XORTrial.isSafe trial) in
  let net2 := BoolNet_learn XORNet_EPOCHS net1 inputs (XORTrial.isSafe trial) in
  Some (record_and_check
          (mkGameState (current_puzzle s) (puzzle_complete s)
             (demo_complete s) (validator s) (gauntlet s) (gen_net s)
             (feat_net s) net2 (seq_net s) (comp_net s) (seq_puzzle s) rng')
          correct).

Definition runPuzzle4Trial (s : GameState) : option (bool * GameState) :=
  let last := SequencePuzzle.lastActionInput (seq_puzzle s) in
  let (action, net1) := chooseAction (seq_net s) last in
  let (_, puzzle1) := SequencePuzzle.pressButton (seq_puzzle s) action in
  if SequencePuzzle.isSuccess puzzle1 then
    let net2 := learnFromOutcome net1 last action true in
    Some (record_and_check
            (mkGameState (current_puzzle s) (puzzle_complete s)
               (demo_complete s) (validator s) (gauntlet s) (gen_net s)
               (feat_net s) (xor_net s) net2 (comp_net s)
               (SequencePuzzle.reset puzzle1) (rng s))
            true)
  else if SequencePuzzle.isFail puzzle1 then
    let net2 := learnFromOutcome net1 last action false in
    Some (false,
          mkGameState (current_puzzle s) (puzzle_complete s)
            (demo_complete s)
            (LearningValidator.recordOutcome (validator s) false)
            (gauntlet s) (gen_net s) (feat_net s) (xor_net s) net2
            (comp_net s) (SequencePuzzle.reset puzzle1) (rng s))
  else
    let net2 := learnFromOutcome net1 last action true in
    Some (false,
          mkGameState (current_puzzle s) (puzzle_complete s)
            (demo_complete s) (validator s) (gauntlet s) (gen_net s)
            (feat_net s) (xor_net s) net2 (comp_net s) puzzle1 (rng s)).

Definition runPuzzle5Trial (fuel : nat) (s : GameState) : option (bool * GameState) :=
  if GauntletState.isComplete (gauntlet s) then
    Some (true,
          mkGameState (current_puzzle s) true (demo_complete s)
            (validator s) (gauntlet s) (gen_net s) (feat_net s) (xor_net s)
            (seq_net s) (comp_net s) (seq_puzzle s) (rng s))
  else
    match CompositionTrial.generate fuel (rng s) with
    | None => None
    | Some (trial, rng') =>
        let inputs := [CompositionTrial.lightInput trial;
                       CompositionTrial.sizeA trial;
                       CompositionTrial.sizeB trial] in
        let (choseA, net1) := BoolNet_ask (comp_net s) inputs in
        let correct := Bool.eqb choseA (CompositionTrial.correctIsA trial) in
        let net2 := BoolNet_learn CompositionNet_EPOCHS net1 inputs
                      (CompositionTrial.correctIsA trial) in
        let g := GauntletState.recordOutcome (gauntlet s) correct in
        let complete := GauntletState.isComplete g in
        Some (complete,
              mkGameState (current_puzzle s)
                (if complete then true else puzzle_complete s)
                (demo_complete s) (validator s) g (gen_net s) (feat_net s)
                (xor_net s) (seq_net s) net2 (seq_puzzle s) rng')
    end.

(** [bool Game::runTrial()] *)
Definition runTrial (fuel : nat) (s : GameState) : option (bool * GameState) :=
  match current_puzzle s with
  | GENERALIZATION => runPuzzle1Trial fuel s
  | FEATURE_SELECTION => runPuzzle2Trial fuel s
  | XOR_CONTEXT => runPuzzle3Trial s
  | SEQUENCE => runPuzzle4Trial s
  | COMPOSITION => runPuzzle5Trial fuel s
  end.

(** [for (int i = 0; i < maxTrials; i++) { if (runTrial()) return i + 1; }
     return -1;] with [n] the number of values of [i] still below
    [maxTrials]. *)
Fixpoint runTrials (fuel : nat) (n : nat) (i : Z) (s : GameState)
  : option (Z * GameState) :=
  match n with
  | O => Some (-1, s)
  | S n' =>
      match runTrial fuel s with
      | None => None
      | Some (true, s') => Some (i + 1, s')
      | Some (false, s') => runTrials fuel n' (i + 1) s'
      end
  end.

(** [int Game::runPuzzleToCompletion(int maxTrials)] *)
Definition runPuzzleToCompletion (fuel : nat) (s : GameState) (maxTrials : Z)
  : option (Z * GameState) :=
  runTrials fuel (Z.to_nat maxTrials) 0 (GameState_reset s).

(** [for (int p = 0; p < NUM_PUZZLES; p++) { ... }] of [runFullDemo], with
    [n] the number of values of [p] still below [NUM_PUZZLES]. *)
Fixpoint runFullDemo_loop (fuel : nat) (n : nat) (p : Z) (s : GameState)
    (maxTrialsPerPuzzle : Z) : option (bool * GameState) :=
  match n with
  | O =>
      Some (true,
            mkGameState (current_puzzle s) (puzzle_complete s) true
              (validator s) (gauntlet s) (gen_net s) (feat_net s) (xor_net s)
              (seq_net s) (comp_net s) (seq_puzzle s) (rng s))
  | S n' =>
      match runPuzzleToCompletion fuel s maxTrialsPerPuzzle with
      | None => None
      | Some (trials, s1) =>
          if trials <? 0 then Some (false, s1)
          else
            let s2 := if p <? NUM_PUZZLES - 1
                      then snd (GameState_nextPuzzle s1) else s1 in
            runFullDemo_loop fuel n' (p + 1) s2 maxTrialsPerPuzzle
      end
  end.

(** [bool Game::runFullDemo(int maxTrialsPerPuzzle)] *)
Definition runFullDemo (fuel : nat) (s : GameState) (maxTrialsPerPuzzle : Z)
  : option (bool * GameState) :=
  runFullDemo_loop fuel (Z.to_nat NUM_PUZZLES) 0 s maxTrialsPerPuzzle.

(** [Game::Game(uint32_t seed) : state_(seed) {}]: the member
    initialisers of [GameState], with the five networks as their
    constructors leave them. *)
Definition Game_ctor (gen feat xor : BoolNet) (seq : SequenceNet)
    (comp : BoolNet) (seed : Z) : GameState :=
  mkGameState GENERALIZATION false false LearningValidator.init
    GauntletState.init gen feat xor seq comp SequencePuzzle.init
    (RNG.ctor seed).

End Game.

Arguments current_puzzle {gd} _.
Arguments puzzle_complete {gd} _.
Arguments demo_complete {gd} _.
Arguments validator {gd} _.
Arguments gauntlet {gd} _.
Arguments seq_puzzle {gd} _.
Arguments rng {gd} _.
Arguments GameState_reset {gd} _.
Arguments GameState_nextPuzzle {gd} _.

Arguments record_and_check gd _ _ : clear implicits.

(** ** networks.hpp, game.hpp, game.cpp: resetting a puzzle

    [reinitialize] is the library's.  [std::random_device{}()] yields a
    value that comes from outside the program; it is the argument
    [entropy] of the functions below. *)

Section Reset.

Variable gd : IntegerGD.
Variable reinitialize : gd_state gd -> Z -> gd_state gd.






End Reset.

(** A network that ignores what it is shown and answers with no output
    bytes, for running the game functions on an example. *)
Definition still_net : IntegerGD :=
  {| gd_state := unit;
     gd_forward := fun g _ => ([], g);
     gd_backward := fun g _ _ => g |}.

Definition still_BoolNet : BoolNet still_net := mkBoolNet still_net tt [].

Definition still_SequenceNet : SequenceNet still_net :=
  mkSequenceNet still_net tt [].

(** A network that answers with a zero followed by what it is shown: in
    the choice puzzles it always takes B, in the sequence puzzle it presses
    A at the start and B after an A. *)
Definition echo_net : IntegerGD :=
  {| gd_state := unit;
     gd_forward := fun g input => (0 :: input, g);
     gd_backward := fun g _ _ => g |}.

Definition echo_BoolNet : BoolNet echo_net := mkBoolNet echo_net tt [].

(** [Game game(42)] with such networks. *)
Definition echo_game : GameState echo_net :=
  Game_ctor echo_net echo_BoolNet echo_BoolNet echo_BoolNet
    (mkSequenceNet echo_net tt []) echo_BoolNet 42.




(** The puzzles whose completion is decided by the [LearningValidator]
    alone, one recorded outcome per trial. *)
Definition validator_puzzle (p : PuzzleType) : Prop :=
  p = GENERALIZATION \/ p = FEATURE_SELECTION \/ p = XOR_CONTEXT.


(** For the sequence puzzle, a count that no call of [runPuzzle4Trial]
    raises by more than one: one for the first recorded trial, two for each
    success of the current streak after the first trial, one for an A
    pressed after the first trial. *)
Definition sequence_progress {gd : IntegerGD} (s : GameState gd) : Z :=
  let t := LearningValidator.total_trials (validator s) in
  Z.min t 1
  + 2 * Z.max 0 (Z.min (LearningValidator.successes (validator s)) (t - 1))
  + (if SequencePuzzle.inProgress (seq_puzzle s) && (1 <=? t) then 1 else 0).

Definition sequence_waiting {gd : IntegerGD} (s : GameState gd) : Prop :=
  SequencePuzzle.state (seq_puzzle s) = START
  \/ SequencePuzzle.state (seq_puzzle s) = PRESSED_A.

(** The gauntlet counters after [i] recorded outcomes. *)
Definition gauntlet_after (i : Z) (g : GauntletState.t) : Prop :=
  GauntletState.warmup_completed g = Z.min i 10
  /\ GauntletState.scored_completed g = Z.max 0 (i - 10)
  /\ 0 <= GauntletState.correct g <= GauntletState.scored_completed g.

(** [n] successive calls of [nextPuzzle()]. *)
Fixpoint advance {gd : IntegerGD} (n : nat) (s : GameState gd) : GameState gd :=
  match n with
  | O => s
  | S n' => snd (GameState_nextPuzzle (advance n' s))
  end.


(** ** Vocabulary for the statements *)

(** Number of [true] at the front of a list, and the length of the run of
    successes that ends a sequence of outcomes (oldest first). *)
Fixpoint leading_successes (l : list bool) : Z :=
  match l with
  | true :: rest => 1 + leading_successes rest
  | _ => 0
  end.

Definition closing_streak (outcomes : list bool) : Z :=
  leading_successes (rev outcomes).

Fixpoint count_successes (l : list bool) : Z :=
  match l with
  | [] => 0
  | b :: rest => (if b then 1 else 0) + count_successes rest
  end.

Definition count_failures (l : list bool) : Z :=
  Z.of_nat (length l) - count_successes l.

(** Adding a list of items, oldest first, to a history. *)
Definition entry_of (item : Z * bool * String.string) : HistoryEntry :=
  let '(n, ok, text) := item in Build_HistoryEntry n ok text.

Definition record_of (item : Z * bool * String.string) : TrialRecord :=
  let '(n, ok, text) := item in Build_TrialRecord n ok text.

Definition History_add_all (h : History.t)
    (items : list (Z * bool * String.string)) : History.t :=
  fold_left (fun h '(n, ok, text) => History.add h n ok text) items h.

Definition TrialHistory_add_all (h : TrialHistory.t)
    (items : list (Z * bool * String.string)) : TrialHistory.t :=
  fold_left (fun h '(n, ok, text) => TrialHistory.add h n ok text) items h.

(** Reading the escaping rules of the recording format backwards: the
    inverse of "double quote and backslash are backslash-escaped, newline
    becomes the sequence [\r\n], tabs become [\t], any other byte below
    0x20 becomes [\u00XX], printable ASCII passes through".  Anything that
    is not one of these escapes is copied. *)
Definition hexval (c : byte) : option Z :=
  let u := Z.of_N (Byte.to_N c) in
  if (48 <=? u) && (u <=? 57) then Some (u - 48)
  else if (97 <=? u) && (u <=? 102) then Some (u - 87)
  else None.

Definition byte_of_Z (z : Z) : byte :=
  match Byte.of_N (Z.to_N z) with
  | Some b => b
  | None => x00
  end.

Fixpoint spec_unescape (s : list byte) : list byte :=
  match s with
  | [] => []
  | c :: r =>
      if Byte.eqb c x5c then
        match r with
        | [] => [c]
        | d :: r1 =>
            if Byte.eqb d x22 then x22 :: spec_unescape r1
            else if Byte.eqb d x5c then x5c :: spec_unescape r1
            else if Byte.eqb d x74 then x09 :: spec_unescape r1
            else if Byte.eqb d x72 then
              match r1 with
              | e :: f :: r3 =>
                  if Byte.eqb e x5c && Byte.eqb f x6e
                  then x0a :: spec_unescape r3
                  else c :: spec_unescape r
              | _ => c :: spec_unescape r
              end
            else if Byte.eqb d x75 then
              match r1 with
              | z1 :: z2 :: h :: l :: r5 =>
                  match (if Byte.eqb z1 x30 && Byte.eqb z2 x30
                         then hexval h else None), hexval l with
                  | Some a, Some b => byte_of_Z (16 * a + b) :: spec_unescape r5
                  | _, _ => c :: spec_unescape r
                  end
              | _ => c :: spec_unescape r
              end
            else c :: spec_unescape r
        end
      else c :: spec_unescape r
  end.

(** The rows of a grid as [buildFrameContent] reads them, the rows joined by
    newlines, and the rows each ended by a newline. *)
Definition grid_rows (b : TextBuffer.t) : list (list byte) :=
  map (fun y => TextBuffer.line b (Z.of_nat y))
      (seq 0 (Z.to_nat terminal.HEIGHT)).

Fixpoint newline_joined (rows : list (list byte)) : list byte :=
  match rows with
  | [] => []
  | [row] => row
  | row :: rest => row ++ x0a :: newline_joined rest
  end.

Definition newline_ended (rows : list (list byte)) : list byte :=
  flat_map (fun row => row ++ [x0a]) rows.

(** A character that [escapeForJson] writes nothing for. *)
Definition dropped (char_signed : bool) (c : byte) : bool :=
  match FrameWriter.escape_char char_signed c with
  | [] => true
  | _ => false
  end.

Definition kept (char_signed : bool) (c : byte) : bool :=
  negb (dropped char_signed c).

Definition frame_prefix (w : FrameWriter.t) : list byte :=
  if FrameWriter.firstFrame_ w then ansi.INIT else ansi.CLEAR.

(** The cells of row [y] that a loop starting at index [i] with [n]
    characters to go may store to. *)
Definition covered (x y i n r k : Z) : bool :=
  (r =? y) && (x + i <=? k) && (k <? x + i + n) && (0 <=? k) && (k <? 80).

(** The same for a loop that also tests the row on every store. *)
Definition covered_row (x y i n r k : Z) : bool :=
  covered x y i n r k && (0 <=? y) && (y <? 24).

(** A puzzle after a sequence of button presses, oldest first. *)
Definition press_all (p : SequencePuzzle.t) (buttons : list Z) : SequencePuzzle.t :=
  fold_left (fun q button => snd (SequencePuzzle.pressButton q button)) buttons p.

(** A byte that is printable ASCII, 0x20 to 0x7E. *)
Definition printable (c : byte) : bool :=
  (32 <=? Z.of_N (Byte.to_N c)) && (Z.of_N (Byte.to_N c) <=? 126).

(** A drawing call on a [TextBuffer], and a sequence of such calls. *)
Inductive DrawCall : Type :=
| PutString (x y : Z) (str : list byte)
| PutChar (x y : Z) (c : byte)
| DrawHLine (x y len : Z) (c : byte).

Definition draw (b : TextBuffer.t) (call : DrawCall) : option TextBuffer.t :=
  match call with
  | PutString x y str => TextBuffer.putString b x y str
  | PutChar x y c => TextBuffer.putChar b x y c
  | DrawHLine x y len c => TextBuffer.drawHLine b x y len c
  end.

Fixpoint draw_all (b : TextBuffer.t) (calls : list DrawCall) : option TextBuffer.t :=
  match calls with
  | [] => Some b
  | call :: rest =>
      match draw b call with
      | Some b' => draw_all b' rest
      | None => None
      end
  end.

(** A call that cannot store a NUL: [putString] stops at the first NUL of
    its argument, the other two store the character they are given. *)
Definition stores_no_nul (call : DrawCall) : bool :=
  match call with
  | PutString _ _ _ => true
  | PutChar _ _ c => negb (Byte.eqb c x00)
  | DrawHLine _ _ _ c => negb (Byte.eqb c x00)
  end.


(** The character that the loop of [drawHistory], started at index [i] on
    the entries [recent_first], leaves in cell [(r, k)], if it writes
    there. *)
Definition history_cell (startY i : Z) (recent_first : list HistoryEntry)
    (r k : Z) : option byte :=
  if (startY + 1 + i <=? r) && (r <? 22) && (0 <=? r) && (0 <=? k) then
    match recent_first !! Z.to_nat (r - (startY + 1 + i)) with
    | Some e => c_str (history_line e) !! Z.to_nat k
    | None => None
    end
  else None.

(* ===================================================================== *)
(** * Part II: properties                                                 *)
(* ===================================================================== *)

(** ** Machine integers *)

Lemma wrap32_range (z : Z) : 0 <= wrap32 z < 2 ^ 32.
Proof. unfold wrap32. apply Z.mod_pos_bound. lia. Qed.

Lemma wrap32_small (z : Z) : 0 <= z < 2 ^ 32 -> wrap32 z = z.
Proof. intros H. unfold wrap32. apply Z.mod_small. exact H. Qed.

Lemma int16_small (z : Z) : - 2 ^ 15 <= z < 2 ^ 15 -> int16 z = z.
Proof.
  intros H. unfold int16.
  rewrite Z.mod_small by lia. lia.
Qed.

Lemma int32_small (z : Z) : - 2 ^ 31 <= z < 2 ^ 31 -> int32 z = z.
Proof. intros H. unfold int32. rewrite Z.mod_small by lia. lia. Qed.

Lemma draw_in_range (lo m v : Z) :
  0 < m -> 0 <= lo -> lo + m <= 2 ^ 15 ->
  int16 (wrap32 (lo + v mod m)) = lo + v mod m /\ lo <= lo + v mod m < lo + m.
Proof.
  intros Hm Hlo Hhi.
  pose proof (Z.mod_pos_bound v m Hm) as Hb.
  rewrite wrap32_small by lia.
  rewrite int16_small by lia.
  lia.
Qed.

(** ** RNG: range of the state *)

Lemma lxor_range32 (a b : Z) :
  0 <= a < 2 ^ 32 -> 0 <= b < 2 ^ 32 -> 0 <= Z.lxor a b < 2 ^ 32.
Proof.
  intros Ha Hb.
  assert (Hnn : 0 <= Z.lxor a b) by (apply Z.lxor_nonneg; lia).
  split; [exact Hnn |].
  destruct (Z.eq_dec (Z.lxor a b) 0) as [E | NE]; [rewrite E; lia |].
  apply Z.log2_lt_pow2; [lia |].
  pose proof (Z.log2_lxor a b ltac:(lia) ltac:(lia)) as Hl.
  assert (La : Z.log2 a < 32).
  { destruct (Z.eq_dec a 0) as [-> | ?]; [reflexivity |].
    apply Z.log2_lt_pow2; lia. }
  assert (Lb : Z.log2 b < 32).
  { destruct (Z.eq_dec b 0) as [-> | ?]; [reflexivity |].
    apply Z.log2_lt_pow2; lia. }
  lia.
Qed.

Lemma shiftr_range32 (a k : Z) :
  0 <= k -> 0 <= a < 2 ^ 32 -> 0 <= Z.shiftr a k < 2 ^ 32.
Proof.
  intros Hk Ha.
  rewrite Z.shiftr_div_pow2 by lia.
  assert (0 < 2 ^ k) by (apply Z.pow_pos_nonneg; lia).
  split.
  - apply Z.div_pos; lia.
  - apply Z.le_lt_trans with a; [| lia].
    apply Z.div_le_upper_bound; nia.
Qed.

Lemma next_valid (r : RNG.t) :
  RNG.valid r -> RNG.valid (snd (RNG.next r)).
Proof.
  unfold RNG.valid, RNG.next. cbn [snd RNG.state]. intros Hr.
  repeat first
    [ apply lxor_range32
    | apply wrap32_range
    | apply shiftr_range32; [lia |]
    | exact Hr ].
Qed.

Lemma next_value_is_state (r : RNG.t) :
  fst (RNG.next r) = RNG.state (snd (RNG.next r)).
Proof. reflexivity. Qed.

Lemma ctor_valid (seed : Z) : RNG.valid (RNG.ctor seed).
Proof. apply wrap32_range. Qed.

(** ** RNG: zero is the only state that maps to zero *)

Lemma xor_shl_zero (s k : Z) :
  0 < k < 32 -> Z.lxor s (wrap32 (Z.shiftl s k)) = 0 -> s = 0.
Proof.
  intros Hk H. apply Z.lxor_eq in H.
  pose proof (wrap32_range (Z.shiftl s k)) as Hr. rewrite <- H in Hr.
  unfold wrap32 in H. rewrite Z.shiftl_mul_pow2 in H by lia.
  assert (Hdiv : (2 ^ 32 | (2 ^ k - 1) * s)).
  { exists ((s * 2 ^ k) / 2 ^ 32).
    pose proof (Z.div_mod (s * 2 ^ k) (2 ^ 32) ltac:(lia)) as D.
    rewrite <- H in D. lia. }
  assert (Hodd : Z.gcd (2 ^ 32) (2 ^ k - 1) = 1).
  { assert (Hc : k = 1 \/ k = 2 \/ k = 3 \/ k = 4 \/ k = 5 \/ k = 6 \/ k = 7
               \/ k = 8 \/ k = 9 \/ k = 10 \/ k = 11 \/ k = 12 \/ k = 13
               \/ k = 14 \/ k = 15 \/ k = 16 \/ k = 17 \/ k = 18 \/ k = 19
               \/ k = 20 \/ k = 21 \/ k = 22 \/ k = 23 \/ k = 24 \/ k = 25
               \/ k = 26 \/ k = 27 \/ k = 28 \/ k = 29 \/ k = 30 \/ k = 31)
      by lia.
    repeat (destruct Hc as [-> | Hc]; [vm_compute; reflexivity |]).
    subst k. vm_compute. reflexivity. }
  apply Z.gauss in Hdiv; [| exact Hodd].
  destruct Hdiv as [q Hq]. nia.
Qed.

Lemma xor_shr_zero (s k : Z) :
  0 < k -> 0 <= s -> Z.lxor s (Z.shiftr s k) = 0 -> s = 0.
Proof.
  intros Hk Hs H. apply Z.lxor_eq in H.
  rewrite Z.shiftr_div_pow2 in H by lia.
  destruct (Z.eq_dec s 0) as [E | NE]; [exact E | exfalso].
  assert (1 < 2 ^ k).
  { replace 1 with (2 ^ 0) by reflexivity. apply Z.pow_lt_mono_r; lia. }
  pose proof (Z.div_lt s (2 ^ k) ltac:(lia) ltac:(lia)). lia.
Qed.

Lemma next_zero_iff (r : RNG.t) :
  RNG.valid r -> (fst (RNG.next r) = 0 <-> RNG.state r = 0).
Proof.
  intros Hr. unfold RNG.valid in Hr. split.
  - unfold RNG.next. cbn [fst]. intros H.
    apply xor_shl_zero in H; [| lia].
    apply xor_shr_zero in H; [| lia |].
    + apply xor_shl_zero in H; [exact H | lia].
    + apply lxor_range32; [exact Hr | apply wrap32_range].
  - intros E. unfold RNG.next. cbn [fst]. rewrite E. reflexivity.
Qed.


Lemma draw_valid (n : nat) (r : RNG.t) :
  RNG.valid r ->
  RNG.valid (snd (RNG.draw n r))
  /\ Forall (fun v => 0 <= v < 2 ^ 32) (fst (RNG.draw n r)).
Proof.
  revert r. induction n as [| n IH]; intros r Hr.
  - cbn. split; [exact Hr | constructor].
  - cbn [RNG.draw].
    pose proof (next_valid r Hr) as Hn.
    pose proof (next_value_is_state r) as Hv.
    destruct (RNG.next r) as [v r1]. cbn [fst snd] in *.
    destruct (IH r1 Hn) as [IH1 IH2].
    destruct (RNG.draw n r1) as [vs r2]. cbn [fst snd] in *.
    split; [exact IH1 |].
    constructor; [| exact IH2]. subst v. exact Hn.
Qed.

Lemma draw_from_zero (n : nat) :
  RNG.draw n (RNG.mk 0) = (replicate n 0, RNG.mk 0).
Proof.
  induction n as [| n IH]; [reflexivity |].
  assert (E : RNG.next (RNG.mk 0) = (0, RNG.mk 0)) by reflexivity.
  cbn [RNG.draw]. rewrite E, IH. reflexivity.
Qed.

Lemma draw_from_nonzero (n : nat) (r : RNG.t) :
  RNG.valid r -> RNG.state r <> 0 ->
  RNG.state (snd (RNG.draw n r)) <> 0
  /\ Forall (fun v => v <> 0) (fst (RNG.draw n r)).
Proof.
  revert r. induction n as [| n IH]; intros r Hr Hnz.
  - cbn. split; [exact Hnz | constructor].
  - cbn [RNG.draw].
    pose proof (next_valid r Hr) as Hn.
    pose proof (next_value_is_state r) as Hv.
    pose proof (next_zero_iff r Hr) as Hz.
    destruct (RNG.next r) as [v r1]. cbn [fst snd] in *.
    assert (Hnz1 : RNG.state r1 <> 0) by (rewrite <- Hv; tauto).
    destruct (IH r1 Hn Hnz1) as [IH1 IH2].
    destruct (RNG.draw n r1) as [vs r2]. cbn [fst snd] in *.
    split; [exact IH1 |].
    constructor; [tauto | exact IH2].
Qed.

(** C4 (counterexample). Constructed with seed 0 the generator holds state 0:
    nothing replaces the seed (the default 12345 is used only when the
    argument is omitted), [next()] returns 0 and leaves the state at 0, and
    the re-draw loop of [MushroomTrial::generate] never gets a second size
    that differs from the first. *)
Lemma rng_seed_zero_is_degenerate :
  RNG.ctor 0 = RNG.mk 0
  /\ RNG.ctor 0 <> RNG.ctor_default
  /\ RNG.next (RNG.ctor 0) = (0, RNG.ctor 0)
  /\ fst (RNG.draw 16 (RNG.ctor 0)) = replicate 16 0
  /\ MushroomTrial.generate 64 (RNG.ctor 0) false = None.
Proof.
  repeat split; try (vm_compute; reflexivity).
  vm_compute. discriminate.
Qed.

(** C4 (amended). A generator constructed with a seed that is 0 as a
    [uint32_t] returns 0 from every call of [next()] and keeps state 0.  A
    generator constructed with any other seed never returns 0 and never
    reaches state 0: every value it returns lies in [1, 2^32).  The default
    seed, used when no argument is given, is 12345. *)
Theorem rng_zero_seed_constant_nonzero_seed_never_zero (seed : Z) (N : nat) :
  (wrap32 seed = 0 ->
     RNG.draw N (RNG.ctor seed) = (replicate N 0, RNG.ctor seed))
  /\ (wrap32 seed <> 0 ->
     Forall (fun v => 0 < v < 2 ^ 32) (fst (RNG.draw N (RNG.ctor seed)))
     /\ RNG.state (snd (RNG.draw N (RNG.ctor seed))) <> 0)
  /\ RNG.state RNG.ctor_default = 12345.
Proof.
  split; [| split].
  - intros Hz. unfold RNG.ctor. rewrite Hz. apply draw_from_zero.
  - intros Hnz.
    pose proof (ctor_valid seed) as Hv.
    destruct (draw_valid N _ Hv) as [_ Hr].
    destruct (draw_from_nonzero N _ Hv Hnz) as [Hs Hn].
    split; [| exact Hs].
    rewrite Forall_forall in *. intros v Hin.
    specialize (Hr v Hin). specialize (Hn v Hin). cbn beta in *. lia.
  - reflexivity.
Qed.

Lemma rng_zero_seed_constant_nonzero_seed_never_zero_witness :
  RNG.draw 5 (RNG.ctor 0) = (replicate 5 0, RNG.ctor 0)
  /\ Forall (fun v => 0 < v < 2 ^ 32) (fst (RNG.draw 5 (RNG.ctor 42))).
Proof.
  split.
  - apply (proj1 (rng_zero_seed_constant_nonzero_seed_never_zero 0 5)).
    reflexivity.
  - apply (proj1
             (proj1 (proj2 (rng_zero_seed_constant_nonzero_seed_never_zero 42 5))
                ltac:(vm_compute; discriminate))).
Defined.

(** ** MushroomTrial *)

Lemma redraw_post (fuel : nat) (a b b' : Z) (rng rng' : RNG.t) :
  32 <= b <= 127 ->
  MushroomTrial.redraw fuel a b rng = Some (b', rng') ->
  32 <= b' <= 127 /\ 20 <= Z.abs (a - b').
Proof.
  revert b rng. induction fuel as [| fuel IH]; intros b rng Hb; cbn [MushroomTrial.redraw].
  - destruct (Z.ltb_spec (Z.abs (a - b)) 20); [discriminate |].
    intros [= <- <-]. lia.
  - destruct (Z.ltb_spec (Z.abs (a - b)) 20).
    + destruct (RNG.next rng) as [v rng1].
      apply IH.
      pose proof (draw_in_range 32 96 v ltac:(lia) ltac:(lia) ltac:(lia)). lia.
    + intros [= <- <-]. lia.
Qed.

Lemma redraw_more_fuel (fuel extra : nat) (a b : Z) (rng : RNG.t) (res : Z * RNG.t) :
  MushroomTrial.redraw fuel a b rng = Some res ->
  MushroomTrial.redraw (fuel + extra) a b rng = Some res.
Proof.
  revert b rng. induction fuel as [| fuel IH]; intros b rng; cbn [MushroomTrial.redraw].
  - destruct (Z.abs (a - b) <? 20) eqn:E; [discriminate |].
    intros H. destruct extra; cbn [Nat.add MushroomTrial.redraw]; rewrite E; exact H.
  - cbn [Nat.add MushroomTrial.redraw].
    destruct (Z.abs (a - b) <? 20); [| tauto].
    destruct (RNG.next rng) as [v rng1]. apply IH.
Qed.

Lemma redraw_stuck_at_zero (fuel : nat) :
  MushroomTrial.redraw fuel 32 32 (RNG.mk 0) = None.
Proof.
  induction fuel as [| fuel IH]; [reflexivity |].
  cbn [MushroomTrial.redraw].
  change (Z.abs (32 - 32) <? 20) with true. cbv iota.
  assert (E : RNG.next (RNG.mk 0) = (0, RNG.mk 0)) by reflexivity.
  rewrite E.
  change (int16 (wrap32 (32 + 0 mod 96))) with 32. exact IH.
Qed.

(** Fuel only bounds the loop: once [generate] returns a trial, more fuel
    returns the same trial. *)
Lemma generate_more_fuel (fuel extra : nat) (rng : RNG.t) (adversarial : bool)
    (res : MushroomTrial.t * RNG.t) :
  MushroomTrial.generate fuel rng adversarial = Some res ->
  MushroomTrial.generate (fuel + extra) rng adversarial = Some res.
Proof.
  unfold MushroomTrial.generate.
  destruct adversarial; [tauto |].
  destruct (RNG.next rng) as [v1 rng1].
  destruct (RNG.next rng1) as [v2 rng2].
  destruct (MushroomTrial.redraw fuel _ _ rng2) as [r |] eqn:E; [| discriminate].
  rewrite (redraw_more_fuel _ extra _ _ _ _ E). tauto.
Qed.

(** With state 0 the loop of [generate] does not terminate: no amount of
    fuel yields a trial. *)
Lemma generate_diverges_at_zero (fuel : nat) :
  MushroomTrial.generate fuel (RNG.ctor 0) false = None.
Proof.
  unfold MushroomTrial.generate.
  change (RNG.ctor 0) with (RNG.mk 0).
  assert (E : RNG.next (RNG.mk 0) = (0, RNG.mk 0)) by reflexivity.
  rewrite !E.
  change (int16 (wrap32 (32 + 0 mod 96))) with 32.
  rewrite redraw_stuck_at_zero. reflexivity.
Qed.

(** C7. Whenever the non-adversarial [generate] returns a trial, both sizes
    lie in [32,127], they differ by at least 20, both colours lie in
    [0,127], and [correctIsA] is exactly [sizeA > sizeB]. *)
Theorem mushroom_generate_postcondition
    (fuel : nat) (rng rng' : RNG.t) (t : MushroomTrial.t) :
  MushroomTrial.generate fuel rng false = Some (t, rng') ->
  32 <= MushroomTrial.sizeA t <= 127
  /\ 32 <= MushroomTrial.sizeB t <= 127
  /\ 20 <= Z.abs (MushroomTrial.sizeA t - MushroomTrial.sizeB t)
  /\ 0 <= MushroomTrial.colorA t <= 127
  /\ 0 <= MushroomTrial.colorB t <= 127
  /\ MushroomTrial.correctIsA t
     = (MushroomTrial.sizeA t >? MushroomTrial.sizeB t).
Proof.
  unfold MushroomTrial.generate.
  destruct (RNG.next rng) as [v1 rng1].
  destruct (RNG.next rng1) as [v2 rng2].
  pose proof (draw_in_range 32 96 v1 ltac:(lia) ltac:(lia) ltac:(lia)) as Ha.
  pose proof (draw_in_range 32 96 v2 ltac:(lia) ltac:(lia) ltac:(lia)) as Hb.
  destruct (MushroomTrial.redraw fuel _ _ rng2) as [[b rng3] |] eqn:Hre;
    [| discriminate].
  apply redraw_post in Hre; [| lia].
  destruct (RNG.next rng3) as [v3 rng4].
  destruct (RNG.next rng4) as [v4 rng5].
  pose proof (draw_in_range 0 128 v3 ltac:(lia) ltac:(lia) ltac:(lia)) as Hca.
  pose proof (draw_in_range 0 128 v4 ltac:(lia) ltac:(lia) ltac:(lia)) as Hcb.
  rewrite !Z.add_0_l in Hca, Hcb.
  intros [= <- <-]. cbn [MushroomTrial.sizeA MushroomTrial.sizeB
    MushroomTrial.colorA MushroomTrial.colorB MushroomTrial.correctIsA].
  repeat split; try lia.
Qed.

Lemma mushroom_generate_postcondition_witness :
  MushroomTrial.generate 8 (RNG.ctor 42) false
  = Some (MushroomTrial.mk 104 35 64 68 true, RNG.mk 3759983556)
  /\ 20 <= Z.abs (104 - 35).
Proof.
  split; [vm_compute; reflexivity |].
  apply (mushroom_generate_postcondition 8 (RNG.ctor 42) (RNG.mk 3759983556)
           (MushroomTrial.mk 104 35 64 68 true)).
  vm_compute. reflexivity.
Defined.

(** ** SequencePuzzle *)

(** C6. [pressButton] follows the transition table: START/A goes to
    PRESSED_A and returns true, START/B goes to FAIL and returns false,
    PRESSED_A/B goes to SUCCESS and returns true, PRESSED_A/A goes to FAIL
    and returns false, and in SUCCESS or FAIL every press returns false and
    leaves the state as it is. *)
Theorem sequence_pressButton_table :
  SequencePuzzle.pressButton (SequencePuzzle.mk START) SequencePuzzle.BUTTON_A
    = (true, SequencePuzzle.mk PRESSED_A)
  /\ SequencePuzzle.pressButton (SequencePuzzle.mk START) SequencePuzzle.BUTTON_B
    = (false, SequencePuzzle.mk FAIL)
  /\ SequencePuzzle.pressButton (SequencePuzzle.mk PRESSED_A) SequencePuzzle.BUTTON_B
    = (true, SequencePuzzle.mk SUCCESS)
  /\ SequencePuzzle.pressButton (SequencePuzzle.mk PRESSED_A) SequencePuzzle.BUTTON_A
    = (false, SequencePuzzle.mk FAIL)
  /\ (forall button : Z,
        SequencePuzzle.pressButton (SequencePuzzle.mk SUCCESS) button
        = (false, SequencePuzzle.mk SUCCESS))
  /\ (forall button : Z,
        SequencePuzzle.pressButton (SequencePuzzle.mk FAIL) button
        = (false, SequencePuzzle.mk FAIL))
  /\ SequencePuzzle.state SequencePuzzle.init = START.
Proof. repeat split. Qed.

(** The scenarios of the transition table as runs from the initial state. *)
Lemma sequence_runs :
  let press p b := snd (SequencePuzzle.pressButton p b) in
  SequencePuzzle.state (press SequencePuzzle.init 1) = FAIL
  /\ SequencePuzzle.state (press (press SequencePuzzle.init 0) 0) = FAIL
  /\ SequencePuzzle.state (press (press SequencePuzzle.init 0) 1) = SUCCESS.
Proof. repeat split. Qed.

(** ** LearningValidator *)

Lemma leading_successes_bounds (l : list bool) :
  0 <= leading_successes l <= Z.of_nat (length l).
Proof.
  induction l as [| [] l IH]; cbn [leading_successes length]; lia.
Qed.

Lemma closing_streak_snoc (l : list bool) (b : bool) :
  closing_streak (l ++ [b]) = if b then closing_streak l + 1 else 0.
Proof.
  unfold closing_streak. rewrite rev_app_distr. cbn [rev app].
  destruct b; cbn [leading_successes]; lia.
Qed.

Lemma count_successes_app (l1 l2 : list bool) :
  count_successes (l1 ++ l2) = count_successes l1 + count_successes l2.
Proof. induction l1 as [| b l1 IH]; cbn [app count_successes]; lia. Qed.

Lemma count_successes_bounds (l : list bool) :
  0 <= count_successes l <= Z.of_nat (length l).
Proof.
  induction l as [| [] l IH]; cbn [count_successes length]; lia.
Qed.

Lemma validator_run_fields (outcomes : list bool) :
  let v := LearningValidator.run outcomes LearningValidator.init in
  LearningValidator.total_trials v = Z.of_nat (length outcomes)
  /\ LearningValidator.successes v = closing_streak outcomes
  /\ LearningValidator.failures v = count_failures outcomes.
Proof.
  induction outcomes as [| b l IH] using rev_ind.
  - repeat split.
  - cbn zeta in *. unfold LearningValidator.run in *.
    rewrite fold_left_app. cbn [fold_left].
    destruct IH as (Ht & Hs & Hf).
    rewrite closing_streak_snoc. unfold count_failures in *.
    rewrite count_successes_app, length_app, Nat2Z.inj_add.
    set (v := fold_left LearningValidator.recordOutcome l _) in *.
    unfold LearningValidator.recordOutcome.
    destruct b; cbn [LearningValidator.total_trials LearningValidator.successes
      LearningValidator.failures count_successes length]; lia.
Qed.

(** C2. After any sequence of [recordOutcome] calls from the reset state,
    [total_trials] is the number of calls and [successes] is the length of the
    run of successes that ends the sequence; [hasLearned()] is true exactly
    when [total_trials >= 5] and [successes >= 4]; recording one more failure
    sets [successes] to 0, still increments [total_trials], and leaves
    [hasLearned()] false, also after the trial that follows the failure.
    On fewer than 2^31 calls every counter stays within [int]. *)
Theorem validator_learned_iff_and_failure_resets
    (outcomes : list bool) (v0 : LearningValidator.t) :
  let v := LearningValidator.run outcomes (LearningValidator.reset v0) in
  let v' := LearningValidator.recordOutcome v false in
  LearningValidator.total_trials v = Z.of_nat (length outcomes)
  /\ LearningValidator.successes v = closing_streak outcomes
  /\ (LearningValidator.hasLearned v = true
      <-> LearningValidator.total_trials v >= 5
          /\ LearningValidator.successes v >= 4)
  /\ LearningValidator.successes v' = 0
  /\ LearningValidator.total_trials v' = LearningValidator.total_trials v + 1
  /\ LearningValidator.hasLearned v' = false
  /\ (forall next_outcome,
        LearningValidator.hasLearned
          (LearningValidator.recordOutcome v' next_outcome) = false)
  /\ (Z.of_nat (length outcomes) <= INT_MAX ->
      0 <= LearningValidator.failures v <= INT_MAX
      /\ 0 <= LearningValidator.successes v <= INT_MAX
      /\ 0 <= LearningValidator.total_trials v <= INT_MAX).
Proof.
  change (LearningValidator.reset v0) with LearningValidator.init.
  destruct (validator_run_fields outcomes) as (Ht & Hs & Hf).
  cbn zeta.
  set (v := LearningValidator.run outcomes LearningValidator.init) in *.
  split; [exact Ht |]. split; [exact Hs |].
  split.
  { unfold LearningValidator.hasLearned, LearningValidator.requiredSuccesses.
    rewrite andb_true_iff, !Z.geb_le. lia. }
  split; [reflexivity |]. split; [reflexivity |].
  split.
  { unfold LearningValidator.hasLearned, LearningValidator.requiredSuccesses.
    cbn [LearningValidator.recordOutcome LearningValidator.successes].
    apply andb_false_iff. right. reflexivity. }
  split.
  { intros next_outcome.
    unfold LearningValidator.hasLearned, LearningValidator.requiredSuccesses.
    apply andb_false_iff. right. destruct next_outcome; reflexivity. }
  intros Hlen.
  pose proof (leading_successes_bounds (rev outcomes)) as Hb.
  rewrite length_rev in Hb. fold (closing_streak outcomes) in Hb.
  pose proof (count_successes_bounds outcomes) as Hc.
  unfold count_failures in Hf. lia.
Qed.

Lemma validator_learned_iff_and_failure_resets_witness :
  0 <= LearningValidator.total_trials
         (LearningValidator.run [false; true; true; true; true]
            LearningValidator.init) <= INT_MAX
  /\ LearningValidator.hasLearned
       (LearningValidator.run [false; true; true; true; true]
          LearningValidator.init) = true.
Proof.
  pose proof (validator_learned_iff_and_failure_resets
                [false; true; true; true; true] LearningValidator.init) as H.
  cbn zeta in H. destruct H as (_ & _ & _ & _ & _ & _ & _ & Hr).
  split.
  - apply Hr. vm_compute. discriminate.
  - reflexivity.
Defined.

(** ** GauntletState *)













(** ** History and TrialHistory *)

Lemma erase_front_while_over_drop {A : Type} (max : nat) (l : list A) :
  erase_front_while_over max l = drop (length l - max) l.
Proof.
  induction l as [| x l IH]; cbn [erase_front_while_over].
  - destruct (max <? length [])%nat; reflexivity.
  - destruct (Nat.ltb_spec max (length (x :: l))) as [Hlt | Hge];
      cbn [length] in *.
    + rewrite IH.
      replace (S (length l) - max)%nat with (S (length l - max)) by lia.
      reflexivity.
    + replace (S (length l) - max)%nat with 0%nat by lia. reflexivity.
Qed.

Lemma erase_front_while_over_length {A : Type} (max : nat) (l : list A) :
  (length (erase_front_while_over max l) <= max)%nat.
Proof. rewrite erase_front_while_over_drop, length_drop. lia. Qed.

Lemma drop_last_window {A : Type} (max : nat) (l : list A) (x : A) :
  (0 < max)%nat ->
  drop (length (drop (length l - max) l ++ [x]) - max)
       (drop (length l - max) l ++ [x])
  = drop (length (l ++ [x]) - max) (l ++ [x]).
Proof.
  intros Hmax. rewrite !length_app, length_drop. cbn [length].
  destruct (Nat.le_gt_cases (length l) max) as [Hle | Hgt].
  - replace (length l - max)%nat with 0%nat by lia.
    rewrite drop_0. replace (length l - 0)%nat with (length l) by lia.
    reflexivity.
  - replace (length l - (length l - max) + 1 - max)%nat with 1%nat by lia.
    replace (length l + 1 - max)%nat with (S (length l - max)) by lia.
    rewrite (drop_app_le l [x]) by lia.
    rewrite drop_app_le by (rewrite length_drop; lia).
    rewrite drop_drop.
    replace (length l - max + 1)%nat with (S (length l - max)) by lia.
    reflexivity.
Qed.

Lemma History_add_all_window (items : list (Z * bool * String.string)) :
  History.entries (History_add_all History.init items)
  = map entry_of (drop (length items - 4) items).
Proof.
  induction items as [| [[n ok] text] l IH] using rev_ind; [reflexivity |].
  unfold History_add_all in *. rewrite fold_left_app. cbn [fold_left].
  unfold History.add at 1. unfold History.entries in *. cbn [History.entries_].
  rewrite IH, erase_front_while_over_drop.
  change [Build_HistoryEntry n ok text] with (map entry_of [(n, ok, text)]).
  rewrite <- map_app, length_map, skipn_map.
  f_equal. apply drop_last_window. lia.
Qed.

Lemma TrialHistory_add_all_window (items : list (Z * bool * String.string)) :
  TrialHistory.entries (TrialHistory_add_all TrialHistory.init items)
  = map record_of (drop (length items - 4) items).
Proof.
  induction items as [| [[n ok] text] l IH] using rev_ind; [reflexivity |].
  unfold TrialHistory_add_all in *. rewrite fold_left_app. cbn [fold_left].
  unfold TrialHistory.add at 1. unfold TrialHistory.entries in *.
  cbn [TrialHistory.entries_].
  rewrite IH, erase_front_while_over_drop.
  change [Build_TrialRecord n ok text] with (map record_of [(n, ok, text)]).
  rewrite <- map_app, length_map, skipn_map.
  f_equal. apply drop_last_window. lia.
Qed.

Lemma History_calls_bounded (calls : list HistoryCall) (h : History.t) :
  (length (History.entries h) <= 4)%nat ->
  (length (History.entries (fold_left History_call calls h)) <= 4)%nat.
Proof.
  revert h. induction calls as [| c calls IH]; intros h Hh; [exact Hh |].
  cbn [fold_left]. apply IH.
  destruct c as [n ok text |]; cbn [History_call].
  - apply (erase_front_while_over_length History.MAX_ENTRIES).
  - cbn. lia.
Qed.

Lemma TrialHistory_calls_bounded (calls : list HistoryCall) (h : TrialHistory.t) :
  (length (TrialHistory.entries h) <= 4)%nat ->
  (length (TrialHistory.entries (fold_left TrialHistory_call calls h)) <= 4)%nat.
Proof.
  revert h. induction calls as [| c calls IH]; intros h Hh; [exact Hh |].
  cbn [fold_left]. apply IH.
  destruct c as [n ok text |]; cbn [TrialHistory_call].
  - apply (erase_front_while_over_length TrialHistory.MAX_ENTRIES).
  - cbn. lia.
Qed.

(** C8. After every sequence of [add] and [clear] calls on a new history,
    [entries()] holds at most 4 entries; [add] appends the new entry at the
    back and, when that makes five, removes the one at the front; after
    adding any items to a new history, [entries()] is the last four of them
    in insertion order, so six calls of [add] leave the third to sixth.  The
    same holds for [History] (history.hpp) and [TrialHistory]
    (renderer.cpp). *)
Theorem history_bounded_rolling_window
    (calls : list HistoryCall)
    (items : list (Z * bool * String.string))
    (i1 i2 i3 i4 i5 i6 : Z * bool * String.string) :
  (length (History.entries (fold_left History_call calls History.init)) <= 4)%nat
  /\ (length (TrialHistory.entries
                (fold_left TrialHistory_call calls TrialHistory.init)) <= 4)%nat
  /\ History.entries (History_add_all History.init items)
     = map entry_of (drop (length items - 4) items)
  /\ TrialHistory.entries (TrialHistory_add_all TrialHistory.init items)
     = map record_of (drop (length items - 4) items)
  /\ History.entries (History_add_all History.init [i1; i2; i3; i4; i5; i6])
     = [entry_of i3; entry_of i4; entry_of i5; entry_of i6]
  /\ TrialHistory.entries
       (TrialHistory_add_all TrialHistory.init [i1; i2; i3; i4; i5; i6])
     = [record_of i3; record_of i4; record_of i5; record_of i6]
  /\ History.entries
       (History.add (History_add_all History.init [i1; i2; i3; i4])
          (fst (fst i5)) (snd (fst i5)) (snd i5))
     = [entry_of i2; entry_of i3; entry_of i4; entry_of i5].
Proof.
  split; [apply History_calls_bounded; cbn; lia |].
  split; [apply TrialHistory_calls_bounded; cbn; lia |].
  split; [apply History_add_all_window |].
  split; [apply TrialHistory_add_all_window |].
  destruct i1 as [[n1 o1] s1], i2 as [[n2 o2] s2], i3 as [[n3 o3] s3],
    i4 as [[n4 o4] s4], i5 as [[n5 o5] s5], i6 as [[n6 o6] s6].
  repeat split.
Qed.

(** ** FrameWriter: escaping and its inverse *)

Lemma unescape_escape_char (char_signed : bool) (c : byte) (rest : list byte) :
  spec_unescape (FrameWriter.escape_char char_signed c ++ rest)
  = (if kept char_signed c then [c] else []) ++ spec_unescape rest.
Proof. destruct char_signed, c; reflexivity. Qed.

Lemma dropped_iff (char_signed : bool) (c : byte) :
  dropped char_signed c
  = Byte.eqb c x0d || Byte.eqb c x7f
    || (negb char_signed && (128 <=? Z.of_N (Byte.to_N c))).
Proof. destruct char_signed, c; reflexivity. Qed.

Lemma unescape_escapeForJson (char_signed : bool) (content : list byte) :
  spec_unescape (FrameWriter.escapeForJson char_signed content)
  = List.filter (kept char_signed) content.
Proof.
  unfold FrameWriter.escapeForJson.
  induction content as [| c content IH]; [reflexivity |].
  cbn [flat_map List.filter].
  rewrite unescape_escape_char, IH.
  destruct (kept char_signed c); reflexivity.
Qed.

Lemma filter_all_kept {A : Type} (f : A -> bool) (l : list A) :
  Forall (fun x => f x = true) l -> List.filter f l = l.
Proof.
  induction 1 as [| x l Hx _ IH]; [reflexivity |].
  cbn [List.filter]. rewrite Hx, IH. reflexivity.
Qed.

Lemma map_filter_all_kept {A : Type} (f : A -> bool) (rows : list (list A)) :
  Forall (Forall (fun x => f x = true)) rows -> map (List.filter f) rows = rows.
Proof.
  induction 1 as [| row rows Hrow _ IH]; [reflexivity |].
  cbn [map]. rewrite IH, (filter_all_kept _ _ Hrow). reflexivity.
Qed.

Lemma forallb_rows_Forall {A : Type} (f : A -> bool) (rows : list (list A)) :
  forallb (forallb f) rows = true ->
  Forall (Forall (fun x => f x = true)) rows.
Proof.
  intros H. rewrite forallb_forall in H.
  apply List.Forall_forall. intros row Hin.
  apply List.Forall_forall. intros x Hx.
  specialize (H row Hin). rewrite forallb_forall in H. exact (H x Hx).
Qed.

Lemma filter_newline_ended (char_signed : bool) (rows : list (list byte)) :
  List.filter (kept char_signed) (newline_ended rows)
  = newline_ended (map (List.filter (kept char_signed)) rows).
Proof.
  unfold newline_ended.
  induction rows as [| row rows IH]; [reflexivity |].
  cbn [flat_map map]. rewrite !List.filter_app, IH.
  destruct char_signed; reflexivity.
Qed.

Lemma frame_content_rows (w : FrameWriter.t) (b : TextBuffer.t) :
  fst (FrameWriter.buildFrameContent w b)
  = frame_prefix w ++ newline_ended (grid_rows b).
Proof.
  unfold FrameWriter.buildFrameContent, frame_prefix, newline_ended, grid_rows.
  cbn [fst]. reflexivity.
Qed.

Lemma frame_prefix_kept (char_signed : bool) (w : FrameWriter.t) :
  List.filter (kept char_signed) (frame_prefix w) = frame_prefix w.
Proof. destruct char_signed, w as [[]]; reflexivity. Qed.

(** C5 (counterexample). For the cleared grid on a new writer the unescaped
    text is not the rows joined by newlines: it starts with the control
    sequence and ends with a newline after the last row.  For the cleared
    grid with a carriage return put at column 0 of row 0 it is not even the
    control sequence followed by the newline-ended rows: the carriage return
    is gone and row 0 comes back one character short. *)
Lemma frame_unescape_is_not_joined_rows :
  spec_unescape
    (fst (FrameWriter.outputFrame true FrameWriter.init
            (TextBuffer.clear (TextBuffer.mk []))))
  <> newline_joined (grid_rows (TextBuffer.clear (TextBuffer.mk [])))
  /\ match TextBuffer.putChar (TextBuffer.clear (TextBuffer.mk [])) 0 0 x0d with
     | Some b =>
         nth_error (grid_rows b) 0 = Some (x0d :: replicate 79 x20)
         /\ spec_unescape (fst (FrameWriter.outputFrame true FrameWriter.init b))
            <> ansi.INIT ++ newline_ended (grid_rows b)
         /\ spec_unescape (fst (FrameWriter.outputFrame true FrameWriter.init b))
            <> ansi.INIT ++ newline_joined (grid_rows b)
     | None => False
     end.
Proof.
  split; [| split; [| split]].
  - intros H. apply (f_equal (fun l => Z.of_nat (length l))) in H.
    vm_compute in H. lia.
  - vm_compute. reflexivity.
  - intros H. apply (f_equal (fun l => Z.of_nat (length l))) in H.
    vm_compute in H. lia.
  - intros H. apply (f_equal (fun l => nth 46 l x00)) in H.
    vm_compute in H. discriminate.
Qed.

(** C5 (amended). Unescaping the escaped text of a frame gives the control
    sequence of the frame ([INIT] on the first frame of a writer, [CLEAR] on
    later ones) followed by the rows of the grid, each read up to its first
    NUL and each followed by a newline, without the characters that
    [escapeForJson] writes nothing for.  Those are the carriage return, 0x7F
    and, where plain [char] is unsigned, the bytes from 0x80 on.  When no row
    holds such a character, the unescaped text is the control sequence
    followed by the newline-ended rows. *)
Theorem frame_unescape_prefix_and_kept_rows
    (char_signed : bool) (w : FrameWriter.t) (b : TextBuffer.t) (c : byte) :
  spec_unescape (fst (FrameWriter.outputFrame char_signed w b))
  = frame_prefix w
    ++ newline_ended (map (List.filter (kept char_signed)) (grid_rows b))
  /\ (Forall (Forall (fun c => kept char_signed c = true)) (grid_rows b) ->
      spec_unescape (fst (FrameWriter.outputFrame char_signed w b))
      = frame_prefix w ++ newline_ended (grid_rows b))
  /\ (kept char_signed c = false
      <-> c = x0d \/ c = x7f
          \/ (char_signed = false /\ 128 <= Z.of_N (Byte.to_N c)))
  /\ frame_prefix FrameWriter.init = ansi.INIT
  /\ frame_prefix (snd (FrameWriter.outputFrame char_signed w b)) = ansi.CLEAR.
Proof.
  assert (E : spec_unescape (fst (FrameWriter.outputFrame char_signed w b))
              = frame_prefix w
                ++ newline_ended
                     (map (List.filter (kept char_signed)) (grid_rows b))).
  { unfold FrameWriter.outputFrame.
    pose proof (frame_content_rows w b) as Hc.
    destruct (FrameWriter.buildFrameContent w b) as [content w'].
    cbn [fst] in *. subst content.
    rewrite unescape_escapeForJson, List.filter_app.
    rewrite frame_prefix_kept, filter_newline_ended. reflexivity. }
  split; [exact E |].
  split.
  { intros Hall. rewrite E, (map_filter_all_kept _ _ Hall). reflexivity. }
  split.
  { unfold kept. rewrite negb_false_iff, dropped_iff, !orb_true_iff,
      andb_true_iff, negb_true_iff, Z.leb_le.
    split.
    - intros [[H | H] | [H1 H2]].
      + left. destruct c; try discriminate H; reflexivity.
      + right; left. destruct c; try discriminate H; reflexivity.
      + right; right. tauto.
    - intros [-> | [-> | [H1 H2]]].
      + left; left; reflexivity.
      + left; right; reflexivity.
      + right. tauto. }
  split; reflexivity.
Qed.

Lemma frame_unescape_prefix_and_kept_rows_witness :
  spec_unescape
    (fst (FrameWriter.outputFrame true FrameWriter.init
            (TextBuffer.clear (TextBuffer.mk []))))
  = ansi.INIT
    ++ newline_ended (grid_rows (TextBuffer.clear (TextBuffer.mk []))).
Proof.
  pose proof (frame_unescape_prefix_and_kept_rows true FrameWriter.init
                (TextBuffer.clear (TextBuffer.mk [])) x00) as H.
  destruct H as (_ & H & _).
  apply H. apply forallb_rows_Forall. vm_compute. reflexivity.
Defined.

(** ** TextBuffer: stores stay inside the array *)

Lemma in_array_true (y x : Z) :
  TextBuffer.in_array y x = true <-> 0 <= y < 24 /\ 0 <= x < 81.
Proof.
  unfold TextBuffer.in_array, terminal.HEIGHT, terminal.WIDTH.
  rewrite !andb_true_iff, !Z.leb_le, !Z.ltb_lt. lia.
Qed.

Lemma read_outside (b : TextBuffer.t) (y x : Z) :
  ~ (0 <= y < 24 /\ 0 <= x < 81) -> TextBuffer.read b y x = None.
Proof.
  intros H. unfold TextBuffer.read.
  destruct (TextBuffer.in_array y x) eqn:E; [| reflexivity].
  apply in_array_true in E. tauto.
Qed.

Lemma write_spec (b : TextBuffer.t) (y x : Z) (c : byte) :
  TextBuffer.shaped b -> 0 <= y < 24 -> 0 <= x < 81 ->
  exists b',
    TextBuffer.write b y x c = Some b'
    /\ TextBuffer.shaped b'
    /\ forall r k,
         TextBuffer.read b' r k
         = if (r =? y) && (k =? x) then Some c else TextBuffer.read b r k.
Proof.
  intros [Hrows Hcols] Hy Hx.
  change (Z.to_nat terminal.HEIGHT) with 24%nat in Hrows.
  change (Z.to_nat (terminal.WIDTH + 1)) with 81%nat in Hcols.
  unfold TextBuffer.write.
  rewrite (proj2 (in_array_true y x)) by tauto.
  destruct (TextBuffer.buffer_ b !! Z.to_nat y) as [row |] eqn:Hrow.
  2: { apply lookup_ge_None in Hrow. lia. }
  assert (Hlen : length row = 81%nat)
    by (exact (Forall_lookup_1 _ _ _ _ Hcols Hrow)).
  destruct (Nat.ltb_spec (Z.to_nat x) (length row)) as [Hlt | Hge]; [| lia].
  eexists. split; [reflexivity |]. split.
  - split; cbn [TextBuffer.buffer_].
    + rewrite length_insert. exact Hrows.
    + apply Forall_insert; [exact Hcols |].
      rewrite length_insert. exact Hlen.
  - intros r k. unfold TextBuffer.read. cbn [TextBuffer.buffer_].
    destruct (TextBuffer.in_array r k) eqn:E.
    + apply in_array_true in E.
      destruct (Z.eqb_spec r y) as [-> | Hne]; cbn [andb].
      * rewrite list_lookup_insert_eq by lia. rewrite Hrow.
        destruct (Z.eqb_spec k x) as [-> | Hk].
        -- apply list_lookup_insert_eq. lia.
        -- apply list_lookup_insert_ne. lia.
      * rewrite list_lookup_insert_ne by lia. reflexivity.
    + destruct (Z.eqb_spec r y) as [-> | Hne]; cbn [andb]; [| reflexivity].
      destruct (Z.eqb_spec k x) as [-> | Hk]; [| reflexivity].
      rewrite (proj2 (in_array_true y x)) in E by tauto. discriminate.
Qed.

Lemma covered_true (x y i n r k : Z) :
  covered x y i n r k = true
  <-> r = y /\ x + i <= k < x + i + n /\ 0 <= k < 80.
Proof.
  unfold covered.
  rewrite !andb_true_iff, Z.eqb_eq, !Z.leb_le, !Z.ltb_lt. lia.
Qed.

Lemma covered_false (x y i n r k : Z) :
  covered x y i n r k = false
  <-> ~ (r = y /\ x + i <= k < x + i + n /\ 0 <= k < 80).
Proof.
  rewrite <- covered_true. destruct (covered x y i n r k); split; intros H;
    congruence.
Qed.

Lemma putString_loop_spec (x y : Z) (str : list byte) :
  0 <= y < 24 ->
  forall (i : Z) (b : TextBuffer.t),
    TextBuffer.shaped b ->
    exists b',
      TextBuffer.putString_loop x y i str b = Some b'
      /\ TextBuffer.shaped b'
      /\ forall r k,
           TextBuffer.read b' r k
           = if covered x y i (Z.of_nat (length str)) r k
             then str !! Z.to_nat (k - (x + i))
             else TextBuffer.read b r k.
Proof.
  intros Hy. induction str as [| c rest IH]; intros i b Hb.
  - exists b. split; [reflexivity |]. split; [exact Hb |].
    intros r k.
    rewrite (proj2 (covered_false x y i _ r k)) by (cbn [length]; lia).
    reflexivity.
  - cbn [TextBuffer.putString_loop]. unfold terminal.WIDTH.
    destruct (Z.ltb_spec (x + i) 80) as [Hlt | Hge].
    + rewrite Z.geb_leb.
      destruct (Z.leb_spec 0 (x + i)) as [Hnn | Hneg].
      * destruct (write_spec b y (x + i) c Hb Hy ltac:(lia))
          as (b1 & Hw & Hb1 & Hr1).
        rewrite Hw.
        destruct (IH (i + 1) b1 Hb1) as (b' & Hl & Hb' & Hr').
        exists b'. split; [exact Hl |]. split; [exact Hb' |].
        intros r k. rewrite Hr', Hr1.
        destruct (covered x y (i + 1) (Z.of_nat (length rest)) r k) eqn:E1.
        -- apply covered_true in E1.
           rewrite (proj2 (covered_true x y i _ r k))
             by (cbn [length]; lia).
           replace (Z.to_nat (k - (x + i)))
             with (S (Z.to_nat (k - (x + (i + 1))))) by lia.
           reflexivity.
        -- apply covered_false in E1.
           destruct (Z.eqb_spec r y) as [-> | Hr]; cbn [andb].
           ++ destruct (Z.eqb_spec k (x + i)) as [-> | Hk].
              ** rewrite (proj2 (covered_true x y i _ y (x + i)))
                   by (cbn [length]; lia).
                 rewrite Z.sub_diag. reflexivity.
              ** rewrite (proj2 (covered_false x y i _ y k))
                   by (cbn [length] in *; lia).
                 reflexivity.
           ++ rewrite (proj2 (covered_false x y i _ r k)) by lia.
              reflexivity.
      * destruct (IH (i + 1) b Hb) as (b' & Hl & Hb' & Hr').
        exists b'. split; [exact Hl |]. split; [exact Hb' |].
        intros r k. rewrite Hr'.
        destruct (covered x y (i + 1) (Z.of_nat (length rest)) r k) eqn:E1.
        -- apply covered_true in E1.
           rewrite (proj2 (covered_true x y i _ r k))
             by (cbn [length]; lia).
           replace (Z.to_nat (k - (x + i)))
             with (S (Z.to_nat (k - (x + (i + 1))))) by lia.
           reflexivity.
        -- apply covered_false in E1.
           rewrite (proj2 (covered_false x y i _ r k))
             by (cbn [length] in *; lia).
           reflexivity.
    + exists b. split; [reflexivity |]. split; [exact Hb |].
      intros r k.
      rewrite (proj2 (covered_false x y i _ r k)) by lia.
      reflexivity.
Qed.

Lemma covered_row_true (x y i n r k : Z) :
  covered_row x y i n r k = true
  <-> r = y /\ x + i <= k < x + i + n /\ 0 <= k < 80 /\ 0 <= y < 24.
Proof.
  unfold covered_row.
  rewrite !andb_true_iff, covered_true, Z.leb_le, Z.ltb_lt. lia.
Qed.

Lemma covered_row_false (x y i n r k : Z) :
  covered_row x y i n r k = false
  <-> ~ (r = y /\ x + i <= k < x + i + n /\ 0 <= k < 80 /\ 0 <= y < 24).
Proof.
  rewrite <- covered_row_true.
  destruct (covered_row x y i n r k); split; intros H; congruence.
Qed.

Lemma drawHLine_loop_spec (x y : Z) (c : byte) (n : nat) :
  forall (i : Z) (b : TextBuffer.t),
    TextBuffer.shaped b ->
    exists b',
      TextBuffer.drawHLine_loop n x y i c b = Some b'
      /\ TextBuffer.shaped b'
      /\ forall r k,
           TextBuffer.read b' r k
           = if covered_row x y i (Z.of_nat n) r k
             then Some c
             else TextBuffer.read b r k.
Proof.
  induction n as [| n IH]; intros i b Hb.
  - exists b. split; [reflexivity |]. split; [exact Hb |].
    intros r k.
    rewrite (proj2 (covered_row_false x y i _ r k)) by lia.
    reflexivity.
  - cbn [TextBuffer.drawHLine_loop]. unfold terminal.WIDTH, terminal.HEIGHT.
    destruct (Z.ltb_spec (x + i) 80) as [Hlt | Hge].
    + destruct ((y >=? 0) && (y <? 24) && (x + i >=? 0)) eqn:Hin.
      * rewrite !andb_true_iff, !Z.geb_le, Z.ltb_lt in Hin.
        destruct (write_spec b y (x + i) c Hb ltac:(lia) ltac:(lia))
          as (b1 & Hw & Hb1 & Hr1).
        rewrite Hw.
        destruct (IH (i + 1) b1 Hb1) as (b' & Hl & Hb' & Hr').
        exists b'. split; [exact Hl |]. split; [exact Hb' |].
        intros r k. rewrite Hr', Hr1.
        destruct (covered_row x y (i + 1) (Z.of_nat n) r k) eqn:E1.
        -- apply covered_row_true in E1.
           rewrite (proj2 (covered_row_true x y i _ r k)) by lia.
           reflexivity.
        -- apply covered_row_false in E1.
           destruct (Z.eqb_spec r y) as [-> | Hr]; cbn [andb].
           ++ destruct (Z.eqb_spec k (x + i)) as [-> | Hk].
              ** rewrite (proj2 (covered_row_true x y i _ y (x + i))) by lia.
                 reflexivity.
              ** rewrite (proj2 (covered_row_false x y i _ y k)) by lia.
                 reflexivity.
           ++ rewrite (proj2 (covered_row_false x y i _ r k)) by lia.
              reflexivity.
      * rewrite !andb_false_iff, !Z.geb_leb, !Z.leb_gt, Z.ltb_ge in Hin.
        destruct (IH (i + 1) b Hb) as (b' & Hl & Hb' & Hr').
        exists b'. split; [exact Hl |]. split; [exact Hb' |].
        intros r k. rewrite Hr'.
        destruct (covered_row x y (i + 1) (Z.of_nat n) r k) eqn:E1.
        -- apply covered_row_true in E1.
           rewrite (proj2 (covered_row_true x y i _ r k)) by lia.
           reflexivity.
        -- apply covered_row_false in E1.
           rewrite (proj2 (covered_row_false x y i _ r k)) by lia.
           reflexivity.
    + exists b. split; [reflexivity |]. split; [exact Hb |].
      intros r k.
      rewrite (proj2 (covered_row_false x y i _ r k)) by lia.
      reflexivity.
Qed.

Lemma covered_row_to_nat (x y len r k : Z) :
  covered_row x y 0 (Z.of_nat (Z.to_nat len)) r k = covered_row x y 0 len r k.
Proof.
  destruct (covered_row x y 0 len r k) eqn:E.
  - apply covered_row_true in E. apply covered_row_true. lia.
  - apply covered_row_false in E. apply covered_row_false. lia.
Qed.

Lemma clear_shaped (b : TextBuffer.t) : TextBuffer.shaped (TextBuffer.clear b).
Proof.
  split; [reflexivity |].
  apply Forall_forall. intros row Hin.
  apply elem_of_replicate in Hin as [-> _]. reflexivity.
Qed.

Lemma putString_spec (b : TextBuffer.t) (x y : Z) (str : list byte) :
  TextBuffer.shaped b ->
  exists b',
    TextBuffer.putString b x y str = Some b'
    /\ TextBuffer.shaped b'
    /\ forall r k,
         TextBuffer.read b' r k
         = if covered_row x y 0 (Z.of_nat (length (c_str str))) r k
           then c_str str !! Z.to_nat (k - x)
           else TextBuffer.read b r k.
Proof.
  intros Hb. unfold TextBuffer.putString, terminal.HEIGHT.
  destruct ((y <? 0) || (y >=? 24)) eqn:Hout.
  - rewrite orb_true_iff, Z.ltb_lt, Z.geb_le in Hout.
    exists b. split; [reflexivity |]. split; [exact Hb |].
    intros r k.
    rewrite (proj2 (covered_row_false x y 0 _ r k)) by lia. reflexivity.
  - rewrite orb_false_iff, Z.ltb_ge, Z.geb_leb, Z.leb_gt in Hout.
    destruct (putString_loop_spec x y (c_str str) ltac:(lia) 0 b Hb)
      as (b' & Hl & Hb' & Hr).
    exists b'. split; [exact Hl |]. split; [exact Hb' |].
    intros r k. rewrite Hr. unfold covered_row.
    rewrite (proj2 (Z.leb_le 0 y)), (proj2 (Z.ltb_lt y 24)) by lia.
    rewrite !andb_true_r, Z.add_0_r. reflexivity.
Qed.

Lemma putChar_spec (b : TextBuffer.t) (x y : Z) (c : byte) :
  TextBuffer.shaped b ->
  exists b',
    TextBuffer.putChar b x y c = Some b'
    /\ TextBuffer.shaped b'
    /\ forall r k,
         TextBuffer.read b' r k
         = if covered_row x y 0 1 r k then Some c else TextBuffer.read b r k.
Proof.
  intros Hb. unfold TextBuffer.putChar, terminal.WIDTH, terminal.HEIGHT.
  destruct ((x >=? 0) && (x <? 80) && (y >=? 0) && (y <? 24)) eqn:Hin.
  - rewrite !andb_true_iff, !Z.geb_le, !Z.ltb_lt in Hin.
    destruct (write_spec b y x c Hb ltac:(lia) ltac:(lia))
      as (b' & Hw & Hb' & Hr).
    exists b'. split; [exact Hw |]. split; [exact Hb' |].
    intros r k. rewrite Hr.
    destruct (covered_row x y 0 1 r k) eqn:E.
    + apply covered_row_true in E.
      rewrite (proj2 (Z.eqb_eq r y)), (proj2 (Z.eqb_eq k x)) by lia.
      reflexivity.
    + apply covered_row_false in E.
      destruct (Z.eqb_spec r y); destruct (Z.eqb_spec k x); cbn [andb];
        try reflexivity.
      exfalso. apply E. lia.
  - rewrite !andb_false_iff, !Z.geb_leb, !Z.leb_gt, !Z.ltb_ge in Hin.
    exists b. split; [reflexivity |]. split; [exact Hb |].
    intros r k.
    rewrite (proj2 (covered_row_false x y 0 1 r k)) by lia. reflexivity.
Qed.

(** C9. Every drawing call on a grid succeeds without a store outside the
    array and changes exactly the cells it addresses that lie in columns
    [0,80) of rows [0,24); characters addressed elsewhere are dropped.
    [putString(75, 0, "0123456789")] writes "01234" to columns 75 to 79 of
    row 0 and leaves every other cell, column 80 included, as it was. *)
Theorem textbuffer_drawing_clips_silently
    (b : TextBuffer.t) (x y len : Z) (str : list byte) (c : byte) :
  TextBuffer.shaped b ->
  (exists b1,
      TextBuffer.putString b x y str = Some b1
      /\ TextBuffer.shaped b1
      /\ forall r k,
           TextBuffer.read b1 r k
           = if covered_row x y 0 (Z.of_nat (length (c_str str))) r k
             then c_str str !! Z.to_nat (k - x)
             else TextBuffer.read b r k)
  /\ (exists b2,
      TextBuffer.putChar b x y c = Some b2
      /\ TextBuffer.shaped b2
      /\ forall r k,
           TextBuffer.read b2 r k
           = if covered_row x y 0 1 r k then Some c else TextBuffer.read b r k)
  /\ (exists b3,
      TextBuffer.drawHLine b x y len c = Some b3
      /\ TextBuffer.shaped b3
      /\ forall r k,
           TextBuffer.read b3 r k
           = if covered_row x y 0 len r k then Some c
             else TextBuffer.read b r k)
  /\ (exists b4,
      TextBuffer.putString b 75 0 (list_byte_of_string "0123456789") = Some b4
      /\ TextBuffer.read b4 0 75 = Some x30
      /\ TextBuffer.read b4 0 76 = Some x31
      /\ TextBuffer.read b4 0 77 = Some x32
      /\ TextBuffer.read b4 0 78 = Some x33
      /\ TextBuffer.read b4 0 79 = Some x34
      /\ forall r k,
           ~ (r = 0 /\ 75 <= k <= 79) ->
           TextBuffer.read b4 r k = TextBuffer.read b r k)
  /\ (forall r k,
        covered_row x y 0 len r k = true
        <-> r = y /\ x <= k < x + len /\ 0 <= k < 80 /\ 0 <= y < 24).
Proof.
  intros Hb.
  split; [apply putString_spec; exact Hb |].
  split; [apply putChar_spec; exact Hb |].
  split.
  { destruct (drawHLine_loop_spec x y c (Z.to_nat len) 0 b Hb)
      as (b3 & Hl & Hb3 & Hr).
    exists b3. split; [exact Hl |]. split; [exact Hb3 |].
    intros r k. rewrite Hr, covered_row_to_nat. reflexivity. }
  split.
  { destruct (putString_spec b 75 0 (list_byte_of_string "0123456789") Hb)
      as (b4 & Hp & _ & Hr).
    exists b4. split; [exact Hp |].
    repeat (split; [rewrite Hr; reflexivity |]).
    intros r k Hnot. rewrite Hr.
    rewrite (proj2 (covered_row_false 75 0 0 _ r k)); [reflexivity |].
    change (Z.of_nat (length (c_str (list_byte_of_string "0123456789"))))
      with 10.
    lia. }
  intros r k. rewrite covered_row_true. lia.
Qed.

Lemma textbuffer_drawing_clips_silently_witness :
  exists b4,
    TextBuffer.putString (TextBuffer.clear (TextBuffer.mk [])) 75 0
      (list_byte_of_string "0123456789") = Some b4
    /\ TextBuffer.read b4 0 79 = Some x34
    /\ TextBuffer.read b4 0 80 = Some x00
    /\ TextBuffer.read b4 0 74 = Some x20.
Proof.
  assert (Hs : TextBuffer.shaped (TextBuffer.clear (TextBuffer.mk [])))
    by (split; [reflexivity | repeat constructor]).
  destruct (textbuffer_drawing_clips_silently
              (TextBuffer.clear (TextBuffer.mk [])) 0 0 0 [] x00 Hs)
    as (_ & _ & _ & (b4 & Hp & _ & _ & _ & _ & H79 & Hrest) & _).
  exists b4. split; [exact Hp |]. split; [exact H79 |].
  split.
  - rewrite Hrest by lia. reflexivity.
  - rewrite Hrest by lia. reflexivity.
Defined.

(* ===================================================================== *)
(** * Part III: further properties of the puzzle and frame code          *)
(* ===================================================================== *)

(** ** MushroomTrial: the adversarial trial *)

(** X1. The adversarial trial needs no re-draw and always comes back: A is
    large ([90,127]) and dull ([10,39]), B is small ([32,69]) and bright
    ([90,127]), A is larger than B by at least 21, so the stored answer
    [correctIsA = true] is the answer of the size rule, and exactly four
    values are taken from the generator. *)
Theorem mushroom_adversarial_trial (fuel : nat) (rng : RNG.t) :
  let t := fst (MushroomTrial.generateAdversarial rng) in
  MushroomTrial.generate fuel rng true
  = Some (MushroomTrial.generateAdversarial rng)
  /\ 90 <= MushroomTrial.sizeA t <= 127
  /\ 32 <= MushroomTrial.sizeB t <= 69
  /\ 10 <= MushroomTrial.colorA t <= 39
  /\ 90 <= MushroomTrial.colorB t <= 127
  /\ 21 <= MushroomTrial.sizeA t - MushroomTrial.sizeB t
  /\ MushroomTrial.correctIsA t
     = (MushroomTrial.sizeA t >? MushroomTrial.sizeB t)
  /\ snd (MushroomTrial.generateAdversarial rng) = snd (RNG.draw 4 rng).
Proof.
  cbn zeta. split; [reflexivity |].
  unfold MushroomTrial.generateAdversarial. cbn [RNG.draw].
  destruct (RNG.next rng) as [v1 rng1].
  destruct (RNG.next rng1) as [v2 rng2].
  destruct (RNG.next rng2) as [v3 rng3].
  destruct (RNG.next rng3) as [v4 rng4].
  pose proof (draw_in_range 90 38 v1 ltac:(lia) ltac:(lia) ltac:(lia)) as Ha.
  pose proof (draw_in_range 32 38 v2 ltac:(lia) ltac:(lia) ltac:(lia)) as Hb.
  pose proof (draw_in_range 10 30 v3 ltac:(lia) ltac:(lia) ltac:(lia)) as Hca.
  pose proof (draw_in_range 90 38 v4 ltac:(lia) ltac:(lia) ltac:(lia)) as Hcb.
  cbn [fst snd MushroomTrial.sizeA MushroomTrial.sizeB MushroomTrial.colorA
       MushroomTrial.colorB MushroomTrial.correctIsA].
  repeat split; lia.
Qed.

(** X2. [colorName] names the eight bands of width 16 of the colour range:
    for a colour in [0,127] the name is the entry [color / 16] of the list
    red, orange, yellow, green, cyan, blue, purple, pink; below 0 it is red
    and from 112 on it is pink. *)
Theorem mushroom_colorName_bands (color : Z) :
  (0 <= color <= 127 ->
   MushroomTrial.colorName color
   = nth (Z.to_nat (color / 16))
       ["red"; "orange"; "yellow"; "green"; "cyan"; "blue"; "purple"; "pink"]%string
       ""%string)
  /\ (color < 0 -> MushroomTrial.colorName color = "red"%string)
  /\ (112 <= color -> MushroomTrial.colorName color = "pink"%string).
Proof.
  unfold MushroomTrial.colorName.
  split; [| split]; intros H.
  - assert (Hq : 0 <= color / 16 <= 7 /\ 16 * (color / 16) <= color
                 /\ color < 16 * (color / 16) + 16).
    { pose proof (Z.div_mod color 16 ltac:(lia)).
      pose proof (Z.mod_pos_bound color 16 ltac:(lia)). lia. }
    destruct Hq as (Hq & Hlo & Hhi).
    assert (Hc : color / 16 = 0 \/ color / 16 = 1 \/ color / 16 = 2
                 \/ color / 16 = 3 \/ color / 16 = 4 \/ color / 16 = 5
                 \/ color / 16 = 6 \/ color / 16 = 7) by lia.
    repeat (destruct Hc as [Hc | Hc];
            [ rewrite Hc in *;
              repeat match goal with
                     | |- context [?a <? ?b] => destruct (Z.ltb_spec a b); try lia
                     end; reflexivity |]).
    rewrite Hc in *.
    repeat match goal with
           | |- context [?a <? ?b] => destruct (Z.ltb_spec a b); try lia
           end; reflexivity.
  - destruct (Z.ltb_spec color 16); [reflexivity | lia].
  - repeat match goal with
           | |- context [?a <? ?b] => destruct (Z.ltb_spec a b); try lia
           end; reflexivity.
Qed.

Lemma mushroom_colorName_bands_witness :
  MushroomTrial.colorName 64 = "cyan"%string
  /\ MushroomTrial.colorName (-3) = "red"%string
  /\ MushroomTrial.colorName 120 = "pink"%string.
Proof.
  split; [| split].
  - apply (proj1 (mushroom_colorName_bands 64)). lia.
  - apply (proj1 (proj2 (mushroom_colorName_bands (-3)))). lia.
  - apply (proj2 (proj2 (mushroom_colorName_bands 120))). lia.
Defined.

(** ** ShapeTrial *)

Lemma shape_draw_values (v : Z) :
  ShapeTrial.shape_draw v = 0 \/ ShapeTrial.shape_draw v = 127.
Proof.
  unfold ShapeTrial.shape_draw.
  destruct (v mod 2 =? 0); [left | right]; reflexivity.
Qed.

Lemma reroll_post (fuel : nat) (rankA : Z) :
  forall (cB sB rankB : Z) (rng : RNG.t) (cB' sB' rankB' : Z) (rng' : RNG.t),
    rankB = ShapeTrial.rank cB sB ->
    0 <= cB <= 127 -> (sB = 0 \/ sB = 127) ->
    ShapeTrial.reroll fuel rankA cB sB rankB rng = Some (cB', sB', rankB', rng') ->
    rankB' = ShapeTrial.rank cB' sB' /\ rankA <> rankB'
    /\ 0 <= cB' <= 127 /\ (sB' = 0 \/ sB' = 127).
Proof.
  induction fuel as [| fuel IH]; intros cB sB rankB rng cB' sB' rankB' rng'
    Hrank Hc Hs; cbn [ShapeTrial.reroll].
  - destruct (Z.eqb_spec rankA rankB); [discriminate |].
    intros [= <- <- <- <-]. tauto.
  - destruct (Z.eqb_spec rankA rankB).
    + destruct (RNG.next rng) as [v1 rng1].
      destruct (RNG.next rng1) as [v2 rng2].
      apply IH; [reflexivity | | apply shape_draw_values].
      pose proof (draw_in_range 0 128 v1 ltac:(lia) ltac:(lia) ltac:(lia)) as H.
      rewrite !Z.add_0_l in H. lia.
    + intros [= <- <- <- <-]. tauto.
Qed.

(** X3. Whenever the non-adversarial [ShapeTrial::generate] returns a
    trial, both shapes are 0 (square) or 127 (circle), both colours lie in
    [0,127], the two options have different ranks, and [correctIsA] says
    whether A has the higher rank. *)
Theorem shape_generate_postcondition
    (fuel : nat) (rng rng' : RNG.t) (t : ShapeTrial.t) :
  ShapeTrial.generate fuel rng false = Some (t, rng') ->
  (ShapeTrial.shapeA t = 0 \/ ShapeTrial.shapeA t = 127)
  /\ (ShapeTrial.shapeB t = 0 \/ ShapeTrial.shapeB t = 127)
  /\ 0 <= ShapeTrial.colorA t <= 127
  /\ 0 <= ShapeTrial.colorB t <= 127
  /\ ShapeTrial.rank (ShapeTrial.colorA t) (ShapeTrial.shapeA t)
     <> ShapeTrial.rank (ShapeTrial.colorB t) (ShapeTrial.shapeB t)
  /\ ShapeTrial.correctIsA t
     = (ShapeTrial.rank (ShapeTrial.colorA t) (ShapeTrial.shapeA t)
        >? ShapeTrial.rank (ShapeTrial.colorB t) (ShapeTrial.shapeB t)).
Proof.
  unfold ShapeTrial.generate.
  destruct (RNG.next rng) as [v1 rng1].
  destruct (RNG.next rng1) as [v2 rng2].
  destruct (RNG.next rng2) as [v3 rng3].
  destruct (RNG.next rng3) as [v4 rng4].
  pose proof (draw_in_range 0 128 v3 ltac:(lia) ltac:(lia) ltac:(lia)) as Hca.
  pose proof (draw_in_range 0 128 v4 ltac:(lia) ltac:(lia) ltac:(lia)) as Hcb.
  rewrite !Z.add_0_l in Hca, Hcb.
  destruct (ShapeTrial.reroll fuel _ _ _ _ rng4)
    as [[[[cB sB] rankB] rng5] |] eqn:Hre; [| discriminate].
  apply reroll_post in Hre;
    [| reflexivity | lia | apply shape_draw_values].
  destruct Hre as (Hr & Hne & Hc & Hs).
  intros [= <- <-].
  cbn [ShapeTrial.shapeA ShapeTrial.shapeB ShapeTrial.colorA ShapeTrial.colorB
       ShapeTrial.correctIsA].
  rewrite <- Hr.
  repeat split; try lia; try assumption.
  apply shape_draw_values.
Qed.

Lemma shape_generate_postcondition_witness :
  ShapeTrial.generate 8 (RNG.ctor 7) false
  = Some (ShapeTrial.mk 67 127 127 0 true, RNG.mk 2098155156)
  /\ ShapeTrial.rank 67 127 <> ShapeTrial.rank 127 0.
Proof.
  split; [vm_compute; reflexivity |].
  pose proof (shape_generate_postcondition 8 (RNG.ctor 7) (RNG.mk 2098155156)
                (ShapeTrial.mk 67 127 127 0 true)
                ltac:(vm_compute; reflexivity)) as H.
  destruct H as (_ & _ & _ & _ & H & _). exact H.
Defined.

(** X4. The adversarial [ShapeTrial] is a blue square (colour in [5,24],
    rank 2) against a non-blue circle (colour in [80,127], rank 1), so the
    stored answer [correctIsA = true] is the answer of the ranking, and
    exactly two values are taken from the generator. *)
Theorem shape_adversarial_trial (fuel : nat) (rng : RNG.t) :
  let t := fst (ShapeTrial.generateAdversarial rng) in
  ShapeTrial.generate fuel rng true = Some (ShapeTrial.generateAdversarial rng)
  /\ ShapeTrial.shapeA t = 0 /\ 5 <= ShapeTrial.colorA t <= 24
  /\ ShapeTrial.shapeB t = 127 /\ 80 <= ShapeTrial.colorB t <= 127
  /\ ShapeTrial.rank (ShapeTrial.colorA t) (ShapeTrial.shapeA t) = 2
  /\ ShapeTrial.rank (ShapeTrial.colorB t) (ShapeTrial.shapeB t) = 1
  /\ ShapeTrial.correctIsA t
     = (ShapeTrial.rank (ShapeTrial.colorA t) (ShapeTrial.shapeA t)
        >? ShapeTrial.rank (ShapeTrial.colorB t) (ShapeTrial.shapeB t))
  /\ snd (ShapeTrial.generateAdversarial rng) = snd (RNG.draw 2 rng).
Proof.
  cbn zeta. split; [reflexivity |].
  unfold ShapeTrial.generateAdversarial. cbn [RNG.draw].
  destruct (RNG.next rng) as [v1 rng1].
  destruct (RNG.next rng1) as [v2 rng2].
  pose proof (draw_in_range 5 20 v1 ltac:(lia) ltac:(lia) ltac:(lia)) as Ha.
  pose proof (draw_in_range 80 48 v2 ltac:(lia) ltac:(lia) ltac:(lia)) as Hb.
  cbn [fst snd ShapeTrial.shapeA ShapeTrial.shapeB ShapeTrial.colorA
       ShapeTrial.colorB ShapeTrial.correctIsA].
  change (int16 0) with 0. change (int16 127) with 127.
  destruct Ha as [-> Ha], Hb as [-> Hb].
  assert (R2 : ShapeTrial.rank (5 + v1 mod 20) 0 = 2).
  { unfold ShapeTrial.rank.
    destruct (Z.ltb_spec (5 + v1 mod 20) 26); [reflexivity | lia]. }
  assert (R1 : ShapeTrial.rank (80 + v2 mod 48) 127 = 1) by reflexivity.
  rewrite R2, R1. repeat split; lia.
Qed.

(** X5. The display names agree with the ranking's tests: [colorName] is
    "blue" exactly when [isBlue], [shapeName] is "circle" exactly when
    [isCircle], and the rank is 2 exactly for a blue square, 1 exactly for
    a circle and 0 exactly for a square of another colour. *)
Theorem shape_names_agree_with_rank (color shape : Z) :
  (ShapeTrial.colorName color = "blue"%string
   <-> ShapeTrial.isBlue color = true)
  /\ (ShapeTrial.shapeName shape = "circle"%string
      <-> ShapeTrial.isCircle shape = true)
  /\ (ShapeTrial.rank color shape = 2
      <-> ShapeTrial.colorName color = "blue"%string
          /\ ShapeTrial.shapeName shape = "square"%string)
  /\ (ShapeTrial.rank color shape = 1
      <-> ShapeTrial.shapeName shape = "circle"%string)
  /\ (ShapeTrial.rank color shape = 0
      <-> ShapeTrial.colorName color <> "blue"%string
          /\ ShapeTrial.shapeName shape = "square"%string).
Proof.
  unfold ShapeTrial.colorName, ShapeTrial.shapeName, ShapeTrial.isBlue,
    ShapeTrial.isCircle, ShapeTrial.rank.
  destruct (shape >? 64); cbn [negb andb];
    repeat match goal with
           | |- context [?a <? ?b] => destruct (Z.ltb_spec a b); try lia
           end;
    intuition (discriminate || congruence).
Qed.

(** ** XORTrial and CompositionTrial *)

Lemma remainder_is_low_bit (v : Z) : negb (v mod 2 =? 0) = Z.odd v.
Proof. rewrite Zmod_odd. destruct (Z.odd v); reflexivity. Qed.

(** X6. An [XORTrial] takes two values from the generator; [lightOn] is
    the low bit of the first and [choosingRight] the low bit of the second;
    [isSafe] is their exclusive or, and it holds exactly when the two
    encoded inputs, each 0 or 127, differ. *)
Theorem xor_trial_ground_truth (rng : RNG.t) :
  let t := fst (XORTrial.generate rng) in
  fst (RNG.draw 2 rng)
  = [fst (RNG.next rng); fst (RNG.next (snd (RNG.next rng)))]
  /\ XORTrial.lightOn t = Z.odd (fst (RNG.next rng))
  /\ XORTrial.choosingRight t
     = Z.odd (fst (RNG.next (snd (RNG.next rng))))
  /\ XORTrial.isSafe t = xorb (XORTrial.lightOn t) (XORTrial.choosingRight t)
  /\ (XORTrial.isSafe t = true
      <-> XORTrial.lightInput t <> XORTrial.pathInput t)
  /\ (XORTrial.lightInput t = 0 \/ XORTrial.lightInput t = 127)
  /\ (XORTrial.pathInput t = 0 \/ XORTrial.pathInput t = 127)
  /\ snd (XORTrial.generate rng) = snd (RNG.draw 2 rng).
Proof.
  cbn zeta. unfold XORTrial.generate. cbn [RNG.draw].
  destruct (RNG.next rng) as [v1 rng1]. cbn [fst snd].
  destruct (RNG.next rng1) as [v2 rng2]. cbn [fst snd].
  unfold XORTrial.lightInput, XORTrial.pathInput.
  cbn [XORTrial.lightOn XORTrial.choosingRight XORTrial.isSafe].
  rewrite !remainder_is_low_bit.
  destruct (Z.odd v1), (Z.odd v2); cbn; intuition (discriminate || congruence).
Qed.

Lemma composition_redraw_is_mushroom_redraw (fuel : nat) (a b : Z) (rng : RNG.t) :
  CompositionTrial.redraw fuel a b rng = MushroomTrial.redraw fuel a b rng.
Proof. reflexivity. Qed.

(** X7. Whenever [CompositionTrial::generate] returns a trial, both sizes
    lie in [32,127] and differ by at least 20, and [correctIsA] is
    [sizeA > sizeB] when the light is on and [sizeA < sizeB] when it is
    off: the two sizes are never equal, so "not larger" is "smaller". *)
Theorem composition_generate_postcondition
    (fuel : nat) (rng rng' : RNG.t) (t : CompositionTrial.t) :
  CompositionTrial.generate fuel rng = Some (t, rng') ->
  32 <= CompositionTrial.sizeA t <= 127
  /\ 32 <= CompositionTrial.sizeB t <= 127
  /\ 20 <= Z.abs (CompositionTrial.sizeA t - CompositionTrial.sizeB t)
  /\ CompositionTrial.correctIsA t
     = (if CompositionTrial.lightOn t
        then CompositionTrial.sizeA t >? CompositionTrial.sizeB t
        else CompositionTrial.sizeA t <? CompositionTrial.sizeB t)
  /\ (CompositionTrial.lightInput t = 0 \/ CompositionTrial.lightInput t = 127).
Proof.
  unfold CompositionTrial.generate.
  destruct (RNG.next rng) as [v0 rng0].
  destruct (RNG.next rng0) as [v1 rng1].
  destruct (RNG.next rng1) as [v2 rng2].
  pose proof (draw_in_range 32 96 v1 ltac:(lia) ltac:(lia) ltac:(lia)) as Ha.
  pose proof (draw_in_range 32 96 v2 ltac:(lia) ltac:(lia) ltac:(lia)) as Hb.
  rewrite composition_redraw_is_mushroom_redraw.
  destruct (MushroomTrial.redraw fuel _ _ rng2) as [[b rng3] |] eqn:Hre;
    [| discriminate].
  apply redraw_post in Hre; [| lia].
  intros [= <- <-].
  unfold CompositionTrial.lightInput.
  cbn [CompositionTrial.sizeA CompositionTrial.sizeB CompositionTrial.lightOn
       CompositionTrial.correctIsA].
  destruct (negb (v0 mod 2 =? 0)); repeat split; try lia; try tauto.
Qed.

Lemma composition_generate_postcondition_witness :
  CompositionTrial.generate 8 (RNG.ctor 42)
  = Some (CompositionTrial.mk false 108 35 false, RNG.mk 476557059)
  /\ 20 <= Z.abs (108 - 35).
Proof.
  split; [vm_compute; reflexivity |].
  pose proof (composition_generate_postcondition 8 (RNG.ctor 42)
                (RNG.mk 476557059) (CompositionTrial.mk false 108 35 false)
                ltac:(vm_compute; reflexivity)) as H.
  destruct H as (_ & _ & H & _). exact H.
Defined.

(** ** networks.hpp: scaling of the inputs *)

(** X8. [scaleToU8] always yields a byte; on [0,127], the range of every
    puzzle attribute, it doubles its argument and is therefore injective;
    it is 0 below 0 and 255 from 128 on, and it is monotone.  Read back
    through [interpretBool], a scaled value is "true" exactly when the
    attribute exceeds 64, the threshold of [ShapeTrial::isCircle]. *)
Theorem scaleToU8_properties (a b : Z) :
  0 <= scaleToU8 a <= 255
  /\ (0 <= a <= 127 -> scaleToU8 a = 2 * a)
  /\ (a <= 0 -> scaleToU8 a = 0)
  /\ (128 <= a -> scaleToU8 a = 255)
  /\ (a <= b -> scaleToU8 a <= scaleToU8 b)
  /\ (0 <= a <= 127 -> 0 <= b <= 127 -> scaleToU8 a = scaleToU8 b -> a = b)
  /\ interpretBool (scaleToU8 a) = ShapeTrial.isCircle a.
Proof.
  assert (E : forall v, scaleToU8 v
                        = if v * 2 <? 0 then 0
                          else if 255 <? v * 2 then 255 else v * 2).
  { intros v. unfold scaleToU8, clamp, wrap8.
    destruct (Z.ltb_spec (v * 2) 0); [reflexivity |].
    destruct (Z.ltb_spec 255 (v * 2)); [reflexivity |].
    apply Z.mod_small. lia. }
  unfold interpretBool, ShapeTrial.isCircle. rewrite !E.
  destruct (Z.ltb_spec (a * 2) 0); destruct (Z.ltb_spec 255 (a * 2));
    destruct (Z.ltb_spec (b * 2) 0); destruct (Z.ltb_spec 255 (b * 2));
    repeat split; intros; lia.
Qed.

Lemma scaleToU8_properties_witness :
  scaleToU8 127 = 254 /\ scaleToU8 (-5) = 0 /\ scaleToU8 200 = 255
  /\ scaleToU8 3 <= scaleToU8 90.
Proof.
  pose proof (scaleToU8_properties 3 90) as (_ & _ & _ & _ & Hm & _).
  pose proof (scaleToU8_properties 127 0) as (_ & Hd & _).
  pose proof (scaleToU8_properties (-5) 0) as (_ & _ & Hz & _).
  pose proof (scaleToU8_properties 200 0) as (_ & _ & _ & Hs & _).
  split; [apply Hd; lia |]. split; [apply Hz; lia |].
  split; [apply Hs; lia | apply Hm; lia].
Defined.

(** ** RNG: the step is injective *)

Lemma wrap32_shiftl_lxor (a b k : Z) :
  wrap32 (Z.shiftl (Z.lxor a b) k)
  = Z.lxor (wrap32 (Z.shiftl a k)) (wrap32 (Z.shiftl b k)).
Proof.
  unfold wrap32. rewrite Z.shiftl_lxor.
  apply Z.bits_inj'. intros i Hi.
  rewrite Z.lxor_spec, !Z.testbit_mod_pow2, Z.lxor_spec by lia.
  destruct (i <? 32); reflexivity.
Qed.

Lemma lxor_pairs (a b c d : Z) :
  Z.lxor (Z.lxor a b) (Z.lxor c d) = Z.lxor (Z.lxor a c) (Z.lxor b d).
Proof.
  apply Z.bits_inj'. intros i Hi. rewrite !Z.lxor_spec.
  destruct (Z.testbit a i), (Z.testbit b i), (Z.testbit c i), (Z.testbit d i);
    reflexivity.
Qed.

Lemma xor_shl_injective (a b k : Z) :
  0 < k < 32 ->
  Z.lxor a (wrap32 (Z.shiftl a k)) = Z.lxor b (wrap32 (Z.shiftl b k)) ->
  a = b.
Proof.
  intros Hk H. apply Z.lxor_eq.
  apply (xor_shl_zero _ k Hk).
  rewrite wrap32_shiftl_lxor, lxor_pairs, H. apply Z.lxor_nilpotent.
Qed.

Lemma xor_shr_injective (a b k : Z) :
  0 < k -> 0 <= a -> 0 <= b ->
  Z.lxor a (Z.shiftr a k) = Z.lxor b (Z.shiftr b k) ->
  a = b.
Proof.
  intros Hk Ha Hb H. apply Z.lxor_eq.
  apply (xor_shr_zero _ k Hk); [apply Z.lxor_nonneg; lia |].
  rewrite Z.shiftr_lxor, lxor_pairs, H. apply Z.lxor_nilpotent.
Qed.

(** X9. [next()] never sends two different states to the same value: on
    32-bit states the xorshift step is injective, so a generator cannot
    fall into a state that another state also leads to, and the value
    returned determines the state it came from. *)
Theorem rng_next_injective (a b : RNG.t) :
  RNG.valid a -> RNG.valid b ->
  fst (RNG.next a) = fst (RNG.next b) ->
  a = b.
Proof.
  unfold RNG.valid. destruct a as [sa], b as [sb].
  unfold RNG.next. cbn [fst RNG.state]. intros Ha Hb H.
  f_equal.
  apply xor_shl_injective in H; [| lia].
  apply xor_shr_injective in H;
    [| lia
     | apply lxor_range32; [exact Ha | apply wrap32_range]
     | apply lxor_range32; [exact Hb | apply wrap32_range] ].
  apply xor_shl_injective in H; [exact H | lia].
Qed.

Lemma rng_next_injective_witness :
  RNG.ctor (42 + 2 ^ 32) = RNG.mk 42.
Proof.
  apply (rng_next_injective (RNG.ctor (42 + 2 ^ 32)) (RNG.mk 42)).
  - unfold RNG.valid. change (RNG.state (RNG.ctor (42 + 2 ^ 32))) with 42. lia.
  - unfold RNG.valid. cbn [RNG.state]. lia.
  - vm_compute. reflexivity.
Defined.

(** ** SequencePuzzle: runs of presses *)

Lemma press_all_terminal (p : SequencePuzzle.t) (buttons : list Z) :
  SequencePuzzle.state p = SUCCESS \/ SequencePuzzle.state p = FAIL ->
  press_all p buttons = p.
Proof.
  revert p. induction buttons as [| b rest IH]; intros p Hp; [reflexivity |].
  unfold press_all in *. cbn [fold_left].
  assert (E : snd (SequencePuzzle.pressButton p b) = p).
  { unfold SequencePuzzle.pressButton. destruct Hp as [-> | ->]; reflexivity. }
  rewrite E. apply IH. exact Hp.
Qed.

(** X10. From the initial state, whatever is pressed: the puzzle succeeds
    exactly when the presses begin with A then B, it is in progress exactly
    when the only press so far was A, and otherwise, once anything was
    pressed, it has failed; after two or more presses it is in a terminal
    state, and later presses change nothing.  The encoded last action is 64
    exactly while the puzzle is in progress and 0 in every other state. *)
Theorem sequence_press_runs (buttons more : list Z) :
  let p := press_all SequencePuzzle.init buttons in
  (SequencePuzzle.isSuccess p = true <-> exists rest, buttons = 0 :: 1 :: rest)
  /\ (SequencePuzzle.inProgress p = true <-> buttons = [0])
  /\ (SequencePuzzle.isFail p = true
      <-> (exists b rest, buttons = b :: rest /\ b <> 0)
          \/ (exists b rest, buttons = 0 :: b :: rest /\ b <> 1))
  /\ ((2 <= length buttons)%nat ->
      (SequencePuzzle.isSuccess p || SequencePuzzle.isFail p = true)
      /\ press_all p more = p)
  /\ SequencePuzzle.lastActionInput p
     = (if SequencePuzzle.inProgress p then 64 else 0).
Proof.
  cbn zeta.
  destruct buttons as [| b1 [| b2 rest]].
  - cbn. repeat split; try discriminate; try (intros; lia).
    + intros [rest H]; discriminate.
    + intros [(b & rest & H & _) | (b & rest & H & _)]; discriminate.
  - unfold press_all. cbn [fold_left SequencePuzzle.init].
    unfold SequencePuzzle.pressButton. cbn [SequencePuzzle.state].
    destruct (Z.eqb_spec b1 0) as [-> | Hb1]; cbn.
    + repeat split; try discriminate; try reflexivity; try (intros; lia).
      * intros [rest H]; discriminate.
      * intros [(b & rest & H & Hne) | (b & rest & H & _)];
          [injection H as <- _; congruence | discriminate].
    + repeat split; try discriminate; try reflexivity; try (intros; lia).
      * intros [rest H]; discriminate.
      * intros [= ->]. congruence.
      * intros _. left. exists b1, []. split; [reflexivity | exact Hb1].
  - assert (E : press_all SequencePuzzle.init (b1 :: b2 :: rest)
                = snd (SequencePuzzle.pressButton
                         (snd (SequencePuzzle.pressButton SequencePuzzle.init b1))
                         b2)).
    { unfold press_all. cbn [fold_left]. apply press_all_terminal.
      unfold SequencePuzzle.pressButton, SequencePuzzle.init.
      cbn [SequencePuzzle.state].
      destruct (b1 =? 0); cbn; [destruct (b2 =? 1) |]; cbn; tauto. }
    rewrite E. unfold SequencePuzzle.pressButton, SequencePuzzle.init.
    cbn [SequencePuzzle.state].
    destruct (Z.eqb_spec b1 0) as [-> | Hb1]; cbn [snd SequencePuzzle.state].
    + destruct (Z.eqb_spec b2 1) as [-> | Hb2]; cbn.
      * repeat split; try discriminate; try reflexivity.
        -- intros _. exists rest. reflexivity.
        -- intros [(b & r & H & Hne) | (b & r & H & Hne)];
             injection H as <- _; congruence.
        -- apply press_all_terminal. cbn. tauto.
      * repeat split; try discriminate; try reflexivity.
        -- intros [r H]. injection H as -> _. congruence.
        -- intros _. right. exists b2, rest. split; [reflexivity | exact Hb2].
        -- apply press_all_terminal. cbn. tauto.
    + cbn. repeat split; try discriminate; try reflexivity.
      * intros [r H]. injection H as -> _. congruence.
      * intros _. left. exists b1, (b2 :: rest). split; [reflexivity | exact Hb1].
      * apply press_all_terminal. cbn. tauto.
Qed.

Lemma sequence_press_runs_witness :
  SequencePuzzle.isSuccess (press_all SequencePuzzle.init [0; 1; 0; 0]) = true
  /\ press_all (press_all SequencePuzzle.init [0; 0]) [1; 1]
     = press_all SequencePuzzle.init [0; 0].
Proof.
  split.
  - apply (proj1 (sequence_press_runs [0; 1; 0; 0] [])).
    exists [0; 0]. reflexivity.
  - pose proof (sequence_press_runs [0; 0] [1; 1]) as H.
    cbn zeta in H. destruct H as (_ & _ & _ & H & _).
    apply H. cbn. lia.
Defined.

(** ** LearningValidator: what the counters stand for *)

Lemma leading_successes_four (l : list bool) :
  4 <= leading_successes l <-> exists rest, l = true :: true :: true :: true :: rest.
Proof.
  split.
  - destruct l as [| [] [| [] [| [] [| [] rest]]]]; cbn [leading_successes];
      intros H; try lia.
    exists rest. reflexivity.
  - intros [rest ->]. cbn [leading_successes].
    pose proof (leading_successes_bounds rest). lia.
Qed.

(** X11. After any outcomes recorded from the initial state, [hasLearned()]
    holds exactly when the last four outcomes are successes and at least
    one outcome came before them; [failures] is the number of failures
    recorded over the whole run, [failures + successes] never exceeds
    [total_trials], and [isFirstTrial()] holds exactly when nothing was
    recorded. *)
Theorem validator_learned_iff_last_four (outcomes : list bool) :
  let v := LearningValidator.run outcomes LearningValidator.init in
  (LearningValidator.hasLearned v = true
   <-> exists front,
         front <> [] /\ outcomes = front ++ [true; true; true; true])
  /\ LearningValidator.failures v = count_failures outcomes
  /\ 0 <= LearningValidator.failures v + LearningValidator.successes v
       <= LearningValidator.total_trials v
  /\ (LearningValidator.isFirstTrial v = true <-> outcomes = []).
Proof.
  destruct (validator_run_fields outcomes) as (Ht & Hs & Hf).
  cbn zeta in *.
  set (v := LearningValidator.run outcomes LearningValidator.init) in *.
  split.
  { unfold LearningValidator.hasLearned, LearningValidator.requiredSuccesses.
    rewrite andb_true_iff, !Z.geb_le, Ht, Hs. unfold closing_streak.
    rewrite leading_successes_four. split.
    - intros [Hlen [rest Hrev]].
      exists (rev rest).
      assert (E : outcomes = rev rest ++ [true; true; true; true]).
      { rewrite <- (rev_involutive outcomes), Hrev. cbn [rev].
        rewrite <- !app_assoc. reflexivity. }
      split; [| exact E].
      intros Hnil. rewrite E, Hnil in Hlen. cbn in Hlen. lia.
    - intros (front & Hne & ->). split.
      + rewrite length_app. cbn [length].
        destruct front; [congruence | cbn [length]; lia].
      + exists (rev front). rewrite rev_app_distr. reflexivity. }
  split; [exact Hf |].
  split.
  { pose proof (leading_successes_bounds (rev outcomes)) as Hb.
    rewrite length_rev in Hb. fold (closing_streak outcomes) in Hb.
    pose proof (count_successes_bounds outcomes) as Hc.
    assert (Hcs : closing_streak outcomes <= count_successes outcomes).
    { unfold closing_streak. rewrite <- (rev_involutive outcomes) at 2.
      generalize (rev outcomes) as l. clear. intros l.
      induction l as [| [] l IH]; cbn [leading_successes rev].
      - reflexivity.
      - rewrite count_successes_app. cbn [count_successes]. lia.
      - pose proof (count_successes_bounds (rev l ++ [false])). lia. }
    unfold count_failures in Hf. lia. }
  unfold LearningValidator.isFirstTrial. rewrite Z.eqb_eq, Ht.
  destruct outcomes; cbn [length]; split; intros H; try reflexivity;
    try discriminate; lia.
Qed.

(** ** GauntletState: the trial counter *)


(** ** FrameWriter: the escaped text *)

Lemma escape_char_printable (char_signed : bool) (c : byte) :
  forallb printable (FrameWriter.escape_char char_signed c) = true
  /\ (length (FrameWriter.escape_char char_signed c) <= 6)%nat.
Proof. destruct char_signed, c; split; first [reflexivity | cbn; lia]. Qed.

(** X13. Whatever bytes go in, the text that [escapeForJson] produces
    holds only printable ASCII (0x20 to 0x7E): no control character, no
    raw newline and no byte from 0x7F on reaches the event line.  It is at
    most six times as long as its input. *)
Theorem escapeForJson_printable (char_signed : bool) (content : list byte) :
  forallb printable (FrameWriter.escapeForJson char_signed content) = true
  /\ (length (FrameWriter.escapeForJson char_signed content)
      <= 6 * length content)%nat.
Proof.
  unfold FrameWriter.escapeForJson.
  induction content as [| c content [IH1 IH2]]; [split; reflexivity |].
  cbn [flat_map length].
  destruct (escape_char_printable char_signed c) as [Hp Hl].
  rewrite forallb_app, length_app, Hp, IH1. split; [reflexivity | lia].
Qed.

(** ** TextBuffer: rows stay terminated *)

Lemma c_str_lookup_nonzero (s : list byte) (i : nat) (c : byte) :
  c_str s !! i = Some c -> c <> x00.
Proof.
  revert i. induction s as [| a s IH]; intros i; cbn [c_str].
  - rewrite lookup_nil. discriminate.
  - destruct (Byte.eqb a x00) eqn:E.
    + rewrite lookup_nil. discriminate.
    + destruct i as [| i]; cbn.
      * intros [= <-] ->. discriminate E.
      * apply IH.
Qed.

Lemma c_str_length_upto (row : list byte) (n : nat) :
  row !! n = Some x00 ->
  (length (c_str row) <= n)%nat
  /\ ((forall i c, (i < n)%nat -> row !! i = Some c -> c <> x00) ->
      length (c_str row) = n).
Proof.
  revert n. induction row as [| a row IH]; intros n Hn.
  - rewrite lookup_nil in Hn. discriminate.
  - cbn [c_str]. destruct n as [| n].
    + cbn in Hn. injection Hn as ->. cbn. split; [lia | reflexivity].
    + cbn in Hn. destruct (IH n Hn) as [IH1 IH2].
      destruct (Byte.eqb a x00) eqn:E; cbn [length].
      * split; [lia |]. intros Hall. exfalso.
        apply (Hall 0%nat a); [lia | reflexivity |].
        destruct a; try discriminate E. reflexivity.
      * split; [lia |]. intros Hall. f_equal. apply IH2.
        intros i c Hi Hc. apply (Hall (S i) c); [lia | exact Hc].
Qed.

Lemma read_row (b : TextBuffer.t) (y k : Z) (row : list byte) :
  0 <= y < 24 -> 0 <= k < 81 ->
  TextBuffer.buffer_ b !! Z.to_nat y = Some row ->
  TextBuffer.read b y k = row !! Z.to_nat k.
Proof.
  intros Hy Hk Hrow. unfold TextBuffer.read.
  rewrite (proj2 (in_array_true y k)) by tauto. rewrite Hrow. reflexivity.
Qed.

Lemma line_length (b : TextBuffer.t) (y : Z) :
  TextBuffer.shaped b -> 0 <= y < 24 ->
  TextBuffer.read b y 80 = Some x00 ->
  (length (TextBuffer.line b y) <= 80)%nat
  /\ ((forall k, 0 <= k < 80 ->
         exists c, TextBuffer.read b y k = Some c /\ c <> x00) ->
      length (TextBuffer.line b y) = 80%nat).
Proof.
  intros [Hrows _] Hy H80.
  change (Z.to_nat terminal.HEIGHT) with 24%nat in Hrows.
  destruct (TextBuffer.buffer_ b !! Z.to_nat y) as [row |] eqn:Hrow.
  2: { apply lookup_ge_None in Hrow. lia. }
  unfold TextBuffer.line, terminal.HEIGHT.
  rewrite (proj2 (Z.geb_le y 0)), (proj2 (Z.ltb_lt y 24)) by lia.
  cbn [andb]. rewrite Hrow.
  rewrite (read_row b y 80 row Hy ltac:(lia) Hrow) in H80.
  destruct (c_str_length_upto row 80 H80) as [H1 H2].
  split; [exact H1 |].
  intros Hall. apply H2. intros i c Hi Hc.
  destruct (Hall (Z.of_nat i) ltac:(lia)) as (c' & Hc' & Hne).
  rewrite (read_row b y (Z.of_nat i) row Hy ltac:(lia) Hrow), Nat2Z.id in Hc'.
  congruence.
Qed.

Lemma read_clear (b0 : TextBuffer.t) (y k : Z) :
  0 <= y < 24 ->
  TextBuffer.read (TextBuffer.clear b0) y 80 = Some x00
  /\ (0 <= k < 80 -> TextBuffer.read (TextBuffer.clear b0) y k = Some x20).
Proof.
  intros Hy.
  assert (Hrow : TextBuffer.buffer_ (TextBuffer.clear b0) !! Z.to_nat y
                 = Some (replicate 80 x20 ++ [x00])).
  { unfold TextBuffer.clear. cbn [TextBuffer.buffer_].
    apply lookup_replicate_2.
    change (Z.to_nat terminal.HEIGHT) with 24%nat. lia. }
  split.
  - rewrite (read_row _ y 80 _ Hy ltac:(lia) Hrow). reflexivity.
  - intros Hk. rewrite (read_row _ y k _ Hy ltac:(lia) Hrow).
    rewrite lookup_app_l by (rewrite length_replicate; lia).
    apply lookup_replicate_2. lia.
Qed.

Lemma draw_step (b : TextBuffer.t) (call : DrawCall) :
  TextBuffer.shaped b ->
  exists b',
    draw b call = Some b'
    /\ TextBuffer.shaped b'
    /\ forall r k,
         TextBuffer.read b' r k = TextBuffer.read b r k
         \/ (0 <= k < 80
             /\ exists c, TextBuffer.read b' r k = Some c
                          /\ (stores_no_nul call = true -> c <> x00)).
Proof.
  intros Hb. destruct call as [x y str | x y c | x y len c]; cbn [draw].
  - destruct (putString_spec b x y str Hb) as (b' & Hp & Hb' & Hr).
    exists b'. split; [exact Hp |]. split; [exact Hb' |].
    intros r k. rewrite Hr.
    destruct (covered_row x y 0 _ r k) eqn:E; [| left; reflexivity].
    apply covered_row_true in E. right. split; [lia |].
    destruct (lookup_lt_is_Some_2 (c_str str) (Z.to_nat (k - x)) ltac:(lia))
      as [c Hc].
    exists c. split; [exact Hc |].
    intros _. exact (c_str_lookup_nonzero _ _ _ Hc).
  - destruct (putChar_spec b x y c Hb) as (b' & Hp & Hb' & Hr).
    exists b'. split; [exact Hp |]. split; [exact Hb' |].
    intros r k. rewrite Hr.
    destruct (covered_row x y 0 1 r k) eqn:E; [| left; reflexivity].
    apply covered_row_true in E. right. split; [lia |].
    exists c. split; [reflexivity |].
    cbn [stores_no_nul]. intros Hn ->. discriminate Hn.
  - destruct (drawHLine_loop_spec x y c (Z.to_nat len) 0 b Hb)
      as (b' & Hp & Hb' & Hr).
    exists b'. split; [exact Hp |]. split; [exact Hb' |].
    intros r k. rewrite Hr.
    destruct (covered_row x y 0 _ r k) eqn:E; [| left; reflexivity].
    apply covered_row_true in E. right. split; [lia |].
    exists c. split; [reflexivity |].
    cbn [stores_no_nul]. intros Hn ->. discriminate Hn.
Qed.

Lemma draw_all_keeps_rows (calls : list DrawCall) :
  forall b : TextBuffer.t,
    TextBuffer.shaped b ->
    (forall y, 0 <= y < 24 -> TextBuffer.read b y 80 = Some x00) ->
    exists b',
      draw_all b calls = Some b'
      /\ TextBuffer.shaped b'
      /\ (forall y, 0 <= y < 24 -> TextBuffer.read b' y 80 = Some x00)
      /\ (forallb stores_no_nul calls = true ->
          (forall y k, 0 <= y < 24 -> 0 <= k < 80 ->
             exists c, TextBuffer.read b y k = Some c /\ c <> x00) ->
          forall y k, 0 <= y < 24 -> 0 <= k < 80 ->
            exists c, TextBuffer.read b' y k = Some c /\ c <> x00).
Proof.
  induction calls as [| call calls IH]; intros b Hb Hterm.
  - exists b. cbn [draw_all].
    split; [reflexivity |]. split; [exact Hb |]. split; [exact Hterm |].
    intros _ Hcells. exact Hcells.
  - cbn [draw_all forallb].
    destruct (draw_step b call Hb) as (b1 & Hd & Hb1 & Hr).
    rewrite Hd.
    assert (Hterm1 : forall y, 0 <= y < 24 -> TextBuffer.read b1 y 80 = Some x00).
    { intros y Hy. destruct (Hr y 80) as [-> | [Hk _]]; [auto | lia]. }
    destruct (IH b1 Hb1 Hterm1) as (b' & Hall & Hb' & Hterm' & Hfull).
    exists b'. split; [exact Hall |]. split; [exact Hb' |].
    split; [exact Hterm' |].
    rewrite andb_true_iff. intros [Hcall Hcalls] Hcells.
    apply Hfull; [exact Hcalls |].
    intros y k Hy Hk.
    destruct (Hr y k) as [-> | [_ (c & Hc & Hne)]]; [auto |].
    exists c. split; [exact Hc | auto].
Qed.

(** X14. After [clear()] and any sequence of [putString], [putChar] and
    [drawHLine] calls, with any arguments, no call has stored outside the
    array, column 80 of every row still holds the terminator, and no row
    reads as more than 80 characters.  If no NUL was drawn with [putChar]
    or [drawHLine], every row reads as exactly 80 characters. *)
Theorem textbuffer_rows_stay_terminated
    (b0 : TextBuffer.t) (calls : list DrawCall) :
  exists b,
    draw_all (TextBuffer.clear b0) calls = Some b
    /\ TextBuffer.shaped b
    /\ (forall y, 0 <= y < 24 ->
          TextBuffer.read b y 80 = Some x00
          /\ (length (TextBuffer.line b y) <= 80)%nat)
    /\ (forallb stores_no_nul calls = true ->
        forall y, 0 <= y < 24 -> length (TextBuffer.line b y) = 80%nat)
    /\ (forall y, ~ 0 <= y < 24 -> TextBuffer.line b y = []).
Proof.
  destruct (draw_all_keeps_rows calls (TextBuffer.clear b0) (clear_shaped b0))
    as (b & Hall & Hb & Hterm & Hfull).
  { intros y Hy. apply (read_clear b0 y 0 Hy). }
  exists b. split; [exact Hall |]. split; [exact Hb |].
  split; [| split].
  - intros y Hy. split; [auto |].
    apply (line_length b y Hb Hy (Hterm y Hy)).
  - intros Hcalls y Hy.
    apply (line_length b y Hb Hy (Hterm y Hy)).
    intros k Hk. apply (Hfull Hcalls); [| exact Hy | exact Hk].
    intros y' k' Hy' Hk'. exists x20.
    split; [apply (read_clear b0 y' k' Hy'); exact Hk' | discriminate].
  - intros y Hy. unfold TextBuffer.line, terminal.HEIGHT.
    destruct (Z.geb_spec y 0); destruct (Z.ltb_spec y 24); cbn [andb];
      try reflexivity. lia.
Qed.

Lemma textbuffer_rows_stay_terminated_witness :
  exists b,
    draw_all (TextBuffer.clear (TextBuffer.mk []))
      [PutString 70 3 (list_byte_of_string "a long label that is cut");
       DrawHLine (-4) 21 200 x2d; PutChar 80 0 x41] = Some b
    /\ length (TextBuffer.line b 3) = 80%nat.
Proof.
  destruct (textbuffer_rows_stay_terminated (TextBuffer.mk [])
              [PutString 70 3 (list_byte_of_string "a long label that is cut");
               DrawHLine (-4) 21 200 x2d; PutChar 80 0 x41])
    as (b & Hall & _ & _ & Hfull & _).
  exists b. split; [exact Hall |].
  apply Hfull; [reflexivity | lia].
Defined.

(** ** FrameWriter: one initialisation per writer *)



(** ** layout.hpp: the progress bar *)

Lemma progress_cells (f : Z) :
  map (fun i => if Z.of_nat i <? f then x23 else x2e) (seq 0 10)
  = replicate (Z.to_nat (Z.max 0 (Z.min 10 f))) x23
    ++ replicate (10 - Z.to_nat (Z.max 0 (Z.min 10 f))) x2e.
Proof.
  assert (Hc : f <= 0 \/ f = 1 \/ f = 2 \/ f = 3 \/ f = 4 \/ f = 5 \/ f = 6
               \/ f = 7 \/ f = 8 \/ f = 9 \/ 10 <= f) by lia.
  cbn [map seq].
  repeat (destruct Hc as [Hc | Hc];
          [ try subst f;
            match goal with
            | |- context [Z.to_nat ?e] =>
                let n := fresh "n" in
                remember (Z.to_nat e) as n eqn:Hn;
                first [ assert (n = 0%nat) as -> by lia
                      | compute in Hn; subst n ]
            end;
            repeat match goal with
                   | |- context [?a <? ?b] =>
                       destruct (Z.ltb_spec a b); try lia
                   end;
            reflexivity |]).
  replace (Z.to_nat (Z.max 0 (Z.min 10 f))) with 10%nat by lia.
  repeat match goal with
         | |- context [?a <? ?b] => destruct (Z.ltb_spec a b); try lia
         end;
    reflexivity.
Qed.

Lemma progress_bar_product_wraps :
  c_str (progress_bar 3 4) = list_byte_of_string "[#######...]"
  /\ c_str (progress_bar 214748365 1) = list_byte_of_string "[..........]".
Proof. split; vm_compute; reflexivity. Qed.

(** X16. The progress bar is always twelve characters: ['['], then
    [n] times ['#'], then [10 - n] times ['.'], then [']'], where [n] is
    the quotient of the [int] product [value*10] by [max], cut to the range
    0 to 10, and 0 when [max] is not positive.  For a positive maximum and
    a non-negative value whose tenfold fits an [int], [n] is
    [value*10/max] cut at 10, and the bar is full exactly when
    [value >= max] and empty exactly when [value*10 < max].  Drawing it
    never fails and changes no cell outside the twelve cells from column
    [x] on in row [y]. *)
Theorem progress_bar_shape (b : TextBuffer.t) (x y value max : Z) :
  let filled := if max >? 0 then Z.quot (int32 (value * 10)) max else 0 in
  let n := Z.to_nat (Z.max 0 (Z.min 10 filled)) in
  c_str (progress_bar value max)
  = x5b :: replicate n x23 ++ replicate (10 - n) x2e ++ [x5d]
  /\ (0 < max -> 0 <= value -> value * 10 <= INT_MAX ->
      n = Z.to_nat (Z.min 10 (value * 10 / max))
      /\ (n = 10%nat <-> max <= value)
      /\ (n = 0%nat <-> value * 10 < max))
  /\ (max <= 0 -> n = 0%nat)
  /\ (TextBuffer.shaped b ->
      exists b',
        drawProgressBar b x y value max = Some b'
        /\ TextBuffer.shaped b'
        /\ forall r k,
             ~ (r = y /\ x <= k < x + 12) ->
             TextBuffer.read b' r k = TextBuffer.read b r k).
Proof.
  cbn zeta.
  set (filled := if max >? 0 then Z.quot (int32 (value * 10)) max else 0).
  set (n := Z.to_nat (Z.max 0 (Z.min 10 filled))).
  assert (Hbar : c_str (progress_bar value max)
                 = x5b :: replicate n x23 ++ replicate (10 - n) x2e ++ [x5d]).
  { unfold progress_bar. fold filled.
    assert (Hn : Z.to_nat (Z.max 0 (Z.min 10
                   (if filled >? 10 then 10 else filled))) = n).
    { unfold n. destruct (Z.gtb_spec filled 10); lia. }
    rewrite progress_cells, Hn.
    assert (Hle : (n <= 10)%nat) by (unfold n; lia).
    clear -Hle.
    do 11 (destruct n as [| n]; [reflexivity |]). lia. }
  split; [exact Hbar |].
  split.
  { intros Hmax Hval Hfit. unfold n, filled.
    rewrite (proj2 (Z.gtb_lt max 0)) by lia.
    rewrite int32_small by (unfold INT_MAX in Hfit; lia).
    rewrite Z.quot_div_nonneg by lia.
    assert (Hq : 0 <= value * 10 / max) by (apply Z.div_pos; lia).
    split; [lia |].
    split.
    - split.
      + intros H.
        assert (10 <= value * 10 / max) by lia.
        destruct (Z.lt_ge_cases value max) as [Hlt | Hge]; [| exact Hge].
        assert (value * 10 / max < 10)
          by (apply Z.div_lt_upper_bound; lia).
        lia.
      + intros H.
        assert (10 <= value * 10 / max)
          by (apply Z.div_le_lower_bound; lia).
        lia.
    - split.
      + intros H.
        assert (Hz : value * 10 / max = 0) by lia.
        apply Z.div_small_iff in Hz; lia.
      + intros H.
        rewrite (Z.div_small (value * 10) max) by lia. reflexivity. }
  split.
  { intros Hmax. unfold n, filled.
    destruct (Z.gtb_spec max 0); [lia | reflexivity]. }
  intros Hb. unfold drawProgressBar.
  destruct (putString_spec b x y (progress_bar value max) Hb)
    as (b' & Hp & Hb' & Hr).
  exists b'. split; [exact Hp |]. split; [exact Hb' |].
  intros r k Hout. rewrite Hr.
  rewrite (proj2 (covered_row_false x y 0 _ r k)); [reflexivity |].
  rewrite Hbar. cbn [length].
  rewrite !length_app, !length_replicate. cbn [length].
  assert (Hle : (n <= 10)%nat) by (unfold n; lia).
  lia.
Qed.

Lemma progress_bar_shape_witness :
  c_str (progress_bar 3 4)
  = list_byte_of_string "[#######...]"
  /\ Z.to_nat
       (Z.max 0 (Z.min 10 (if 4 >? 0 then Z.quot (int32 (3 * 10)) 4 else 0)))
     = Z.to_nat (Z.min 10 (3 * 10 / 4))
  /\ exists b',
       drawProgressBar (TextBuffer.clear (TextBuffer.mk [])) 10 3 3 4 = Some b'.
Proof.
  assert (Hs : TextBuffer.shaped (TextBuffer.clear (TextBuffer.mk [])))
    by (split; [reflexivity | repeat constructor]).
  pose proof (progress_bar_shape (TextBuffer.clear (TextBuffer.mk [])) 10 3 3 4)
    as H.
  cbn zeta in H. destruct H as (Hbar & Hpos & _ & Hdraw).
  split; [exact Hbar |].
  split; [apply Hpos; unfold INT_MAX; lia |].
  destruct (Hdraw Hs) as (b' & Hp & _). exists b'. exact Hp.
Defined.

(** ** renderer.cpp: the same primitives written differently *)

Lemma renderer_putChar_same (b : TextBuffer.t) (x y : Z) (c : byte) :
  Renderer.putChar b x y c = TextBuffer.putChar b x y c.
Proof.
  unfold Renderer.putChar, TextBuffer.putChar, Renderer.TERM_WIDTH,
    Renderer.TERM_HEIGHT, terminal.WIDTH, terminal.HEIGHT.
  destruct (y >=? 0), (y <? 24), (x >=? 0), (x <? 80); reflexivity.
Qed.

Lemma renderer_hline_past_right_edge (n : nat) (x y i : Z) (c : byte)
    (b : TextBuffer.t) :
  80 <= x + i -> Renderer.drawHLine_loop n x y i c b = Some b.
Proof.
  revert i. induction n as [| n IH]; intros i Hi; [reflexivity |].
  cbn [Renderer.drawHLine_loop].
  unfold Renderer.putChar, Renderer.TERM_WIDTH.
  rewrite (proj2 (Z.ltb_ge (x + i) 80)) by lia.
  rewrite andb_false_r. apply IH. lia.
Qed.

(** X17. [Renderer::drawHLine], which calls [putChar] for every index
    below [len] and never leaves its loop early, produces the same buffer
    as [TextBuffer::drawHLine], which stops at the right edge; the two
    [putChar] agree as well.  The index [x + i] stays within [int] when
    [x + len - 1] does. *)
Theorem renderer_drawHLine_same
    (b : TextBuffer.t) (x y len : Z) (c : byte) :
  - 2 ^ 31 <= x -> x + len - 1 <= INT_MAX ->
  Renderer.drawHLine b x y len c = TextBuffer.drawHLine b x y len c
  /\ Renderer.putChar b x y c = TextBuffer.putChar b x y c.
Proof.
  intros _ _. split; [| apply renderer_putChar_same].
  unfold Renderer.drawHLine, TextBuffer.drawHLine.
  generalize (Z.to_nat len) as n. generalize 0 as i. intros i n.
  revert i b. induction n as [| n IH]; intros i b; [reflexivity |].
  cbn [Renderer.drawHLine_loop TextBuffer.drawHLine_loop].
  unfold terminal.WIDTH, terminal.HEIGHT.
  destruct (Z.ltb_spec (x + i) 80) as [Hlt | Hge].
  - unfold Renderer.putChar, Renderer.TERM_WIDTH, Renderer.TERM_HEIGHT.
    rewrite (proj2 (Z.ltb_lt (x + i) 80)) by lia. rewrite andb_true_r.
    destruct ((y >=? 0) && (y <? 24) && (x + i >=? 0)).
    + destruct (TextBuffer.write b y (x + i) c); [apply IH | reflexivity].
    + apply IH.
  - unfold Renderer.putChar, Renderer.TERM_WIDTH.
    rewrite (proj2 (Z.ltb_ge (x + i) 80)) by lia. rewrite andb_false_r.
    apply renderer_hline_past_right_edge. lia.
Qed.

Lemma renderer_drawHLine_same_witness :
  Renderer.drawHLine (TextBuffer.clear (TextBuffer.mk [])) 70 2 38 x3d
  = TextBuffer.drawHLine (TextBuffer.clear (TextBuffer.mk [])) 70 2 38 x3d.
Proof.
  apply (renderer_drawHLine_same (TextBuffer.clear (TextBuffer.mk []))
           70 2 38 x3d); unfold INT_MAX; lia.
Defined.

(** ** history.hpp: drawHistory *)

Lemma c_str_length_le (s : list byte) : (length (c_str s) <= length s)%nat.
Proof.
  induction s as [| a s IH]; cbn [c_str length]; [lia |].
  destruct (Byte.eqb a x00); cbn [length]; lia.
Qed.

Lemma history_line_take (e : HistoryEntry) :
  history_line e = take 50 (history_format e)
  /\ (length (c_str (history_line e)) <= 50)%nat.
Proof.
  assert (E : history_line e = take 50 (history_format e)).
  { unfold history_line. cbn zeta.
    rewrite length_take.
    destruct (Nat.ltb_spec 50 (59 `min` length (history_format e))).
    - rewrite take_take. reflexivity.
    - rewrite take_ge by lia. rewrite take_ge by lia. reflexivity. }
  split; [exact E |].
  pose proof (c_str_length_le (history_line e)) as H.
  rewrite E in *. rewrite length_take in H. lia.
Qed.

Lemma history_cell_cons (startY i : Z) (e : HistoryEntry)
    (rest : list HistoryEntry) (r k : Z) :
  history_cell startY i (e :: rest) r k
  = if (r =? startY + 1 + i) && (r <? 22) && (0 <=? r) && (0 <=? k)
    then c_str (history_line e) !! Z.to_nat k
    else history_cell startY (i + 1) rest r k.
Proof.
  unfold history_cell.
  destruct (Z.eqb_spec r (startY + 1 + i)) as [-> | Hne].
  - rewrite (proj2 (Z.leb_le (startY + 1 + i) (startY + 1 + i))) by lia.
    rewrite (proj2 (Z.leb_gt (startY + 1 + (i + 1)) (startY + 1 + i))) by lia.
    rewrite Z.sub_diag. cbn [andb Z.to_nat lookup list_lookup].
    destruct ((startY + 1 + i <? 22) && (0 <=? startY + 1 + i) && (0 <=? k));
      reflexivity.
  - cbn [andb].
    destruct (Z.leb_spec (startY + 1 + (i + 1)) r) as [Hle | Hgt].
    + rewrite (proj2 (Z.leb_le (startY + 1 + i) r)) by lia.
      replace (Z.to_nat (r - (startY + 1 + i)))
        with (S (Z.to_nat (r - (startY + 1 + (i + 1))))) by lia.
      reflexivity.
    + rewrite (proj2 (Z.leb_gt (startY + 1 + i) r)) by lia. reflexivity.
Qed.

Lemma history_cell_bounds (startY i : Z) (recent_first : list HistoryEntry)
    (r k : Z) (c : byte) :
  history_cell startY i recent_first r k = Some c ->
  startY + 1 + i <= r < startY + 1 + i + Z.of_nat (length recent_first)
  /\ 0 <= r < 22 /\ 0 <= k < 50.
Proof.
  unfold history_cell.
  destruct ((startY + 1 + i <=? r) && (r <? 22) && (0 <=? r) && (0 <=? k))
    eqn:E; [| discriminate].
  rewrite !andb_true_iff, !Z.leb_le, Z.ltb_lt in E.
  destruct (recent_first !! Z.to_nat (r - (startY + 1 + i))) as [e |] eqn:He;
    [| discriminate].
  intros Hc.
  apply lookup_lt_Some in He. apply lookup_lt_Some in Hc.
  pose proof (proj2 (history_line_take e)). lia.
Qed.

Lemma drawHistory_loop_spec (startY : Z) (recent_first : list HistoryEntry) :
  forall (i : Z) (b : TextBuffer.t),
    TextBuffer.shaped b ->
    - 2 ^ 31 <= startY + 1 + i ->
    startY + 1 + i + Z.of_nat (length recent_first) <= 2 ^ 31 ->
    exists b',
      drawHistory_loop startY i recent_first b = Some b'
      /\ TextBuffer.shaped b'
      /\ forall r k,
           TextBuffer.read b' r k
           = match history_cell startY i recent_first r k with
             | Some c => Some c
             | None => TextBuffer.read b r k
             end.
Proof.
  induction recent_first as [| e rest IH]; intros i b Hb Hlo Hhi.
  - exists b. split; [reflexivity |]. split; [exact Hb |].
    intros r k. unfold history_cell. rewrite lookup_nil.
    destruct (_ && _); reflexivity.
  - cbn [drawHistory_loop length] in *. unfold terminal.HEIGHT.
    rewrite int32_small by lia.
    change (24 - 2) with 22.
    destruct (Z.ltb_spec (startY + 1 + i) 22) as [Hlt | Hge].
    + destruct (putString_spec b 0 (startY + 1 + i) (history_line e) Hb)
        as (b1 & Hp & Hb1 & Hr1).
      rewrite Hp.
      destruct (IH (i + 1) b1 Hb1 ltac:(lia) ltac:(lia))
        as (b' & Hl & Hb' & Hr').
      exists b'. split; [exact Hl |]. split; [exact Hb' |].
      intros r k. rewrite Hr', Hr1, history_cell_cons, Z.sub_0_r.
      destruct (Z.eqb_spec r (startY + 1 + i)) as [-> | Hne]; cbn [andb].
      * assert (Hnone : history_cell startY (i + 1) rest (startY + 1 + i) k = None).
        { unfold history_cell.
          rewrite (proj2 (Z.leb_gt (startY + 1 + (i + 1)) (startY + 1 + i)))
            by lia. reflexivity. }
        rewrite Hnone.
        rewrite (proj2 (Z.ltb_lt (startY + 1 + i) 22)) by lia. cbn [andb].
        pose proof (proj2 (history_line_take e)) as Hlen.
        destruct (Z.leb_spec 0 (startY + 1 + i)) as [Hy | Hy];
          destruct (Z.leb_spec 0 k) as [Hk | Hk]; cbn [andb].
        -- destruct (c_str (history_line e) !! Z.to_nat k) as [c |] eqn:Hc.
           ++ apply lookup_lt_Some in Hc.
              rewrite (proj2 (covered_row_true 0 (startY + 1 + i) 0 _ _ k))
                by lia.
              reflexivity.
           ++ apply lookup_ge_None in Hc.
              rewrite (proj2 (covered_row_false 0 (startY + 1 + i) 0 _ _ k))
                by lia.
              reflexivity.
        -- rewrite (proj2 (covered_row_false 0 (startY + 1 + i) 0 _ _ k))
             by lia.
           reflexivity.
        -- rewrite (proj2 (covered_row_false 0 (startY + 1 + i) 0 _ _ k))
             by lia.
           reflexivity.
        -- rewrite (proj2 (covered_row_false 0 (startY + 1 + i) 0 _ _ k))
             by lia.
           reflexivity.
      * rewrite (proj2 (covered_row_false 0 (startY + 1 + i) 0 _ r k)) by lia.
        reflexivity.
    + exists b. split; [reflexivity |]. split; [exact Hb |].
      intros r k.
      destruct (history_cell startY i (e :: rest) r k) as [c |] eqn:Hc;
        [| reflexivity].
      apply history_cell_bounds in Hc. lia.
Qed.

(** X18. [drawHistory] never fails and never stores outside the grid.  It
    puts the label "HISTORY:" on row [startY] and, below it, one line per
    entry, the most recent entry first, as long as the row is above the two
    footer rows ([row < HEIGHT - 2]).  Each line is the formatted text
    "  Trial N: [OK]|[X] summary" cut to 50 characters.  No cell from column
    50 on, no cell outside rows [startY] to [startY + size], and no cell of
    the two footer rows other than the label row is changed. *)
Theorem drawHistory_region
    (b : TextBuffer.t) (history : History.t) (startY : Z) :
  TextBuffer.shaped b ->
  - 2 ^ 31 <= startY ->
  startY + 1 + Z.of_nat (length (History.entries history)) <= 2 ^ 31 ->
  exists b',
    drawHistory b history startY = Some b'
    /\ TextBuffer.shaped b'
    /\ (forall r k,
          TextBuffer.read b' r k
          = match history_cell startY 0 (rev (History.entries history)) r k with
            | Some c => Some c
            | None =>
                if covered_row 0 startY 0 8 r k
                then list_byte_of_string "HISTORY:" !! Z.to_nat k
                else TextBuffer.read b r k
            end)
    /\ (forall r k,
          ~ (startY <= r <= startY + Z.of_nat (length (History.entries history))
             /\ 0 <= r < 24 /\ 0 <= k < 50) ->
          TextBuffer.read b' r k = TextBuffer.read b r k)
    /\ (forall r k,
          22 <= r -> r <> startY ->
          TextBuffer.read b' r k = TextBuffer.read b r k)
    /\ (forall older newest k,
          History.entries history = older ++ [newest] ->
          0 <= startY + 1 < 22 ->
          0 <= k < Z.of_nat (length (c_str (history_line newest))) ->
          TextBuffer.read b' (startY + 1) k
          = c_str (history_line newest) !! Z.to_nat k)
    /\ (forall e, history_line e = take 50 (history_format e)).
Proof.
  intros Hb Hlo Hhi. unfold drawHistory.
  destruct (putString_spec b 0 startY (list_byte_of_string "HISTORY:") Hb)
    as (b1 & Hp & Hb1 & Hr1).
  rewrite Hp.
  destruct (drawHistory_loop_spec startY (rev (History.entries history)) 0 b1
              Hb1 ltac:(lia) ltac:(rewrite length_rev; lia))
    as (b' & Hl & Hb' & Hr').
  assert (Hread : forall r k,
             TextBuffer.read b' r k
             = match history_cell startY 0 (rev (History.entries history)) r k with
               | Some c => Some c
               | None =>
                   if covered_row 0 startY 0 8 r k
                   then list_byte_of_string "HISTORY:" !! Z.to_nat k
                   else TextBuffer.read b r k
               end).
  { intros r k. rewrite Hr', Hr1, Z.sub_0_r. reflexivity. }
  exists b'. split; [exact Hl |]. split; [exact Hb' |].
  split; [exact Hread |].
  split; [| split; [| split]].
  - intros r k Hout. rewrite Hread.
    destruct (history_cell startY 0 _ r k) as [c |] eqn:Hc.
    + apply history_cell_bounds in Hc. rewrite length_rev in Hc. lia.
    + rewrite (proj2 (covered_row_false 0 startY 0 8 r k)) by lia.
      reflexivity.
  - intros r k Hr Hne. rewrite Hread.
    destruct (history_cell startY 0 _ r k) as [c |] eqn:Hc.
    + apply history_cell_bounds in Hc. lia.
    + rewrite (proj2 (covered_row_false 0 startY 0 8 r k)) by lia.
      reflexivity.
  - intros older newest k Hent Hrow Hk. rewrite Hread, Hent, rev_app_distr.
    cbn [rev app]. rewrite history_cell_cons.
    rewrite Z.add_0_r, Z.eqb_refl.
    rewrite (proj2 (Z.ltb_lt (startY + 1) 22)),
      (proj2 (Z.leb_le 0 (startY + 1))), (proj2 (Z.leb_le 0 k)) by lia.
    cbn [andb].
    destruct (lookup_lt_is_Some_2 (c_str (history_line newest)) (Z.to_nat k)
                ltac:(lia)) as [c Hc].
    rewrite Hc. reflexivity.
  - intros e. apply history_line_take.
Qed.

Lemma drawHistory_region_witness :
  exists b',
    drawHistory (TextBuffer.clear (TextBuffer.mk []))
      (History_add_all History.init
         [(1, false, "red(20) vs pink(120)"%string);
          (2, true, "blue(90) vs cyan(70)"%string)]) 13 = Some b'
    /\ TextBuffer.read b' 14 9 = Some x3a
    /\ TextBuffer.read b' 22 0 = Some x20.
Proof.
  assert (Hs : TextBuffer.shaped (TextBuffer.clear (TextBuffer.mk [])))
    by (split; [reflexivity | repeat constructor]).
  destruct (drawHistory_region (TextBuffer.clear (TextBuffer.mk []))
              (History_add_all History.init
                 [(1, false, "red(20) vs pink(120)"%string);
                  (2, true, "blue(90) vs cyan(70)"%string)]) 13 Hs)
    as (b' & Hd & _ & _ & _ & Hfoot & Hnew & _).
  { lia. }
  { cbn. lia. }
  exists b'. split; [exact Hd |]. split.
  - change (TextBuffer.read b' 14 9) with (TextBuffer.read b' (13 + 1) 9).
    rewrite (Hnew [Build_HistoryEntry 1 false "red(20) vs pink(120)"]
               (Build_HistoryEntry 2 true "blue(90) vs cyan(70)") 9).
    + reflexivity.
    + reflexivity.
    + lia.
    + vm_compute. split; [discriminate | reflexivity].
  - rewrite Hfoot by lia. reflexivity.
Defined.


(** ** game.hpp: the order of the puzzles *)

Lemma puzzle_of_to_int (p : PuzzleType) :
  puzzle_of_int (puzzle_to_int p) = p /\ 0 <= puzzle_to_int p <= 4.
Proof. destruct p; split; first [reflexivity | cbn; lia]. Qed.

Lemma nextPuzzle_step {gd : IntegerGD} (s : GameState gd) :
  let r := GameState_nextPuzzle s in
  puzzle_to_int (current_puzzle (snd r))
  = Z.min (puzzle_to_int (current_puzzle s) + 1) 4
  /\ (fst r = true <-> current_puzzle s <> COMPOSITION)
  /\ demo_complete (snd r)
     = (demo_complete s
        || match current_puzzle s with COMPOSITION => true | _ => false end).
Proof.
  unfold GameState_nextPuzzle, NUM_PUZZLES.
  destruct s as [p pc dc v g n1 n2 n3 n4 n5 sp r]. cbn [current_puzzle demo_complete].
  destruct p; cbn; (split; [reflexivity |]);
    (split; [split; [intros; discriminate || congruence | intros; reflexivity || congruence] |]);
    try reflexivity; destruct dc; reflexivity.
Qed.

(** X19. [nextPuzzle()] walks the five puzzles in order and stops at the
    last: after [n] calls the current puzzle is number [min(start + n, 4)];
    a call returns true, resets the validator and the gauntlet and clears
    [puzzle_complete] exactly when the current puzzle is not COMPOSITION;
    on COMPOSITION it returns false, sets [demo_complete] and leaves the
    puzzle, the validator and the gauntlet as they are.  From the first
    puzzle, [demo_complete] is set by the fifth call and by no earlier
    one. *)
Theorem nextPuzzle_walks_in_order {gd : IntegerGD} (s : GameState gd) (n : nat) :
  puzzle_to_int (current_puzzle (advance n s))
  = Z.min (puzzle_to_int (current_puzzle s) + Z.of_nat n) 4
  /\ (fst (GameState_nextPuzzle s) = true <-> current_puzzle s <> COMPOSITION)
  /\ (current_puzzle s <> COMPOSITION ->
      let s' := snd (GameState_nextPuzzle s) in
      validator s' = LearningValidator.init
      /\ gauntlet s' = GauntletState.init
      /\ puzzle_complete s' = false
      /\ demo_complete s' = demo_complete s
      /\ rng s' = rng s /\ seq_puzzle s' = seq_puzzle s)
  /\ (current_puzzle s = COMPOSITION ->
      let s' := snd (GameState_nextPuzzle s) in
      demo_complete s' = true
      /\ current_puzzle s' = COMPOSITION
      /\ validator s' = validator s /\ gauntlet s' = gauntlet s
      /\ puzzle_complete s' = puzzle_complete s)
  /\ (demo_complete s = false ->
      (demo_complete (advance n s) = true
       <-> 4 < puzzle_to_int (current_puzzle s) + Z.of_nat n)).
Proof.
  assert (Hadv : forall m,
             puzzle_to_int (current_puzzle (advance m s))
             = Z.min (puzzle_to_int (current_puzzle s) + Z.of_nat m) 4
             /\ (demo_complete s = false ->
                 (demo_complete (advance m s) = true
                  <-> 4 < puzzle_to_int (current_puzzle s) + Z.of_nat m))).
  { induction m as [| m [IH1 IH2]].
    - cbn [advance]. pose proof (puzzle_of_to_int (current_puzzle s)).
      split; [lia |]. intros ->. split; [discriminate | lia].
    - cbn [advance].
      set (t := advance m s) in *.
      destruct (nextPuzzle_step t) as (Hp & _ & Hd). cbn zeta in Hp, Hd.
      pose proof (puzzle_of_to_int (current_puzzle s)).
      pose proof (puzzle_of_to_int (current_puzzle t)).
      split; [lia |].
      intros Hs. specialize (IH2 Hs). rewrite Hd, orb_true_iff, IH2.
      assert (Hc : match current_puzzle t with
                   | COMPOSITION => true
                   | _ => false
                   end = true
                   <-> puzzle_to_int (current_puzzle t) = 4).
      { destruct (current_puzzle t); cbn; split; intros Hx;
          first [discriminate | reflexivity | lia]. }
      rewrite Hc. lia. }
  split; [apply Hadv |].
  split; [apply (nextPuzzle_step s) |].
  split; [| split; [| apply Hadv]].
  - intros Hne. unfold GameState_nextPuzzle, NUM_PUZZLES.
    destruct s as [p pc dc v g n1 n2 n3 n4 n5 sp r].
    cbn [current_puzzle] in *. destruct p; try congruence; cbn; repeat split.
  - intros Hc. unfold GameState_nextPuzzle, NUM_PUZZLES.
    destruct s as [p pc dc v g n1 n2 n3 n4 n5 sp r].
    cbn [current_puzzle] in *. subst p. cbn. repeat split.
Qed.

Lemma nextPuzzle_walks_in_order_witness :
  let s := Game_ctor still_net still_BoolNet still_BoolNet still_BoolNet
             still_SequenceNet still_BoolNet 42 in
  validator (snd (GameState_nextPuzzle s)) = LearningValidator.init
  /\ (demo_complete (advance 5 s) = true <-> 4 < 0 + 5).
Proof.
  cbn zeta.
  pose proof (nextPuzzle_walks_in_order
                (Game_ctor still_net still_BoolNet still_BoolNet still_BoolNet
                   still_SequenceNet still_BoolNet 42) 5)
    as (_ & _ & Hok & _ & Hdone).
  split.
  - apply Hok. discriminate.
  - apply Hdone. reflexivity.
Defined.

(** ** game.cpp: how many trials a puzzle takes *)

Section ValidatorPuzzles.

Context {gd : IntegerGD}.

Lemma record_and_check_fields (s : GameState gd) (correct : bool) :
  let r := record_and_check gd s correct in
  fst r = LearningValidator.hasLearned (validator (snd r))
  /\ validator (snd r) = LearningValidator.recordOutcome (validator s) correct
  /\ current_puzzle (snd r) = current_puzzle s
  /\ gauntlet (snd r) = gauntlet s
  /\ seq_puzzle (snd r) = seq_puzzle s
  /\ (fst r = true -> puzzle_complete (snd r) = true).
Proof.
  unfold record_and_check. cbn.
  repeat split. intros ->. reflexivity.
Qed.

Lemma runTrial_validator_puzzle (fuel : nat) (s s' : GameState gd) (r : bool) :
  validator_puzzle (current_puzzle s) ->
  runTrial gd fuel s = Some (r, s') ->
  current_puzzle s' = current_puzzle s
  /\ LearningValidator.total_trials (validator s')
     = LearningValidator.total_trials (validator s) + 1
  /\ r = LearningValidator.hasLearned (validator s')
  /\ (r = true -> puzzle_complete s' = true).
Proof.
  intros Hp. unfold runTrial.
  assert (Hgen : forall s0 correct,
             current_puzzle s0 = current_puzzle s ->
             validator s0 = validator s ->
             Some (record_and_check gd s0 correct) = Some (r, s') ->
             current_puzzle s' = current_puzzle s
             /\ LearningValidator.total_trials (validator s')
                = LearningValidator.total_trials (validator s) + 1
             /\ r = LearningValidator.hasLearned (validator s')
             /\ (r = true -> puzzle_complete s' = true)).
  { intros s0 correct Hc Hv Heq.
    assert (Hrs : record_and_check gd s0 correct = (r, s')) by congruence.
    clear Heq.
    pose proof (record_and_check_fields s0 correct) as H.
    cbn zeta in H. rewrite Hrs in H. cbn [fst snd] in H.
    destruct H as (H1 & H2 & H3 & _ & _ & H6).
    rewrite H2, H3, Hc, Hv.
    repeat split; try assumption.
    - unfold LearningValidator.recordOutcome.
      destruct correct; reflexivity.
    - rewrite H1, H2, Hv. reflexivity. }
  destruct Hp as [Hp | [Hp | Hp]]; rewrite Hp.
  - unfold runPuzzle1Trial.
    destruct (MushroomTrial.generate _ _ _) as [[trial rng'] |]; [| discriminate].
    destruct (BoolNet_ask _ _ _) as [choseA net1].
    rewrite <- Hp. apply Hgen; reflexivity.
  - unfold runPuzzle2Trial.
    destruct (ShapeTrial.generate _ _ _) as [[trial rng'] |]; [| discriminate].
    destruct (BoolNet_ask _ _ _) as [choseA net1].
    rewrite <- Hp. apply Hgen; reflexivity.
  - unfold runPuzzle3Trial.
    destruct (XORTrial.generate _) as [trial rng'].
    destruct (BoolNet_ask _ _ _) as [choseA net1].
    rewrite <- Hp. apply Hgen; reflexivity.
Qed.

Lemma runTrials_validator_puzzle (fuel : nat) (n : nat) :
  forall (i : Z) (s s' : GameState gd) (res : Z),
    validator_puzzle (current_puzzle s) ->
    LearningValidator.total_trials (validator s) = i ->
    runTrials gd fuel n i s = Some (res, s') ->
    current_puzzle s' = current_puzzle s
    /\ LearningValidator.total_trials (validator s') <= i + Z.of_nat n
    /\ (res = -1
        \/ (res = LearningValidator.total_trials (validator s')
            /\ i < res
            /\ LearningValidator.hasLearned (validator s') = true
            /\ puzzle_complete s' = true)).
Proof.
  induction n as [| n IH]; intros i s s' res Hp Hi; cbn [runTrials].
  - intros [= <- <-]. split; [reflexivity |]. split; [lia | left; reflexivity].
  - destruct (runTrial gd fuel s) as [[r s1] |] eqn:Hrun; [| discriminate].
    destruct (runTrial_validator_puzzle fuel s s1 r Hp Hrun)
      as (Hc & Ht & Hr & Hpc).
    destruct r.
    + intros [= <- <-]. split; [exact Hc |]. split; [lia |].
      right. repeat split; try lia; auto.
    + intros Hrest.
      apply IH in Hrest; [| rewrite Hc; exact Hp | lia].
      destruct Hrest as (Hc' & Hle & Hres).
      split; [congruence |]. split; [lia |].
      destruct Hres as [-> | (Hres & Hlt & Hl & Hpc')];
        [left; reflexivity | right].
      repeat split; try lia; auto.
Qed.

Lemma hasLearned_needs_five (v : LearningValidator.t) :
  LearningValidator.hasLearned v = true ->
  5 <= LearningValidator.total_trials v /\ 4 <= LearningValidator.successes v.
Proof.
  unfold LearningValidator.hasLearned, LearningValidator.requiredSuccesses.
  rewrite andb_true_iff, !Z.geb_le. tauto.
Qed.

End ValidatorPuzzles.

(** X20. On the first three puzzles [runPuzzleToCompletion] returns either
    -1 or the number of the trial after which [hasLearned()] first held,
    which is the validator's [total_trials]: that number is at least 5 and
    at most [maxTrials], and [puzzle_complete] is then set.  With
    [maxTrials] below 5 the result is always -1, whatever the network
    answers.  The current puzzle is never changed. *)
Theorem runPuzzleToCompletion_validator_puzzles
    {gd : IntegerGD} (fuel : nat) (s s' : GameState gd) (maxTrials res : Z) :
  current_puzzle s = GENERALIZATION \/ current_puzzle s = FEATURE_SELECTION
  \/ current_puzzle s = XOR_CONTEXT ->
  runPuzzleToCompletion gd fuel s maxTrials = Some (res, s') ->
  current_puzzle s' = current_puzzle s
  /\ (res = -1
      \/ (5 <= res <= maxTrials
          /\ res = LearningValidator.total_trials (validator s')
          /\ LearningValidator.hasLearned (validator s') = true
          /\ puzzle_complete s' = true))
  /\ (maxTrials < 5 -> res = -1).
Proof.
  intros Hp Hrun. unfold runPuzzleToCompletion in Hrun.
  apply runTrials_validator_puzzle in Hrun; [| exact Hp | reflexivity].
  destruct Hrun as (Hc & Hle & Hres).
  split; [exact Hc |].
  assert (Hcases : res = -1
                   \/ (5 <= res <= maxTrials
                       /\ res = LearningValidator.total_trials (validator s')
                       /\ LearningValidator.hasLearned (validator s') = true
                       /\ puzzle_complete s' = true)).
  { destruct Hres as [-> | (Hres & Hlt & Hl & Hpc)]; [left; reflexivity |].
    right. pose proof (hasLearned_needs_five _ Hl). repeat split; try lia; auto. }
  split; [exact Hcases |].
  intros Hmax. destruct Hcases as [-> | [? _]]; [reflexivity | lia].
Qed.

Lemma runPuzzleToCompletion_validator_puzzles_witness :
  match runPuzzleToCompletion echo_net 50 echo_game 100 with
  | Some (res, s') =>
      res = 24
      /\ LearningValidator.total_trials (validator s') = 24
      /\ puzzle_complete s' = true
  | None => False
  end.
Proof.
  destruct (runPuzzleToCompletion echo_net 50 echo_game 100)
    as [[res s'] |] eqn:Hrun.
  - assert (Hres : res = 24).
    { pose proof (f_equal (option_map fst) Hrun) as H. vm_compute in H.
      congruence. }
    destruct (runPuzzleToCompletion_validator_puzzles 50 echo_game s' 100 res
                ltac:(left; reflexivity) Hrun) as (_ & H & _).
    destruct H as [H | (_ & Ht & _ & Hpc)]; [lia |].
    split; [exact Hres |]. split; [congruence | exact Hpc].
  - vm_compute in Hrun. discriminate.
Defined.


(** ** game.cpp: the sequence puzzle and the gauntlet *)

Section SequenceAndGauntlet.

Context {gd : IntegerGD}.

Lemma runTrial_keeps_puzzle (fuel : nat) (s s' : GameState gd) (r : bool) :
  runTrial gd fuel s = Some (r, s') ->
  current_puzzle s' = current_puzzle s
  /\ (r = true -> puzzle_complete s' = true).
Proof.
  unfold runTrial.
  assert (Hrc : forall s0 correct,
             current_puzzle s0 = current_puzzle s ->
             Some (record_and_check gd s0 correct) = Some (r, s') ->
             current_puzzle s' = current_puzzle s
             /\ (r = true -> puzzle_complete s' = true)).
  { intros s0 correct Hc Heq.
    assert (Hrs : record_and_check gd s0 correct = (r, s')) by congruence.
    pose proof (record_and_check_fields s0 correct) as H.
    cbn zeta in H. rewrite Hrs in H. cbn [fst snd] in H.
    destruct H as (_ & _ & H3 & _ & _ & H6). split; [congruence | exact H6]. }
  destruct (current_puzzle s) eqn:Hp.
  - unfold runPuzzle1Trial.
    destruct (MushroomTrial.generate _ _ _) as [[trial rng'] |]; [| discriminate].
    destruct (BoolNet_ask _ _ _) as [choseA net1].
    apply Hrc. exact Hp.
  - unfold runPuzzle2Trial.
    destruct (ShapeTrial.generate _ _ _) as [[trial rng'] |]; [| discriminate].
    destruct (BoolNet_ask _ _ _) as [choseA net1].
    apply Hrc. exact Hp.
  - unfold runPuzzle3Trial.
    destruct (XORTrial.generate _) as [trial rng'].
    destruct (BoolNet_ask _ _ _) as [choseA net1].
    apply Hrc. exact Hp.
  - unfold runPuzzle4Trial.
    destruct (chooseAction _ _ _) as [action net1].
    destruct (SequencePuzzle.pressButton _ _) as [ok puzzle1].
    destruct (SequencePuzzle.isSuccess puzzle1).
    + apply Hrc. exact Hp.
    + destruct (SequencePuzzle.isFail puzzle1);
        intros [= <- <-]; cbn [current_puzzle]; split;
        [exact Hp | discriminate | exact Hp | discriminate].
  - unfold runPuzzle5Trial.
    destruct (GauntletState.isComplete (gauntlet s)).
    + intros [= <- <-]. cbn. split; [exact Hp | reflexivity].
    + destruct (CompositionTrial.generate _ _) as [[trial rng'] |];
        [| discriminate].
      destruct (BoolNet_ask _ _ _) as [choseA net1].
      intros [= <- <-]. cbn [current_puzzle puzzle_complete].
      split; [exact Hp |]. intros ->. reflexivity.
Qed.

Lemma runTrials_keeps_puzzle (fuel : nat) (n : nat) :
  forall (i : Z) (s s' : GameState gd) (res : Z),
    runTrials gd fuel n i s = Some (res, s') ->
    current_puzzle s' = current_puzzle s
    /\ (res = -1 \/ (i < res <= i + Z.of_nat n /\ puzzle_complete s' = true)).
Proof.
  induction n as [| n IH]; intros i s s' res; cbn [runTrials].
  - intros [= <- <-]. split; [reflexivity | left; reflexivity].
  - destruct (runTrial gd fuel s) as [[r s1] |] eqn:Hrun; [| discriminate].
    destruct (runTrial_keeps_puzzle fuel s s1 r Hrun) as [Hc Hpc].
    destruct r.
    + intros [= <- <-]. split; [exact Hc |]. right. split; [lia | auto].
    + intros Hrest. apply IH in Hrest. destruct Hrest as [Hc' Hres].
      split; [congruence |].
      destruct Hres as [-> | [Hb Hp]]; [left; reflexivity | right].
      split; [lia | exact Hp].
Qed.

Lemma runPuzzle4Trial_step (s s' : GameState gd) (r : bool) :
  runPuzzle4Trial gd s = Some (r, s') ->
  sequence_waiting s ->
  0 <= LearningValidator.successes (validator s) ->
  0 <= LearningValidator.total_trials (validator s) ->
  sequence_waiting s'
  /\ 0 <= LearningValidator.successes (validator s')
  /\ 0 <= LearningValidator.total_trials (validator s')
  /\ sequence_progress s' <= sequence_progress s + 1
  /\ (r = true ->
      LearningValidator.hasLearned (validator s') = true
      /\ SequencePuzzle.state (seq_puzzle s') = START).
Proof.
  unfold runPuzzle4Trial, sequence_waiting, sequence_progress.
  destruct (chooseAction _ _ _) as [action net1].
  unfold SequencePuzzle.pressButton, record_and_check.
  unfold SequencePuzzle.inProgress at 2.
  intros Hrun [Hst | Hst] Hs Ht; rewrite Hst in *.
  - destruct (action =? 0); cbn in Hrun; injection Hrun as <- <-;
      cbn [seq_puzzle validator LearningValidator.recordOutcome
           LearningValidator.successes LearningValidator.total_trials
           SequencePuzzle.state SequencePuzzle.inProgress SequencePuzzle.reset
           andb];
      (split; [tauto |]); (split; [lia |]); (split; [lia |]);
      (split; [| discriminate]);
      destruct (Z.leb_spec 1 (LearningValidator.total_trials (validator s)));
      lia.
  - destruct (action =? 1); cbn in Hrun; injection Hrun as <- <-;
      cbn [seq_puzzle validator LearningValidator.recordOutcome
           LearningValidator.successes LearningValidator.total_trials
           SequencePuzzle.state SequencePuzzle.inProgress SequencePuzzle.reset
           andb];
      (split; [tauto |]); (split; [lia |]); (split; [lia |]);
      (split;
       [destruct (Z.leb_spec 1 (LearningValidator.total_trials (validator s)));
        lia |]).
    + intros H. split; [exact H | reflexivity].
    + discriminate.
Qed.

Lemma runTrials_sequence (fuel : nat) (n : nat) :
  forall (i : Z) (s s' : GameState gd) (res : Z),
    current_puzzle s = SEQUENCE ->
    sequence_waiting s ->
    0 <= LearningValidator.successes (validator s) ->
    0 <= LearningValidator.total_trials (validator s) ->
    sequence_progress s <= i ->
    runTrials gd fuel n i s = Some (res, s') ->
    sequence_waiting s'
    /\ (res = -1
        \/ (9 <= res
            /\ LearningValidator.hasLearned (validator s') = true
            /\ SequencePuzzle.state (seq_puzzle s') = START)).
Proof.
  induction n as [| n IH]; intros i s s' res Hp Hw Hs Ht Hprog;
    cbn [runTrials].
  - intros [= <- <-]. split; [exact Hw | left; reflexivity].
  - destruct (runTrial gd fuel s) as [[r s1] |] eqn:Hrun; [| discriminate].
    pose proof (runTrial_keeps_puzzle fuel s s1 r Hrun) as [Hc _].
    unfold runTrial in Hrun. rewrite Hp in Hrun.
    destruct (runPuzzle4Trial_step s s1 r Hrun Hw Hs Ht)
      as (Hw1 & Hs1 & Ht1 & Hp1 & Hr).
    destruct r.
    + intros [= <- <-]. split; [exact Hw1 |]. right.
      destruct (Hr eq_refl) as [Hl Hst].
      pose proof (hasLearned_needs_five _ Hl) as [H5 H4].
      assert (Hq : 9 <= sequence_progress s1).
      { unfold sequence_progress, SequencePuzzle.inProgress.
        rewrite Hst. cbn [andb]. lia. }
      repeat split; try assumption. lia.
    + intros Hrest.
      apply (IH (i + 1)) in Hrest; try assumption; [congruence | lia].
Qed.

Lemma gauntlet_after_step (i : Z) (g : GauntletState.t) (correct : bool) :
  0 <= i -> gauntlet_after i g ->
  gauntlet_after (i + 1) (GauntletState.recordOutcome g correct)
  /\ (GauntletState.isComplete g = true <-> 30 <= i).
Proof.
  unfold gauntlet_after, GauntletState.recordOutcome, GauntletState.inWarmup,
    GauntletState.isComplete, GauntletState.WARMUP_TRIALS,
    GauntletState.SCORED_TRIALS.
  intros Hi (Hw & Hs & Hc). rewrite Z.geb_le.
  destruct (Z.ltb_spec (GauntletState.warmup_completed g) 10);
    cbn [GauntletState.warmup_completed GauntletState.scored_completed
         GauntletState.correct];
    destruct correct; repeat split; lia.
Qed.

Lemma runTrials_gauntlet (fuel : nat) (n : nat) :
  forall (i : Z) (s s' : GameState gd) (res : Z),
    current_puzzle s = COMPOSITION ->
    0 <= i < 30 ->
    gauntlet_after i (gauntlet s) ->
    runTrials gd fuel n i s = Some (res, s') ->
    (res = -1 /\ i + Z.of_nat n < 30)
    \/ (res = 30 /\ 30 <= i + Z.of_nat n
        /\ gauntlet_after 30 (gauntlet s')
        /\ puzzle_complete s' = true).
Proof.
  induction n as [| n IH]; intros i s s' res Hp Hi Hg; cbn [runTrials].
  - intros [= <- <-]. left. split; [reflexivity | lia].
  - destruct (runTrial gd fuel s) as [[r s1] |] eqn:Hrun; [| discriminate].
    pose proof (runTrial_keeps_puzzle fuel s s1 r Hrun) as [Hc Hpc].
    unfold runTrial in Hrun. rewrite Hp in Hrun.
    unfold runPuzzle5Trial in Hrun.
    destruct (GauntletState.isComplete (gauntlet s)) eqn:Hdone.
    { apply (gauntlet_after_step i (gauntlet s) true ltac:(lia) Hg) in Hdone.
      lia. }
    destruct (CompositionTrial.generate _ _) as [[trial rng'] |];
      [| discriminate].
    destruct (BoolNet_ask _ _ _) as [choseA net1].
    set (correct := Bool.eqb choseA (CompositionTrial.correctIsA trial)) in *.
    destruct (gauntlet_after_step i (gauntlet s) correct ltac:(lia) Hg)
      as [Hg1 _].
    pose proof (gauntlet_after_step (i + 1) _ true ltac:(lia) Hg1)
      as [_ Hcomp1].
    injection Hrun as Hr Hs1.
    assert (Hgs : gauntlet s1
                  = GauntletState.recordOutcome (gauntlet s) correct)
      by (rewrite <- Hs1; reflexivity).
    rewrite <- Hgs in *.
    destruct r.
    + intros [= <- <-].
      assert (30 <= i + 1) by (apply Hcomp1; exact Hr).
      assert (Hi29 : i = 29) by lia. subst i.
      change (29 + 1) with 30 in *.
      right. split; [reflexivity |]. split; [lia |].
      split; [exact Hg1 | auto].
    + intros Hrest.
      assert (Hlt : i + 1 < 30).
      { destruct (Z.lt_ge_cases (i + 1) 30) as [? | Hge]; [assumption |].
        apply Hcomp1 in Hge. congruence. }
      apply (IH (i + 1)) in Hrest; [| congruence | lia | exact Hg1].
      destruct Hrest as [[-> Hn] | (-> & Hn & Hrest)]; [left | right].
      * split; [reflexivity | lia].
      * split; [reflexivity |]. split; [lia | exact Hrest].
Qed.

End SequenceAndGauntlet.

(** ** game.cpp: the whole demo *)

Section FullDemo.

Context {gd : IntegerGD}.

Lemma runTrial_keeps_demo_complete (fuel : nat) (s s' : GameState gd) (r : bool) :
  runTrial gd fuel s = Some (r, s') -> demo_complete s' = demo_complete s.
Proof.
  unfold runTrial, runPuzzle1Trial, runPuzzle2Trial, runPuzzle3Trial,
    runPuzzle4Trial, runPuzzle5Trial, record_and_check.
  destruct (current_puzzle s).
  - destruct (MushroomTrial.generate _ _ _) as [[trial rng'] |]; [| discriminate].
    destruct (BoolNet_ask _ _ _) as [choseA net1].
    intros [= <- <-]. reflexivity.
  - destruct (ShapeTrial.generate _ _ _) as [[trial rng'] |]; [| discriminate].
    destruct (BoolNet_ask _ _ _) as [choseA net1].
    intros [= <- <-]. reflexivity.
  - destruct (XORTrial.generate _) as [trial rng'].
    destruct (BoolNet_ask _ _ _) as [choseA net1].
    intros [= <- <-]. reflexivity.
  - destruct (chooseAction _ _ _) as [action net1].
    destruct (SequencePuzzle.pressButton _ _) as [ok puzzle1].
    destruct (SequencePuzzle.isSuccess puzzle1);
      [| destruct (SequencePuzzle.isFail puzzle1)];
      intros [= <- <-]; reflexivity.
  - destruct (GauntletState.isComplete (gauntlet s)).
    + intros [= <- <-]. reflexivity.
    + destruct (CompositionTrial.generate _ _) as [[trial rng'] |];
        [| discriminate].
      destruct (BoolNet_ask _ _ _) as [choseA net1].
      intros [= <- <-]. reflexivity.
Qed.

Lemma runTrials_keeps_demo_complete (fuel : nat) (n : nat) :
  forall (i : Z) (s s' : GameState gd) (res : Z),
    runTrials gd fuel n i s = Some (res, s') ->
    demo_complete s' = demo_complete s.
Proof.
  induction n as [| n IH]; intros i s s' res; cbn [runTrials].
  - intros [= <- <-]. reflexivity.
  - destruct (runTrial gd fuel s) as [[r s1] |] eqn:Hrun; [| discriminate].
    apply runTrial_keeps_demo_complete in Hrun.
    destruct r.
    + intros [= <- <-]. exact Hrun.
    + intros Hrest. apply IH in Hrest. congruence.
Qed.

Lemma runPuzzle4Trial_returns (s : GameState gd) :
  exists r s', runPuzzle4Trial gd s = Some (r, s').
Proof.
  unfold runPuzzle4Trial.
  destruct (chooseAction _ _ _) as [action net1].
  destruct (SequencePuzzle.pressButton _ _) as [ok puzzle1].
  destruct (SequencePuzzle.isSuccess puzzle1);
    [| destruct (SequencePuzzle.isFail puzzle1)].
  - destruct (record_and_check gd _ true) as [r s'] eqn:E.
    exists r, s'. reflexivity.
  - eexists _, _. reflexivity.
  - eexists _, _. reflexivity.
Qed.

Lemma runTrials_sequence_returns (fuel : nat) (n : nat) :
  forall (i : Z) (s : GameState gd),
    current_puzzle s = SEQUENCE ->
    exists res s', runTrials gd fuel n i s = Some (res, s').
Proof.
  induction n as [| n IH]; intros i s Hp; cbn [runTrials].
  - eexists _, _. reflexivity.
  - destruct (runPuzzle4Trial_returns s) as (r & s1 & Hrun).
    assert (Hrun' : runTrial gd fuel s = Some (r, s1))
      by (unfold runTrial; rewrite Hp; exact Hrun).
    rewrite Hrun'.
    destruct (runTrial_keeps_puzzle fuel s s1 r Hrun') as [Hc _].
    destruct r.
    + eexists _, _. reflexivity.
    + apply IH. congruence.
Qed.

Lemma puzzle_to_int_four (p : PuzzleType) :
  puzzle_to_int p = 4 <-> p = COMPOSITION.
Proof. destruct p; cbn; split; intros H; first [reflexivity | discriminate]. Qed.

Lemma runFullDemo_loop_spec (fuel : nat) (m : Z) (n : nat) :
  forall (p : Z) (s s' : GameState gd) (ok : bool),
    p + Z.of_nat n = 5 ->
    0 <= p <= puzzle_to_int (current_puzzle s) ->
    runFullDemo_loop gd fuel n p s m = Some (ok, s') ->
    (ok = true ->
     demo_complete s' = true /\ current_puzzle s' = COMPOSITION
     /\ 30 <= m /\ gauntlet_after 30 (gauntlet s')
     /\ puzzle_complete s' = true)
    /\ (ok = false -> puzzle_to_int (current_puzzle s) = p ->
        demo_complete s' = demo_complete s).
Proof.
  induction n as [| n IH]; intros p s s' ok Hn Hp;
    pose proof (puzzle_of_to_int (current_puzzle s)) as [_ Hr];
    [lia |].
  cbn [runFullDemo_loop].
  destruct (runPuzzleToCompletion gd fuel s m) as [[trials s1] |] eqn:Hrun;
    [| discriminate].
  unfold runPuzzleToCompletion in Hrun.
  pose proof (runTrials_keeps_puzzle _ _ _ _ _ _ Hrun) as [Hc _].
  pose proof (runTrials_keeps_demo_complete _ _ _ _ _ _ Hrun) as Hd.
  change (current_puzzle (GameState_reset s)) with (current_puzzle s) in Hc.
  change (demo_complete (GameState_reset s)) with (demo_complete s) in Hd.
  destruct (Z.ltb_spec trials 0) as [Hneg | Hpos].
  { intros [= <- <-]. split; [discriminate |]. intros _ _. exact Hd. }
  unfold NUM_PUZZLES. change (5 - 1) with 4.
  destruct (Z.ltb_spec p 4) as [Hlt | Hge].
  - intros Hrest.
    destruct (nextPuzzle_step s1) as (Hnext & _ & Hdn). cbn zeta in Hnext, Hdn.
    apply IH in Hrest; [| lia | rewrite Hnext, Hc; lia].
    destruct Hrest as [Htrue Hfalse].
    split; [exact Htrue |].
    intros Hok Heq. rewrite Hfalse; [| exact Hok | rewrite Hnext, Hc; lia].
    rewrite Hdn, Hd.
    destruct (current_puzzle s1) eqn:Hcp; rewrite ?orb_false_r;
      try reflexivity.
    rewrite <- Hc in Heq. cbn in Heq. lia.
  - assert (Hcomp : current_puzzle s = COMPOSITION)
      by (apply puzzle_to_int_four; lia).
    apply runTrials_gauntlet in Hrun;
      [| exact Hcomp | lia
       | cbn; unfold gauntlet_after; cbn; repeat split; lia].
    destruct Hrun as [[-> _] | (-> & Hm & Hg & Hpc)]; [lia |].
    destruct n as [| n]; [| lia]. cbn [runFullDemo_loop].
    intros [= <- <-]. split; [| discriminate]. intros _.
    cbn [demo_complete current_puzzle gauntlet puzzle_complete].
    split; [reflexivity |]. split; [congruence |].
    split; [lia |]. split; assumption.
Qed.

End FullDemo.

(** X21. On the sequence puzzle [runPuzzleToCompletion] always returns,
    and it returns -1 or a number from 9 on, whatever the network presses:
    a fifth recorded trial that closes a streak of four successes needs a
    first trial of at least one press and four successes of two presses
    each.  So with [maxTrials] below 9 the result is -1.  A positive result
    is at most [maxTrials]; the validator has then learned,
    [puzzle_complete] is set and the puzzle is back at START.  The puzzle
    is left at START or after an A, never in SUCCESS or FAIL. *)
Theorem runPuzzleToCompletion_sequence
    {gd : IntegerGD} (fuel : nat) (s : GameState gd) (maxTrials : Z) :
  current_puzzle s = SEQUENCE ->
  sequence_waiting s ->
  exists (res : Z) (s' : GameState gd),
    runPuzzleToCompletion gd fuel s maxTrials = Some (res, s')
    /\ current_puzzle s' = SEQUENCE
    /\ sequence_waiting s'
    /\ (res = -1
        \/ (9 <= res <= maxTrials
            /\ LearningValidator.hasLearned (validator s') = true
            /\ puzzle_complete s' = true
            /\ SequencePuzzle.state (seq_puzzle s') = START))
    /\ (maxTrials < 9 -> res = -1).
Proof.
  intros Hp Hw. unfold runPuzzleToCompletion.
  destruct (runTrials_sequence_returns fuel (Z.to_nat maxTrials) 0
              (GameState_reset s) Hp) as (res & s' & Hrun).
  exists res, s'. split; [exact Hrun |].
  destruct (runTrials_keeps_puzzle _ _ _ _ _ _ Hrun) as [Hc Hres].
  apply (runTrials_sequence fuel _ 0) in Hrun;
    [| exact Hp | exact Hw | cbn; lia | cbn; lia
     | unfold sequence_progress; cbn; rewrite andb_false_r; lia].
  destruct Hrun as [Hw' Hseq].
  split; [rewrite Hc; exact Hp |].
  split; [exact Hw' |].
  assert (Hcases : res = -1
                   \/ (9 <= res <= maxTrials
                       /\ LearningValidator.hasLearned (validator s') = true
                       /\ puzzle_complete s' = true
                       /\ SequencePuzzle.state (seq_puzzle s') = START)).
  { destruct Hseq as [-> | (H9 & Hl & Hst)]; [left; reflexivity |].
    destruct Hres as [-> | [Hb Hpc]]; [left; reflexivity |].
    right. repeat split; try assumption; lia. }
  split; [exact Hcases |].
  intros Hmax. destruct Hcases as [-> | (H9 & _)]; [reflexivity | lia].
Qed.

Lemma runPuzzleToCompletion_sequence_witness :
  exists (res : Z) (s' : GameState echo_net),
    runPuzzleToCompletion echo_net 0 (advance 3 echo_game) 100 = Some (res, s')
    /\ res = 10
    /\ LearningValidator.hasLearned (validator s') = true.
Proof.
  destruct (runPuzzleToCompletion_sequence 0 (advance 3 echo_game) 100
              ltac:(reflexivity) ltac:(left; reflexivity))
    as (res & s' & Hrun & _ & _ & Hres & _).
  exists res, s'. split; [exact Hrun |].
  assert (Hten : res = 10).
  { apply (f_equal (option_map fst)) in Hrun. vm_compute in Hrun.
    congruence. }
  split; [exact Hten |].
  destruct Hres as [-> | (_ & Hl & _)]; [discriminate | exact Hl].
Defined.

(** X22. The gauntlet is not gated on the score: on the composition puzzle
    [runPuzzleToCompletion], when it returns, returns 30 whenever
    [maxTrials] is at least 30 and -1 whenever it is less, whatever the
    network answers.  After the 30 trials the gauntlet holds 10 warm-up and
    20 scored outcomes with between 0 and 20 of them correct, it is
    complete and [puzzle_complete] is set. *)
Theorem runPuzzleToCompletion_gauntlet
    {gd : IntegerGD} (fuel : nat) (s s' : GameState gd) (maxTrials res : Z) :
  current_puzzle s = COMPOSITION ->
  runPuzzleToCompletion gd fuel s maxTrials = Some (res, s') ->
  current_puzzle s' = COMPOSITION
  /\ (maxTrials < 30 -> res = -1)
  /\ (30 <= maxTrials ->
      res = 30
      /\ GauntletState.warmup_completed (gauntlet s') = 10
      /\ GauntletState.scored_completed (gauntlet s') = 20
      /\ 0 <= GauntletState.correct (gauntlet s') <= 20
      /\ GauntletState.isComplete (gauntlet s') = true
      /\ puzzle_complete s' = true).
Proof.
  intros Hp Hrun. unfold runPuzzleToCompletion in Hrun.
  destruct (runTrials_keeps_puzzle _ _ _ _ _ _ Hrun) as [Hc _].
  split; [rewrite Hc; exact Hp |].
  apply runTrials_gauntlet in Hrun;
    [| exact Hp | lia | cbn; unfold gauntlet_after; cbn; repeat split; lia].
  destruct Hrun as [[-> Hlt] | (-> & Hge & (Hw & Hs & Hcorr) & Hpc)].
  - split; [reflexivity | lia].
  - split; [lia |]. intros _.
    unfold GauntletState.isComplete, GauntletState.SCORED_TRIALS.
    rewrite Hs in *. rewrite Hw.
    repeat split; try assumption; try reflexivity; lia.
Qed.

Lemma runPuzzleToCompletion_gauntlet_witness :
  match runPuzzleToCompletion echo_net 50 (advance 4 echo_game) 100 with
  | Some (res, s') =>
      res = 30 /\ GauntletState.scored_completed (gauntlet s') = 20
  | None => False
  end.
Proof.
  destruct (runPuzzleToCompletion echo_net 50 (advance 4 echo_game) 100)
    as [[res s'] |] eqn:Hrun.
  - destruct (runPuzzleToCompletion_gauntlet 50 (advance 4 echo_game) s' 100
                res ltac:(reflexivity) Hrun) as (_ & _ & H).
    destruct (H ltac:(lia)) as (H30 & _ & H20 & _).
    split; assumption.
  - vm_compute in Hrun. discriminate.
Defined.

(** X23. [runFullDemo] returns true only after the gauntlet of the last
    puzzle was run to its end: the current puzzle is then COMPOSITION, the
    gauntlet is complete with 20 scored trials, and [puzzle_complete] and
    [demo_complete] are set; this needs [maxTrialsPerPuzzle] of at least
    30, so with less the demo fails whatever the networks answer.  Started
    on the first puzzle, a failed demo leaves [demo_complete] as it was. *)
Theorem runFullDemo_outcome
    {gd : IntegerGD} (fuel : nat) (s s' : GameState gd)
    (maxTrialsPerPuzzle : Z) (ok : bool) :
  runFullDemo gd fuel s maxTrialsPerPuzzle = Some (ok, s') ->
  (ok = true ->
   demo_complete s' = true /\ puzzle_complete s' = true
   /\ current_puzzle s' = COMPOSITION
   /\ GauntletState.isComplete (gauntlet s') = true
   /\ GauntletState.currentTrials (gauntlet s') = 30)
  /\ (maxTrialsPerPuzzle < 30 -> ok = false)
  /\ (current_puzzle s = GENERALIZATION -> ok = false ->
      demo_complete s' = demo_complete s).
Proof.
  unfold runFullDemo. intros Hrun.
  pose proof (puzzle_of_to_int (current_puzzle s)) as [_ Hr].
  apply runFullDemo_loop_spec in Hrun; [| reflexivity | lia].
  destruct Hrun as [Htrue Hfalse].
  split; [| split].
  - intros Hok. destruct (Htrue Hok) as (Hd & Hc & _ & (Hw & Hs & _) & Hpc).
    unfold GauntletState.isComplete, GauntletState.currentTrials,
      GauntletState.SCORED_TRIALS.
    rewrite Hw, Hs. repeat split; assumption || reflexivity.
  - intros Hm. destruct ok; [| reflexivity].
    destruct (Htrue eq_refl) as (_ & _ & H30 & _). lia.
  - intros Hp Hok. apply Hfalse; [exact Hok | rewrite Hp; reflexivity].
Qed.

Lemma runFullDemo_outcome_witness :
  match runFullDemo echo_net 50 echo_game 100 with
  | Some (ok, s') =>
      ok = true /\ demo_complete s' = true
      /\ GauntletState.currentTrials (gauntlet s') = 30
  | None => False
  end.
Proof.
  destruct (runFullDemo echo_net 50 echo_game 100) as [[ok s'] |] eqn:Hrun.
  - assert (Hok : ok = true).
    { pose proof (f_equal (option_map fst) Hrun) as H. vm_compute in H.
      congruence. }
    destruct (runFullDemo_outcome 50 echo_game s' 100 ok Hrun) as (H & _ & _).
    destruct (H Hok) as (Hd & _ & _ & _ & Ht).
    split; [exact Hok |]. split; assumption.
  - vm_compute in Hrun. discriminate.
Defined.

(* ===================================================================== *)
(** * Part IV: what a run takes from the seed                             *)
(* ===================================================================== *)

Section TwoRuns.

Context {gd1 gd2 : IntegerGD}.



End TwoRuns.




